(** * Finance dashboard: the encrypted synchronisation engine

    A shallow embedding of [FINANCE DASHBOARD/api_integrations.py] and of the
    storage routes of [FINANCE DASHBOARD/app.py].

    Conventions of the embedding:
    - a Python [str] is a [string]; [bytes] is a [list byte];
    - a JSON / Python number (amounts, balances, prices) is a rational [Q]
      (finite values only); among the numbers of the provider's JSON, which
      are Python ints or floats, the fraction [n # 1] is the int [n] and a
      fraction with another denominator is a float ([84 # 2] is 42.0);
    - a [datetime] is a count of microseconds ([Z]); a calendar date, as
      printed by [strftime('%Y-%m-%d')], is its day number;
    - a SQLite table is the list of its rows in rowid order together with
      its AUTOINCREMENT counter; a table that was never created is [None];
    - a connection that a call leaves open after a write keeps the write
      lock of the database file until the garbage collector reclaims it;
    - code that raises runs in a state-and-exception monad [M]. *)

From Stdlib Require Import ZArith QArith Qabs List String Ascii Bool Lia.
From Stdlib.Strings Require Import Byte.
From Stdlib Require Import DecimalString.
Import ListNotations.

Open Scope string_scope.
Open Scope list_scope.
Open Scope Z_scope.

(** [s1 + s2] on strings *)
Infix "+++" := String.append (at level 60, right associativity).

(** ** Python exceptions *)

(** The exception classes that the embedded code can raise, each with the
    arguments it was built from. *)
Inductive Exception : Type :=
| KeyError (key : string)            (* [d[key]] on a missing key *)
| TypeError (msg : string)           (* [None[0]] *)
| UnicodeDecodeError (msg : string)  (* [bytes.decode()] on ill-formed UTF-8 *)
| InvalidToken                       (* [Fernet.decrypt] *)
| OperationalError (msg : string)    (* sqlite3: no such table, database is locked *)
| OverflowError (msg : string)       (* sqlite3: an int outside 64 bits *)
| ConnectionError (msg : string)     (* [requests.post] *)
| PlainException (msg : string).     (* [raise Exception(msg)] *)

(** [str(e)] *)
Definition str_of_exception (e : Exception) : string :=
  match e with
  | KeyError key => "'" +++ key +++ "'"
  | TypeError msg => msg
  | UnicodeDecodeError msg => msg
  | InvalidToken => ""
  | OperationalError msg => msg
  | OverflowError msg => msg
  | ConnectionError msg => msg
  | PlainException msg => msg
  end.

(** [str(n)] for an integer *)
Definition str_of_int (n : Z) : string := NilZero.string_of_int (Z.to_int n).

(** Outcome of a computation without side effects: a value or a raised
    exception. *)
Inductive result (A : Type) : Type :=
| Val (a : A)
| Exn (e : Exception).
Arguments Val {A} a.
Arguments Exn {A} e.

Definition rbind {A B} (r : result A) (k : A -> result B) : result B :=
  match r with
  | Val a => k a
  | Exn e => Exn e
  end.

(** [d[key]] on a field that the provider may have left out. *)
Definition getitem {A} (key : string) (field : option A) : result A :=
  match field with
  | Some a => Val a
  | None => Exn (KeyError key)
  end.

(** ** Dates *)

Definition datetime := Z.
Definition date := Z.

Definition us_per_day : Z := 86400 * 1000000.

(** [timedelta(days=n)] *)
Definition timedelta_days (n : Z) : Z := n * us_per_day.

(** [dt.strftime('%Y-%m-%d')]: the calendar day of [dt]. *)
Definition strftime_Ymd (dt : datetime) : date := dt / us_per_day.

(** ** Text and bytes

    A [str] is kept as the UTF-8 form of its text, so [str.encode()] only
    changes the type; [bytes.decode()] checks that the bytes are well-formed
    UTF-8 (Unicode table 3-7) and raises [UnicodeDecodeError] otherwise. *)

Definition bytes := list byte.

Definition str_encode (s : string) : bytes := list_byte_of_string s.

Definition between (lo hi : N) (b : byte) : bool :=
  (lo <=? Byte.to_N b)%N && (Byte.to_N b <=? hi)%N.

Definition continuation : byte -> bool := between 128 191.

Fixpoint utf8_valid (l : bytes) : bool :=
  match l with
  | [] => true
  | b0 :: l1 =>
    if between 0 127 b0 then utf8_valid l1 else
    match l1 with
    | [] => false
    | b1 :: l2 =>
      if between 194 223 b0 then continuation b1 && utf8_valid l2 else
      match l2 with
      | [] => false
      | b2 :: l3 =>
        if between 224 224 b0 then between 160 191 b1 && continuation b2 && utf8_valid l3 else
        if between 225 236 b0 then continuation b1 && continuation b2 && utf8_valid l3 else
        if between 237 237 b0 then between 128 159 b1 && continuation b2 && utf8_valid l3 else
        if between 238 239 b0 then continuation b1 && continuation b2 && utf8_valid l3 else
        match l3 with
        | [] => false
        | b3 :: l4 =>
          if between 240 240 b0
          then between 144 191 b1 && continuation b2 && continuation b3 && utf8_valid l4 else
          if between 241 243 b0
          then continuation b1 && continuation b2 && continuation b3 && utf8_valid l4 else
          if between 244 244 b0
          then between 128 143 b1 && continuation b2 && continuation b3 && utf8_valid l4
          else false
        end
      end
    end
  end.

Definition bytes_decode (b : bytes) : result string :=
  if utf8_valid b then Val (string_of_list_byte b)
  else Exn (UnicodeDecodeError "'utf-8' codec can't decode bytes").

(** A [str] value of the embedding is text when its bytes are well-formed. *)
Definition well_formed (s : string) : Prop := utf8_valid (str_encode s) = true.

(** ** The cipher suite

    [cryptography.fernet.Fernet] is a library object handed to the code; it
    is taken as a parameter.  [encrypt] draws a fresh initialisation vector
    and reads the time: the [nat] tells which draw it is.  [decrypt] answers
    [None] where the library raises [InvalidToken]. *)

Record Fernet := {
  encrypt : nat -> bytes -> bytes;
  decrypt : bytes -> option bytes
}.

(** What the library documents: a token opens to what was sealed in it under
    the same key, and a token is URL-safe base64 text. *)
Record FernetContract (cipher_suite : Fernet) : Prop := {
  decrypt_encrypt : forall n p, decrypt cipher_suite (encrypt cipher_suite n p) = Some p;
  token_ascii : forall n p, forallb (between 0 127) (encrypt cipher_suite n p) = true
}.

(** ** The provider's JSON

    The objects exchanged with the bank aggregator.  A key that may be
    absent from a JSON object is an [option]. *)

Module Provider.

(** One entry of the ['transactions'] array. *)
Record RawTransaction := {
  raw_amount : option Q;
  raw_name : option string;
  raw_date : option string;
  raw_category : option (list string)
}.

Record RawBalances := {
  raw_current : option Q;
  raw_iso_currency_code : option string
}.

(** One entry of the ['accounts'] array. *)
Record RawAccount := {
  raw_account_id : option string;
  raw_name_ : option string;
  raw_type : option string;
  raw_balances : option RawBalances;
  raw_institution_id : option string
}.

(** The JSON object answered by the provider. *)
Record Response := {
  resp_accounts : option (list RawAccount);
  resp_transactions : option (list RawTransaction)
}.

(** A POST request: the endpoint, the two credential headers and the keys
    of the JSON body. *)
Record Request := {
  endpoint : string;
  PLAID_CLIENT_ID : option string;
  PLAID_SECRET : option string;
  access_token : option string;
  start_date : option date;
  end_date : option date;
  account_ids : list string
}.

(** What [requests.post] does: it raises, or it returns a response with a
    status code, a text and a JSON body. *)
Inductive HttpOutcome : Type :=
| NoAnswer (e : Exception)
| Answer (status_code : Z) (text : string) (json : result Response).

End Provider.

(** The market-data library: what [yf.Ticker(symbol)] gives access to. *)
Module YF.

Record Bar := { Open : Q; Close : Q; Volume : Z }.

Record Ticker := {
  longName : option string;
  info_currency : option string;
  history : list Bar      (* [ticker.history(period="1d")] *)
}.

End YF.

(** ** Values of the program *)

(** The dictionaries built by [PlaidAPI._get_transactions]. *)
Record Transaction := {
  amount : Q;
  description : string;
  transaction_type : string;
  date_ : string;
  category : list string
}.

(** The dataclass [AccountData]. *)
Record AccountData := {
  account_id : string;
  account_name : string;
  account_type : string;
  balance : Q;
  currency : string;
  institution : string;
  last_updated : datetime;
  transactions : option (list Transaction)
}.

(** The dictionary [account_info] sealed into [accounts.encrypted_data]. *)
Record AccountInfo := {
  info_balance : Q;
  info_currency : string;
  info_institution : string;
  last_api_update : datetime
}.

(** The decrypted credentials of a connection. *)
Record Credentials := {
  cred_client_id : option string;
  cred_secret : option string;
  cred_access_token : option string
}.

(** A quote dictionary built by [YFinanceAPI]; the day's change and the
    market capitalisation, which nothing reads, are left out. *)
Record Quote := {
  q_symbol : string;
  q_name : string;
  current_price : Q;
  q_currency : string;
  q_volume : Z;
  q_last_updated : datetime
}.

(** The dictionaries returned by [get_api_connections]. *)
Record Connection := {
  conn_id : Z;
  conn_institution_name : string;
  conn_api_type : string;
  conn_is_active : bool;
  conn_last_sync : option datetime
}.

(** The dictionary [sync_results]. *)
Record SyncResults := {
  success : bool;
  accounts_updated : Z;
  errors : list string;
  last_sync : datetime
}.

(** ** The database *)

Module ApiConnections.
Record row := {
  id : Z;
  user_id : Z;
  institution_name : string;
  api_type : string;
  encrypted_credentials : string;
  is_active : bool;
  last_sync : option datetime;
  created_at : datetime
}.
Definition set_last_sync (t : datetime) (r : row) : row :=
  {| id := id r; user_id := user_id r; institution_name := institution_name r;
     api_type := api_type r; encrypted_credentials := encrypted_credentials r;
     is_active := is_active r; last_sync := Some t; created_at := created_at r |}.
End ApiConnections.

Module Accounts.
Record row := {
  id : Z;
  user_id : Z;
  account_name : string;
  account_type : string;
  encrypted_data : string;
  created_at : datetime;
  updated_at : datetime
}.
Definition set_encrypted_data (data : string) (t : datetime) (r : row) : row :=
  {| id := id r; user_id := user_id r; account_name := account_name r;
     account_type := account_type r; encrypted_data := data;
     created_at := created_at r; updated_at := t |}.
End Accounts.

Module Transactions.
Record row := {
  id : Z;
  account_id : Z;
  amount : Q;
  description : string;
  transaction_type : string;
  date : string;
  encrypted_notes : string;
  created_at : datetime
}.
End Transactions.

(** [stock_holdings] and [crypto_holdings] have the same columns, but for
    the quantity, which is [shares] in the first and [amount] in the
    second. *)
Module Holdings.
Record row := {
  id : Z;
  user_id : Z;
  symbol : string;
  quantity : Q;
  purchase_price : option Q;
  current_price : option Q;
  last_updated : datetime
}.
Definition set_price (price : Q) (t : datetime) (r : row) : row :=
  {| id := id r; user_id := user_id r; symbol := symbol r; quantity := quantity r;
     purchase_price := purchase_price r; current_price := Some price;
     last_updated := t |}.
End Holdings.

(** A table: its rows in rowid order and the largest rowid it ever held
    (the [sqlite_sequence] entry of an AUTOINCREMENT key). *)
Record table (R : Type) := {
  rows : list R;
  sequence : Z
}.
Arguments rows {R} t.
Arguments sequence {R} t.

Record Database := {
  api_connections : option (table ApiConnections.row);
  accounts : option (table Accounts.row);
  transactions_ : option (table Transactions.row);
  stock_holdings : option (table Holdings.row);
  crypto_holdings : option (table Holdings.row)
}.

Section Tables.
Context {R : Type} (rowid : R -> Z).

(** The rowid an AUTOINCREMENT key gives to the next inserted row. *)
Definition next_rowid (t : table R) : Z :=
  Z.max (sequence t) (fold_right Z.max 0 (map rowid (rows t))) + 1.

(** The schemas declare one uniqueness constraint per table, the
    [INTEGER PRIMARY KEY] on [id]: a new row conflicts with the rows that
    have its rowid, and with no others. *)
Definition conflicts (r : R) (r' : R) : bool := rowid r' =? rowid r.

(** [INSERT INTO]; [mk] builds the row from the rowid it is given. *)
Definition insert_into (t : table R) (mk : Z -> R) : table R :=
  let r := mk (next_rowid t) in
  {| rows := rows t ++ [r]; sequence := rowid r |}.

(** [INSERT OR IGNORE INTO]: the row is dropped when it conflicts. *)
Definition insert_or_ignore_into (t : table R) (mk : Z -> R) : table R :=
  let r := mk (next_rowid t) in
  if existsb (conflicts r) (rows t) then t
  else {| rows := rows t ++ [r]; sequence := rowid r |}.

(** [INSERT OR REPLACE INTO]: the rows it conflicts with are deleted. *)
Definition insert_or_replace_into (t : table R) (mk : Z -> R) : table R :=
  let r := mk (next_rowid t) in
  {| rows := filter (fun r' => negb (conflicts r r')) (rows t) ++ [r];
     sequence := rowid r |}.

(** [UPDATE ... SET ... WHERE ...] *)
Definition update_where (t : table R) (where_ : R -> bool) (set : R -> R) : table R :=
  {| rows := map (fun r => if where_ r then set r else r) (rows t);
     sequence := sequence t |}.
End Tables.

(** ** Binding Python values to the parameters of a statement *)

(** The integers that SQLite stores: 64 bits, signed. *)
Definition sqlite_integer (z : Z) : bool := (- 2 ^ 63 <=? z) && (z <? 2 ^ 63).

(** Binding a Python int. *)
Definition bind_int (z : Z) : result Z :=
  if sqlite_integer z then Val z
  else Exn (OverflowError "Python int too large to convert to SQLite INTEGER").

(** A number of the provider is a Python int when its denominator is 1. *)
Definition py_int (q : Q) : bool := (Qden q =? 1)%positive.

(** The double nearest to an integer, ties to the even mantissa: what a
    column of type REAL keeps of an integer.  Integers below 2^53 in
    magnitude are kept as they are. *)
Definition double_of_int (z : Z) : Q :=
  let m := Z.abs z in
  if m <? 2 ^ 53 then inject_Z z
  else
    let e := Z.log2 m - 52 in
    let q := Z.shiftr m e in
    let r := m - Z.shiftl q e in
    let half := Z.shiftl 1 (e - 1) in
    let q' := if (half <? r) || ((r =? half) && Z.odd q) then q + 1 else q in
    inject_Z (Z.sgn z * Z.shiftl q' e).

(** What a column of type REAL keeps of a number. *)
Definition real_of (q : Q) : Q :=
  if py_int q then double_of_int (Qnum q) else q.

(** Binding a number to a parameter that goes to a column of type REAL: a
    float is bound as it is; an int must be a SQLite integer. *)
Definition bind_real (q : Q) : result Q :=
  if py_int q then rbind (bind_int (Qnum q)) (fun z => Val (double_of_int z))
  else Val q.

(** A statement on a table that does not exist raises. *)
Definition from_table {R} (name : string) (t : option (table R)) : result (table R) :=
  match t with
  | Some t => Val t
  | None => Exn (OperationalError ("no such table: " +++ name))
  end.

Definition set_api_connections (t : table ApiConnections.row) (d : Database) : Database :=
  {| api_connections := Some t; accounts := accounts d; transactions_ := transactions_ d;
     stock_holdings := stock_holdings d; crypto_holdings := crypto_holdings d |}.
Definition set_accounts (t : table Accounts.row) (d : Database) : Database :=
  {| api_connections := api_connections d; accounts := Some t; transactions_ := transactions_ d;
     stock_holdings := stock_holdings d; crypto_holdings := crypto_holdings d |}.
Definition set_transactions (t : table Transactions.row) (d : Database) : Database :=
  {| api_connections := api_connections d; accounts := accounts d; transactions_ := Some t;
     stock_holdings := stock_holdings d; crypto_holdings := crypto_holdings d |}.
Definition set_stock_holdings (t : table Holdings.row) (d : Database) : Database :=
  {| api_connections := api_connections d; accounts := accounts d; transactions_ := transactions_ d;
     stock_holdings := Some t; crypto_holdings := crypto_holdings d |}.
Definition set_crypto_holdings (t : table Holdings.row) (d : Database) : Database :=
  {| api_connections := api_connections d; accounts := accounts d; transactions_ := transactions_ d;
     stock_holdings := stock_holdings d; crypto_holdings := Some t |}.

(** ** The world outside the program

    The parts of a run that the code does not decide: the cipher suite, the
    wall clock, the two remote services, the JSON codec, the garbage
    collector and the case tables of the interpreter.  Whatever depends on
    the moment of the call takes the number of events that happened before
    it.  [collector i] is the moment at which the collector reclaims a
    connection that was left open at the moment [i]; [unicode_upper] is
    [str.upper()] on text that is not ASCII. *)

Record Env := {
  cipher_suite : Fernet;
  clock : nat -> datetime;
  plaid_server : nat -> Provider.Request -> Provider.HttpOutcome;
  yf_Ticker : nat -> string -> result YF.Ticker;
  json_dumps_info : AccountInfo -> string;
  json_dumps_category : list string -> string;
  json_loads_credentials : string -> result Credentials;
  collector : nat -> nat;
  unicode_upper : string -> string
}.

Inductive Event : Type :=
| ClockRead
| TokenSealed
| Posted (request : Provider.Request)
| TickerRead (symbol : string)
| Printed (line : string)
| LeftOpen (until : nat).   (* a connection is left open, holding the write
                               lock until the moment [until] *)

(** The state of a run: the committed database, the events so far, and the
    dictionary [sync_results] of the running [sync_account_data]. *)
Record State := {
  database : Database;
  trace : list Event;
  sync_results : SyncResults
}.

(** ** The monad of the program *)

Inductive Outcome (A : Type) : Type :=
| Returned (a : A) (s : State)
| Raised (e : Exception) (s : State).
Arguments Returned {A} a s.
Arguments Raised {A} e s.

Definition M (A : Type) : Type := State -> Outcome A.

Definition ret {A} (a : A) : M A := fun s => Returned a s.

Definition bind {A B} (c : M A) (k : A -> M B) : M B :=
  fun s => match c s with
           | Returned a s' => k a s'
           | Raised e s' => Raised e s'
           end.

Definition raise {A} (e : Exception) : M A := fun s => Raised e s.

Definition lift {A} (r : result A) : M A :=
  match r with
  | Val a => ret a
  | Exn e => raise e
  end.

(** [try: body  except Exception as e: handler e] *)
Definition try_except {A} (body : M A) (handler : Exception -> M A) : M A :=
  fun s => match body s with
           | Returned a s' => Returned a s'
           | Raised e s' => handler e s'
           end.

Declare Scope monad_scope.
Delimit Scope monad_scope with monad.
Notation "x <- c1 ;; c2" := (bind c1 (fun x => c2))
  (at level 61, c1 at next level, right associativity) : monad_scope.
Notation "' pat <- c1 ;; c2" := (bind c1 (fun x => match x with pat => c2 end))
  (at level 61, pat pattern, c1 at next level, right associativity) : monad_scope.
Notation "c1 ;; c2" := (bind c1 (fun _ => c2))
  (at level 61, right associativity) : monad_scope.
Open Scope monad_scope.

(** [for x in l: body x] *)
Fixpoint for_each {A} (l : list A) (body : A -> M unit) : M unit :=
  match l with
  | [] => ret tt
  | x :: l' => body x ;; for_each l' body
  end.

(** A loop that rebinds a local variable: [for x in l: v = body v x]. *)
Fixpoint for_fold {A V} (l : list A) (body : V -> A -> M V) (v : V) : M V :=
  match l with
  | [] => ret v
  | x :: l' => v' <- body v x ;; for_fold l' body v'
  end.

(** An event happens; the computation learns how many came before it. *)
Definition record (ev : Event) (s : State) : State :=
  {| database := database s; trace := trace s ++ [ev]; sync_results := sync_results s |}.

Definition emit (ev : Event) : M nat :=
  fun s => Returned (List.length (trace s)) (record ev s).

Definition print (line : string) : M unit := emit (Printed line) ;; ret tt.

(** [sqlite3.connect(path)]: the connection sees the committed database.
    What it writes stays with it until [commit]; the write lock that its
    first write takes is the matter of [begin_write], and of [uncommitted]
    for a connection that is left open. *)
Definition sqlite3_connect : M Database := fun s => Returned (database s) s.

(** [conn.commit()]: what the connection wrote becomes the database. *)
Definition commit (conn : Database) : M unit :=
  fun s => Returned tt {| database := conn; trace := trace s;
                          sync_results := sync_results s |}.

(** The moment until which the write lock of the database file is held by
    a connection that was left open: that of the last such event. *)
Definition held_until (events : list Event) : nat :=
  fold_left (fun until ev => match ev with LeftOpen n => n | _ => until end) events 0%nat.

Definition write_locked (s : State) : bool :=
  (List.length (trace s) <? held_until (trace s))%nat.

(** The first step of a statement that writes: it needs the write lock.
    When a connection that was left open still holds it, the statement
    waits for the timeout and raises. *)
Definition begin_write : M unit :=
  fun s => if write_locked s then Raised (OperationalError "database is locked") s
           else Returned tt s.

(** A [CREATE TABLE IF NOT EXISTS] statement.  It runs outside a
    transaction and is committed at once; it writes nothing when the table
    exists. *)
Definition create_table_if_not_exists {R} (table_of : Database -> option (table R))
    (set : table R -> Database -> Database) : M unit :=
  d <- sqlite3_connect ;;
  match table_of d with
  | Some _ => ret tt
  | None => begin_write ;; commit (set {| rows := []; sequence := 0 |} d)
  end.

Definition get_sync_results : M SyncResults := fun s => Returned (sync_results s) s.

Definition put_sync_results (r : SyncResults) : M unit :=
  fun s => Returned tt {| database := database s; trace := trace s; sync_results := r |}.

(** [dict.get(key, default)] on a key that may be absent *)
Definition get_default {A} (field : option A) (default : A) : A :=
  match field with
  | Some a => a
  | None => default
  end.

(** [d[key] = v] on a dictionary kept in insertion order *)
Fixpoint dict_set {V} (d : list (string * V)) (key : string) (v : V) : list (string * V) :=
  match d with
  | [] => [(key, v)]
  | (k, v') :: d' =>
      if String.eqb k key then (k, v) :: d' else (k, v') :: dict_set d' key v
  end.

(** [s.upper()] on ASCII text: the letters a..z *)
Definition upper_ascii (c : ascii) : ascii :=
  let n := N_of_ascii c in
  if ((97 <=? n) && (n <=? 122))%N then ascii_of_N (n - 32) else c.

Fixpoint upper (s : string) : string :=
  match s with
  | EmptyString => EmptyString
  | String c s' => String (upper_ascii c) (upper s')
  end.

Fixpoint is_ascii (s : string) : bool :=
  match s with
  | EmptyString => true
  | String c s' => (N_of_ascii c <? 128)%N && is_ascii s'
  end.

(** ** Sealing with the cipher suite *)

Section Vault.
Variable env : Env.

(** [s.upper()] *)
Definition str_upper (s : string) : string :=
  if is_ascii s then upper s else unicode_upper env s.

(** The statements that a connection runs after its first write and up to
    its commit.  The code closes a connection only at the end of the call,
    without [finally]: when one of these statements raises, the connection
    stays open with its uncommitted write, and it holds the write lock
    until the collector reclaims it. *)
Definition uncommitted {A} (body : M A) : M A :=
  fun s => match body s with
           | Returned a s' => Returned a s'
           | Raised e s' =>
               Raised e (record (LeftOpen (collector env (List.length (trace s')))) s')
           end.

(** [datetime.now()], and SQLite's [CURRENT_TIMESTAMP] column default:
    both read the wall clock. *)
Definition datetime_now : M datetime :=
  i <- emit ClockRead ;; ret (clock env i).

Definition CURRENT_TIMESTAMP : M datetime := datetime_now.

(** [encrypt_data] of app.py, which is also the expression
    [self.cipher_suite.encrypt(data.encode()).decode()] of
    api_integrations.py. *)
Definition encrypt_data (data : string) : M string :=
  i <- emit TokenSealed ;;
  lift (bytes_decode (encrypt (cipher_suite env) i (str_encode data))).

(** [decrypt_data] of app.py *)
Definition decrypt_data (encrypted_data : string) : result string :=
  match decrypt (cipher_suite env) (str_encode encrypted_data) with
  | Some plaintext => bytes_decode plaintext
  | None => Exn InvalidToken
  end.
End Vault.

(** ** class PlaidAPI *)

Module PlaidAPI.

(** The attributes of the object. *)
Record t := {
  client_id : option string;
  secret : option string;
  access_token : option string
}.

(** [x > 0] on a number *)
Definition positive (x : Q) : bool := negb (Qle_bool x 0).

(** The dictionary that [_get_transactions] builds from one entry of the
    provider; a missing key raises [KeyError]. *)
Definition transaction_dict (transaction : Provider.RawTransaction) : result Transaction :=
  rbind (getitem "amount" (Provider.raw_amount transaction)) (fun a =>
  rbind (getitem "name" (Provider.raw_name transaction)) (fun n =>
  rbind (getitem "date" (Provider.raw_date transaction)) (fun d =>
  Val {| amount := Qabs a;
         description := n;
         transaction_type := if positive a then "credit" else "debit";
         date_ := d;
         category := get_default (Provider.raw_category transaction) [] |}))).

Fixpoint transaction_dicts (l : list Provider.RawTransaction) : result (list Transaction) :=
  match l with
  | [] => Val []
  | transaction :: l' =>
      rbind (transaction_dict transaction) (fun d =>
      rbind (transaction_dicts l') (fun ds => Val (d :: ds)))
  end.

Definition mapping : list (string * string) :=
  [ ("depository", "checking");
    ("credit", "credit");
    ("loan", "loan");
    ("investment", "investment");
    ("brokerage", "stock") ].

(** [mapping.get(key, default)] *)
Fixpoint mapping_get (d : list (string * string)) (key default : string) : string :=
  match d with
  | [] => default
  | (k, v) :: d' => if String.eqb k key then v else mapping_get d' key default
  end.

Definition _map_account_type (plaid_type : string) : string :=
  mapping_get mapping plaid_type "other".

Section WithEnv.
Variable env : Env.

Definition _decrypt_credentials (encrypted_credentials : string) : M Credentials :=
  try_except
    (lift (rbind (decrypt_data env encrypted_credentials) (json_loads_credentials env)))
    (fun e =>
       print ("Error decrypting credentials: " +++ str_of_exception e) ;;
       ret {| cred_client_id := None; cred_secret := None; cred_access_token := None |}).

(** [PlaidAPI(encrypted_credentials, cipher_suite)] *)
Definition __init__ (encrypted_credentials : string) : M t :=
  credentials <- _decrypt_credentials encrypted_credentials ;;
  ret {| client_id := cred_client_id credentials;
         secret := cred_secret credentials;
         access_token := cred_access_token credentials |}.

(** [_make_request]: [data] holds the keys of the JSON body. *)
Definition _make_request (self : t) (endpoint : string)
    (start_date end_date : option date) (account_ids : list string)
  : M Provider.Response :=
  let request :=
    {| Provider.endpoint := endpoint;
       Provider.PLAID_CLIENT_ID := client_id self;
       Provider.PLAID_SECRET := secret self;
       Provider.access_token := access_token self;
       Provider.start_date := start_date;
       Provider.end_date := end_date;
       Provider.account_ids := account_ids |} in
  i <- emit (Posted request) ;;
  match plaid_server env i request with
  | Provider.NoAnswer e => raise e
  | Provider.Answer status_code text json =>
      if status_code =? 200 then lift json
      else raise (PlainException
                    ("API request failed: " +++ str_of_int status_code +++ " - " +++ text))
  end.

Definition _get_transactions (self : t) (account_id : string) : M (list Transaction) :=
  try_except
    (end_date <- datetime_now env ;;
     let start_date := end_date - timedelta_days 30 in
     response <- _make_request self "/transactions/get"
                   (Some (strftime_Ymd start_date)) (Some (strftime_Ymd end_date))
                   [account_id] ;;
     lift (transaction_dicts (get_default (Provider.resp_transactions response) [])))
    (fun e =>
       print ("Error fetching transactions: " +++ str_of_exception e) ;;
       ret []).

(** The body of the loop of [get_account_data]. *)
Definition account_data_of (self : t) (account : Provider.RawAccount) : M AccountData :=
  id0 <- lift (getitem "account_id" (Provider.raw_account_id account)) ;;
  transactions <- _get_transactions self id0 ;;
  id1 <- lift (getitem "account_id" (Provider.raw_account_id account)) ;;
  name <- lift (getitem "name" (Provider.raw_name_ account)) ;;
  type <- lift (getitem "type" (Provider.raw_type account)) ;;
  balances <- lift (getitem "balances" (Provider.raw_balances account)) ;;
  current <- lift (getitem "current" (Provider.raw_current balances)) ;;
  balances' <- lift (getitem "balances" (Provider.raw_balances account)) ;;
  code <- lift (getitem "iso_currency_code" (Provider.raw_iso_currency_code balances')) ;;
  institution_id <- lift (getitem "institution_id" (Provider.raw_institution_id account)) ;;
  now <- datetime_now env ;;
  ret {| account_id := id1;
         account_name := name;
         account_type := _map_account_type type;
         balance := current;
         currency := code;
         institution := institution_id;
         last_updated := now;
         transactions := Some transactions |}.

Definition get_account_data (self : t) : M (list AccountData) :=
  try_except
    (accounts_response <- _make_request self "/accounts/get" None None [] ;;
     for_fold (get_default (Provider.resp_accounts accounts_response) [])
       (fun accounts account =>
          account_data <- account_data_of self account ;;
          ret (accounts ++ [account_data]))
       [])
    (fun e =>
       print ("Error fetching Plaid data: " +++ str_of_exception e) ;;
       ret []).
End WithEnv.

End PlaidAPI.

(** ** class YFinanceAPI *)

Module YFinanceAPI.

Section WithEnv.
Variable env : Env.

(** [yf.Ticker(symbol)], with its [info] and its one-day history *)
Definition Ticker (symbol : string) : M YF.Ticker :=
  i <- emit (TickerRead symbol) ;; lift (yf_Ticker env i symbol).

Definition get_stock_data (symbols : list string) : M (list (string * Quote)) :=
  try_except
    (for_fold symbols
       (fun stock_data symbol =>
          ticker <- Ticker symbol ;;
          match rev (YF.history ticker) with
          | [] => ret stock_data
          | last_bar :: _ =>
              now <- datetime_now env ;;
              ret (dict_set stock_data symbol
                     {| q_symbol := symbol;
                        q_name := get_default (YF.longName ticker) symbol;
                        current_price := YF.Close last_bar;
                        q_currency := get_default (YF.info_currency ticker) "USD";
                        q_volume := YF.Volume last_bar;
                        q_last_updated := now |})
          end)
       [])
    (fun e =>
       print ("Error fetching stock data: " +++ str_of_exception e) ;;
       ret []).

Definition get_crypto_data (symbols : list string) : M (list (string * Quote)) :=
  try_except
    (for_fold symbols
       (fun crypto_data symbol =>
          ticker <- Ticker (symbol +++ "-USD") ;;
          match rev (YF.history ticker) with
          | [] => ret crypto_data
          | last_bar :: _ =>
              now <- datetime_now env ;;
              ret (dict_set crypto_data symbol
                     {| q_symbol := symbol;
                        q_name := symbol;
                        current_price := YF.Close last_bar;
                        q_currency := "USD";
                        q_volume := YF.Volume last_bar;
                        q_last_updated := now |})
          end)
       [])
    (fun e =>
       print ("Error fetching crypto data: " +++ str_of_exception e) ;;
       ret []).
End WithEnv.

End YFinanceAPI.

(** ** class FinancialDataManager *)

Module FinancialDataManager.

(** [cursor.fetchone()[0]] *)
Definition fetchone_0 {A} (row : option A) : result A :=
  match row with
  | Some a => Val a
  | None => Exn (TypeError "'NoneType' object is not subscriptable")
  end.

(** [init_database]: the three tables of the manager. *)
Definition init_database : M unit :=
  (* API connections table *)
  create_table_if_not_exists api_connections set_api_connections ;;
  (* Stock holdings table *)
  create_table_if_not_exists stock_holdings set_stock_holdings ;;
  (* Crypto holdings table *)
  create_table_if_not_exists crypto_holdings set_crypto_holdings.

(** The dictionary that [get_api_connections] builds from a row. *)
Definition connection_of (row : ApiConnections.row) : Connection :=
  {| conn_id := ApiConnections.id row;
     conn_institution_name := ApiConnections.institution_name row;
     conn_api_type := ApiConnections.api_type row;
     conn_is_active := ApiConnections.is_active row;
     conn_last_sync := ApiConnections.last_sync row |}.

Definition get_api_connections (user_id : Z) : M (list Connection) :=
  conn <- sqlite3_connect ;;
  t <- lift (from_table "api_connections" (api_connections conn)) ;;
  ret (map connection_of
         (filter (fun row => ApiConnections.user_id row =? user_id) (rows t))).

(** [UPDATE stock_holdings / crypto_holdings SET current_price = ?,
    last_updated = ? WHERE user_id = ? AND symbol = ?] *)
Definition update_price (t : table Holdings.row) (price : Q) (now : datetime)
    (user_id : Z) (symbol : string) : table Holdings.row :=
  update_where t
    (fun row => (Holdings.user_id row =? user_id) && String.eqb (Holdings.symbol row) symbol)
    (Holdings.set_price price now).

Section WithEnv.
Variable env : Env.

(** The statement executed for one transaction of [_update_account_from_api]. *)
Definition insert_transaction (account_id : Z) (conn : Database) (transaction : Transaction)
  : M Database :=
  encrypted_notes <-
    match category transaction with
    | [] => ret ""
    | c => encrypt_data env (json_dumps_category env c)
    end ;;
  t <- lift (from_table "transactions" (transactions_ conn)) ;;
  stored_amount <- lift (bind_real (amount transaction)) ;;
  (* the connection holds the write lock since its statement on accounts *)
  created <- CURRENT_TIMESTAMP env ;;
  ret (set_transactions
         (insert_or_ignore_into Transactions.id t (fun i =>
            {| Transactions.id := i;
               Transactions.account_id := account_id;
               Transactions.amount := stored_amount;
               Transactions.description := description transaction;
               Transactions.transaction_type := transaction_type transaction;
               Transactions.date := date_ transaction;
               Transactions.encrypted_notes := encrypted_notes;
               Transactions.created_at := created |}))
         conn).

Definition _update_account_from_api (user_id : Z) (account_data : AccountData) : M unit :=
  conn <- sqlite3_connect ;;
  (* Check if account exists *)
  t <- lift (from_table "accounts" (accounts conn)) ;;
  let existing_account :=
    find (fun row => (Accounts.user_id row =? user_id)
                     && String.eqb (Accounts.account_name row) (account_name account_data))
      (rows t) in
  let account_info :=
    {| info_balance := balance account_data;
       info_currency := currency account_data;
       info_institution := institution account_data;
       last_api_update := last_updated account_data |} in
  '(conn, account_id) <-
    match existing_account with
    | Some existing =>
        (* Update existing account *)
        let account_id := Accounts.id existing in
        encrypted_data <- encrypt_data env (json_dumps_info env account_info) ;;
        now <- datetime_now env ;;
        begin_write ;;
        ret (set_accounts
               (update_where t (fun row => Accounts.id row =? account_id)
                  (Accounts.set_encrypted_data encrypted_data now))
               conn,
             account_id)
    | None =>
        (* Create new account *)
        encrypted_data <- encrypt_data env (json_dumps_info env account_info) ;;
        begin_write ;;
        created <- CURRENT_TIMESTAMP env ;;
        let t' :=
          insert_into Accounts.id t (fun i =>
            {| Accounts.id := i;
               Accounts.user_id := user_id;
               Accounts.account_name := account_name account_data;
               Accounts.account_type := account_type account_data;
               Accounts.encrypted_data := encrypted_data;
               Accounts.created_at := created;
               Accounts.updated_at := created |}) in
        ret (set_accounts t' conn, sequence t')
    end ;;
  uncommitted env
    ((* Add transactions if available *)
     conn <- for_fold (get_default (transactions account_data) [])
               (insert_transaction account_id) conn ;;
     commit conn).

Definition _update_stock_prices (user_id : Z) (stock_data : list (string * Quote)) : M unit :=
  conn <- sqlite3_connect ;;
  conn <- for_fold stock_data
            (fun conn '(symbol, data) =>
               now <- datetime_now env ;;
               t <- lift (from_table "stock_holdings" (stock_holdings conn)) ;;
               begin_write ;;
               ret (set_stock_holdings
                      (update_price t (current_price data) now user_id symbol) conn))
            conn ;;
  commit conn.

Definition _update_crypto_prices (user_id : Z) (crypto_data : list (string * Quote)) : M unit :=
  conn <- sqlite3_connect ;;
  conn <- for_fold crypto_data
            (fun conn '(symbol, data) =>
               now <- datetime_now env ;;
               t <- lift (from_table "crypto_holdings" (crypto_holdings conn)) ;;
               begin_write ;;
               ret (set_crypto_holdings
                      (update_price t (current_price data) now user_id symbol) conn))
            conn ;;
  commit conn.

(** [SELECT symbol FROM ... WHERE user_id = ?] *)
Definition select_symbols (t : table Holdings.row) (user_id : Z) : list string :=
  map Holdings.symbol (filter (fun row => Holdings.user_id row =? user_id) (rows t)).

Definition _sync_stock_data (user_id : Z) : M unit :=
  try_except
    (conn <- sqlite3_connect ;;
     stocks <- lift (from_table "stock_holdings" (stock_holdings conn)) ;;
     let stock_symbols := select_symbols stocks user_id in
     cryptos <- lift (from_table "crypto_holdings" (crypto_holdings conn)) ;;
     let crypto_symbols := select_symbols cryptos user_id in
     match stock_symbols with
     | [] => ret tt
     | _ => stock_data <- YFinanceAPI.get_stock_data env stock_symbols ;;
            _update_stock_prices user_id stock_data
     end ;;
     match crypto_symbols with
     | [] => ret tt
     | _ => crypto_data <- YFinanceAPI.get_crypto_data env crypto_symbols ;;
            _update_crypto_prices user_id crypto_data
     end)
    (fun e => print ("Error syncing stock/crypto data: " +++ str_of_exception e)).

(** [sync_results['accounts_updated'] += 1] *)
Definition count_account : M unit :=
  r <- get_sync_results ;;
  put_sync_results {| success := success r;
                      accounts_updated := accounts_updated r + 1;
                      errors := errors r;
                      last_sync := last_sync r |}.

(** [sync_results['errors'].append(msg)] *)
Definition append_error (msg : string) : M unit :=
  r <- get_sync_results ;;
  put_sync_results {| success := success r;
                      accounts_updated := accounts_updated r;
                      errors := errors r ++ [msg];
                      last_sync := last_sync r |}.

(** [sync_results['success'] = False] *)
Definition clear_success : M unit :=
  r <- get_sync_results ;;
  put_sync_results {| success := false;
                      accounts_updated := accounts_updated r;
                      errors := errors r;
                      last_sync := last_sync r |}.

(** The statements of the inner [try] of [sync_account_data], for one
    active connection. *)
Definition sync_connection (user_id : Z) (connection : Connection) : M unit :=
  (* Get encrypted credentials *)
  conn <- sqlite3_connect ;;
  t <- lift (from_table "api_connections" (api_connections conn)) ;;
  encrypted_creds <-
    lift (fetchone_0
            (option_map ApiConnections.encrypted_credentials
               (find (fun row => ApiConnections.id row =? conn_id connection) (rows t)))) ;;
  (* Initialize appropriate API class *)
  (if String.eqb (conn_api_type connection) "plaid" then
     api <- PlaidAPI.__init__ env encrypted_creds ;;
     accounts <- PlaidAPI.get_account_data env api ;;
     (* Update accounts in database *)
     for_each accounts (fun account =>
       _update_account_from_api user_id account ;;
       count_account)
   else ret tt) ;;
  (* Update last sync time *)
  conn <- sqlite3_connect ;;
  now <- datetime_now env ;;
  t <- lift (from_table "api_connections" (api_connections conn)) ;;
  begin_write ;;
  commit (set_api_connections
            (update_where t (fun row => ApiConnections.id row =? conn_id connection)
               (ApiConnections.set_last_sync now))
            conn).

(** One turn of the loop over the connections. *)
Definition sync_one (user_id : Z) (connection : Connection) : M unit :=
  if negb (conn_is_active connection) then ret tt
  else
    try_except (sync_connection user_id connection)
      (fun e =>
         let error_msg := "Error syncing " +++ conn_institution_name connection
                          +++ ": " +++ str_of_exception e in
         append_error error_msg ;;
         print error_msg).

Definition sync_account_data (user_id : Z) : M SyncResults :=
  now <- datetime_now env ;;
  put_sync_results {| success := true; accounts_updated := 0; errors := [];
                      last_sync := now |} ;;
  try_except
    ((* Get all active API connections *)
     connections <- get_api_connections user_id ;;
     for_each connections (sync_one user_id) ;;
     (* Sync stock data *)
     _sync_stock_data user_id)
    (fun e =>
       clear_success ;;
       append_error ("General sync error: " +++ str_of_exception e)) ;;
  get_sync_results.
End WithEnv.

End FinancialDataManager.

(** ** app.py: the routes that write accounts and holdings *)

Module App.

(** The dictionary [account_data] that [add_account] seals. *)
Record AccountForm := {
  form_balance : Q;
  form_currency : string;
  form_institution : string;
  form_account_number : string
}.

(** [init_database]: the tables of the application.  The table [users],
    which this function creates first and which therefore exists whenever
    [accounts] does, is not modelled. *)
Definition init_database : M unit :=
  (* Accounts table *)
  create_table_if_not_exists accounts set_accounts ;;
  (* Transactions table *)
  create_table_if_not_exists transactions_ set_transactions.

(** The row of [INSERT OR REPLACE INTO ..._holdings (user_id, symbol,
    shares / amount, purchase_price, current_price) VALUES (?, ?, ?, ?, 0)];
    [last_updated] takes its default. *)
Definition holding_row (user_id : Z) (symbol : string) (quantity purchase_price : Q)
    (now : datetime) (i : Z) : Holdings.row :=
  {| Holdings.id := i;
     Holdings.user_id := user_id;
     Holdings.symbol := symbol;
     Holdings.quantity := quantity;
     Holdings.purchase_price := Some purchase_price;
     Holdings.current_price := Some 0%Q;
     Holdings.last_updated := now |}.

Section WithEnv.
Variable env : Env.

(** [json.dumps] on the dictionary of [add_account]. *)
Variable json_dumps_account_data : AccountForm -> string.

(** [add_account], for a POST request: [session_user_id] is
    [session['user_id']], the other arguments are the parsed fields of the
    form.  The statement is a plain INSERT: it does not look for a record
    of the same name. *)
Definition add_account (session_user_id : Z) (account_name account_type : string)
    (balance : Q) (currency institution account_number : option string) : M unit :=
  (* Encrypt sensitive data *)
  let account_data :=
    {| form_balance := balance;
       form_currency := get_default currency "USD";
       form_institution := get_default institution "";
       form_account_number := get_default account_number "" |} in
  encrypted_data <- encrypt_data env (json_dumps_account_data account_data) ;;
  conn <- sqlite3_connect ;;
  t <- lift (from_table "accounts" (accounts conn)) ;;
  begin_write ;;
  created <- CURRENT_TIMESTAMP env ;;
  commit (set_accounts
            (insert_into Accounts.id t (fun i =>
               {| Accounts.id := i;
                  Accounts.user_id := session_user_id;
                  Accounts.account_name := account_name;
                  Accounts.account_type := account_type;
                  Accounts.encrypted_data := encrypted_data;
                  Accounts.created_at := created;
                  Accounts.updated_at := created |}))
            conn).

(** [add_stock_holding]: [session_user_id] is [session['user_id']], the
    other arguments are the parsed fields of the form. *)
Definition add_stock_holding (session_user_id : Z) (form_symbol : string)
    (form_shares : Q) (form_purchase_price : option Q) : M unit :=
  let symbol := str_upper env form_symbol in
  let shares := form_shares in
  let purchase_price := get_default form_purchase_price 0%Q in
  conn <- sqlite3_connect ;;
  t <- lift (from_table "stock_holdings" (stock_holdings conn)) ;;
  begin_write ;;
  now <- CURRENT_TIMESTAMP env ;;
  commit (set_stock_holdings
            (insert_or_replace_into Holdings.id t
               (holding_row session_user_id symbol shares purchase_price now))
            conn).

Definition add_crypto_holding (session_user_id : Z) (form_symbol : string)
    (form_amount : Q) (form_purchase_price : option Q) : M unit :=
  let symbol := str_upper env form_symbol in
  let amount := form_amount in
  let purchase_price := get_default form_purchase_price 0%Q in
  conn <- sqlite3_connect ;;
  t <- lift (from_table "crypto_holdings" (crypto_holdings conn)) ;;
  begin_write ;;
  now <- CURRENT_TIMESTAMP env ;;
  commit (set_crypto_holdings
            (insert_or_replace_into Holdings.id t
               (holding_row session_user_id symbol amount purchase_price now))
            conn).
End WithEnv.

End App.

(** * Vocabulary of the properties *)

(** The state in which a computation ends, however it ends. *)
Definition final {A} (o : Outcome A) : State :=
  match o with
  | Returned _ s => s
  | Raised _ s => s
  end.

(** The account kinds named by the specification. *)
Definition spec_account_kinds : list string :=
  ["checking"; "credit"; "loan"; "investment"; "brokerage"; "other"].

(** The account kinds that the table of the code can answer. *)
Definition account_kinds : list string :=
  ["checking"; "credit"; "loan"; "investment"; "stock"; "other"].

(** What one dictionary says of the entry it was built from. *)
Definition built_from (raw : Provider.RawTransaction) (t : Transaction) : Prop :=
  exists a,
    Provider.raw_amount raw = Some a
    /\ amount t = Qabs a
    /\ ((0 < a)%Q -> transaction_type t = "credit")
    /\ ((a <= 0)%Q -> transaction_type t = "debit").

(** The natural key of a transaction: account, amount, description, type
    and date. *)
Definition same_natural_key (account_id : Z) (t : Transaction) (row : Transactions.row)
  : bool :=
  (Transactions.account_id row =? account_id)
  && Qeq_bool (Transactions.amount row) (amount t)
  && String.eqb (Transactions.description row) (description t)
  && String.eqb (Transactions.transaction_type row) (transaction_type t)
  && String.eqb (Transactions.date row) (date_ t).

(** The rows of a table that may not exist. *)
Definition rows_of {R} (t : option (table R)) : list R :=
  match t with
  | Some t => rows t
  | None => []
  end.

(** The holdings of a user in a symbol. *)
Definition holdings_of (user_id : Z) (symbol : string) (t : option (table Holdings.row))
  : list Holdings.row :=
  filter (fun row => (Holdings.user_id row =? user_id)
                     && String.eqb (Holdings.symbol row) symbol)
    (rows_of t).

(** The lookup key of an account record: the user and the display name. *)
Definition named (user_id : Z) (name : string) (row : Accounts.row) : bool :=
  (Accounts.user_id row =? user_id) && String.eqb (Accounts.account_name row) name.

(** The account records of a user under a display name. *)
Definition accounts_named (user_id : Z) (name : string) (t : option (table Accounts.row))
  : list Accounts.row :=
  filter (named user_id name) (rows_of t).

(** What a refresh of prices for [user_id] from [quotes] may do to one row
    of holdings: the identity, the owner, the symbol, the quantity and the
    purchase price stay; a row of another user, or of a symbol without a
    quote, stays as a whole; a row of the user whose symbol has a quote
    carries the price of one of the quotes for its symbol. *)
Definition refreshed (user_id : Z) (quotes : list (string * Quote))
    (row row' : Holdings.row) : Prop :=
  Holdings.id row' = Holdings.id row
  /\ Holdings.user_id row' = Holdings.user_id row
  /\ Holdings.symbol row' = Holdings.symbol row
  /\ Holdings.quantity row' = Holdings.quantity row
  /\ Holdings.purchase_price row' = Holdings.purchase_price row
  /\ (Holdings.user_id row <> user_id \/ ~ In (Holdings.symbol row) (map fst quotes) ->
      row' = row)
  /\ (Holdings.user_id row = user_id /\ In (Holdings.symbol row) (map fst quotes) ->
      exists data, In (Holdings.symbol row, data) quotes
                   /\ Holdings.current_price row' = Some (current_price data)).

(** The same, for a table: no row is added, deleted or moved. *)
Definition table_refreshed (user_id : Z) (quotes : list (string * Quote))
    (before after : option (table Holdings.row)) : Prop :=
  match before, after with
  | Some t, Some t' =>
      sequence t' = sequence t /\ Forall2 (refreshed user_id quotes) (rows t) (rows t')
  | None, None => True
  | _, _ => False
  end.

(** A computation respects a relation on states when the state in which it
    ends, returning or raising, is related to the one it started from. *)
Definition respects (R : State -> State -> Prop) {A} (c : M A) : Prop :=
  forall s, R s (final (c s)).

(** Only the trace changed. *)
Definition same_store (s s' : State) : Prop :=
  database s' = database s /\ sync_results s' = sync_results s.

(** A computation that touches neither the database nor [sync_results]. *)
Definition quiet {A} (c : M A) : Prop := respects same_store c.

Definition never_raises {A} (c : M A) : Prop :=
  forall s, exists a s', c s = Returned a s'.

(** What the processing of one connection may change before it writes the
    last-sync time: accounts, transactions, the count of updated accounts
    and the trace, and nothing else. *)
Definition reconciled (s s' : State) : Prop :=
  api_connections (database s') = api_connections (database s)
  /\ stock_holdings (database s') = stock_holdings (database s)
  /\ crypto_holdings (database s') = crypto_holdings (database s)
  /\ success (sync_results s') = success (sync_results s)
  /\ errors (sync_results s') = errors (sync_results s)
  /\ last_sync (sync_results s') = last_sync (sync_results s).

(** The success flag stayed as it was. *)
Definition success_kept (s s' : State) : Prop :=
  success (sync_results s') = success (sync_results s).

(** What the connection has seen in the tables other than [transactions]. *)
Definition same_but_transactions (conn conn' : Database) : Prop :=
  api_connections conn' = api_connections conn
  /\ accounts conn' = accounts conn
  /\ stock_holdings conn' = stock_holdings conn
  /\ crypto_holdings conn' = crypto_holdings conn.

(** The dictionary [account_info] that [_update_account_from_api] seals. *)
Definition account_info_of (a : AccountData) : AccountInfo :=
  {| info_balance := balance a;
     info_currency := currency a;
     info_institution := institution a;
     last_api_update := last_updated a |}.

(** What an upsert of [a] makes of the table [accounts]: if a record of the
    user has the display name, the payload and the update time of that
    record are overwritten; otherwise a record is added. *)
Definition upserted (user_id : Z) (a : AccountData) (payload : string) (now : datetime)
    (t t' : table Accounts.row) : Prop :=
  match find (named user_id (account_name a)) (rows t) with
  | Some existing =>
      rows t' = map (fun row =>
                       if Accounts.id row =? Accounts.id existing
                       then Accounts.set_encrypted_data payload now row else row)
                  (rows t)
  | None =>
      rows t' = rows t ++ [ {| Accounts.id := next_rowid Accounts.id t;
                               Accounts.user_id := user_id;
                               Accounts.account_name := account_name a;
                               Accounts.account_type := account_type a;
                               Accounts.encrypted_data := payload;
                               Accounts.created_at := now;
                               Accounts.updated_at := now |} ]
  end.

(** The payload opens to the serialised information of the account. *)
Definition reflects (env : Env) (payload : string) (a : AccountData) : Prop :=
  decrypt (cipher_suite env) (str_encode payload)
  = Some (str_encode (json_dumps_info env (account_info_of a))).

(** Upserting [a1] and then [a2], an account of the same display name,
    from the state [s]: both calls return, and one record of the user
    carries the name, whose payload opens to the information of [a2]. *)
Definition upserted_twice (env : Env) (user_id : Z) (a1 a2 : AccountData) (s : State)
  : Prop :=
  exists s1 s2 row,
    FinancialDataManager._update_account_from_api env user_id a1 s = Returned tt s1
    /\ FinancialDataManager._update_account_from_api env user_id a2 s1 = Returned tt s2
    /\ accounts_named user_id (account_name a1) (accounts (database s2)) = [row]
    /\ reflects env (Accounts.encrypted_data row) a2.

(** A database that was not locked is not locked afterwards. *)
Definition stays_free (s s' : State) : Prop :=
  write_locked s = false -> write_locked s' = false.

(** [sync_results] stayed as it was. *)
Definition same_results (s s' : State) : Prop := sync_results s' = sync_results s.

(** The message that [sync_account_data] records for a connection whose
    processing raised [e]. *)
Definition error_msg (connection : Connection) (e : Exception) : string :=
  "Error syncing " +++ conn_institution_name connection +++ ": " +++ str_of_exception e.

(** The errors that the loop over the connections records from the state
    [s]: for each active connection whose processing raises, in the state
    in which its turn comes, the message of that connection and exception. *)
Fixpoint raised_errors (env : Env) (user_id : Z) (connections : list Connection)
    (s : State) : list string :=
  match connections with
  | [] => []
  | connection :: rest =>
      (if conn_is_active connection then
         match FinancialDataManager.sync_connection env user_id connection s with
         | Raised e _ => [error_msg connection e]
         | Returned _ _ => []
         end
       else [])
      ++ raised_errors env user_id rest
           (final (FinancialDataManager.sync_one env user_id connection s))
  end.

(** The state in which [sync_account_data] enters its outer [try]. *)
Definition started (env : Env) (s : State) : State :=
  {| database := database s;
     trace := trace s ++ [ClockRead];
     sync_results := {| success := true; accounts_updated := 0; errors := [];
                        last_sync := clock env (List.length (trace s)) |} |}.

(** * A sample world

    A small cipher suite that honours the contract of the library, and a
    world built on it, on which the program can be run. *)

Module Sample.

(** The letter 'A' .. 'P' that stands for a half byte. *)
Definition letter (k : N) : byte :=
  match Byte.of_N (65 + k) with
  | Some b => b
  | None => x00
  end.

Definition letters_of (b : byte) : bytes :=
  [letter (Byte.to_N b / 16); letter (Byte.to_N b mod 16)].

Definition byte_of_letters (hi lo : byte) : option byte :=
  Byte.of_N ((Byte.to_N hi - 65) * 16 + (Byte.to_N lo - 65)).

Fixpoint spell (p : bytes) : bytes :=
  match p with
  | [] => []
  | b :: p' => letters_of b ++ spell p'
  end.

Fixpoint unspell (token : bytes) : option bytes :=
  match token with
  | [] => Some []
  | hi :: token' =>
      match token' with
      | [] => None
      | lo :: token'' =>
          match byte_of_letters hi lo, unspell token'' with
          | Some b, Some p => Some (b :: p)
          | _, _ => None
          end
      end
  end.

(** The byte drawn at the moment of sealing. *)
Definition draw (n : nat) : byte :=
  match Byte.of_N (N.of_nat n mod 256) with
  | Some b => b
  | None => x00
  end.

(** A token is the drawn byte followed by the plaintext, spelled in
    letters. *)
Definition cipher : Fernet :=
  {| encrypt := fun n p => spell (draw n :: p);
     decrypt := fun token =>
       match unspell token with
       | Some (_ :: p) => Some p
       | _ => None
       end |}.

Definition str_of_Q (q : Q) : string :=
  str_of_int (Qnum q) +++ "/" +++ str_of_int (Zpos (Qden q)).

Fixpoint join (l : list string) : string :=
  match l with
  | [] => ""
  | s :: l' => s +++ ";" +++ join l'
  end.

Definition credentials : Credentials :=
  {| cred_client_id := Some "client";
     cred_secret := Some "secret";
     cred_access_token := Some "access-token" |}.

Definition coffee : Provider.RawTransaction :=
  {| Provider.raw_amount := Some (- (85 # 2))%Q;
     Provider.raw_name := Some "Coffee";
     Provider.raw_date := Some "2024-01-05";
     Provider.raw_category := Some ["Food and Drink"] |}.

Definition checking (current : Q) : Provider.RawAccount :=
  {| Provider.raw_account_id := Some "acc-1";
     Provider.raw_name_ := Some "Checking";
     Provider.raw_type := Some "depository";
     Provider.raw_balances :=
       Some {| Provider.raw_current := Some current;
               Provider.raw_iso_currency_code := Some "USD" |};
     Provider.raw_institution_id := Some "ins_1" |}.

(** The bank answers every request with status 200: one checking account,
    whose balance grows with time, and one transaction. *)
Definition server (i : nat) (request : Provider.Request) : Provider.HttpOutcome :=
  Provider.Answer 200 "OK"
    (Val {| Provider.resp_accounts := Some [checking (inject_Z (Z.of_nat i))];
            Provider.resp_transactions := Some [coffee] |}).

Definition env : Env :=
  {| cipher_suite := cipher;
     clock := fun i => 1704412800000000 + Z.of_nat i;
     plaid_server := server;
     yf_Ticker := fun _ _ =>
       Val {| YF.longName := Some "Apple Inc.";
              YF.info_currency := Some "USD";
              YF.history := [ {| YF.Open := 180; YF.Close := 185; YF.Volume := 1000 |} ] |};
     json_dumps_info := fun info =>
       "balance=" +++ str_of_Q (info_balance info)
       +++ " currency=" +++ info_currency info
       +++ " institution=" +++ info_institution info
       +++ " last_api_update=" +++ str_of_int (last_api_update info);
     json_dumps_category := join;
     json_loads_credentials := fun _ => Val credentials;
     collector := fun i => (i + 1000)%nat;
     unicode_upper := upper |}.

(** The stored form of the credentials of a connection. *)
Definition credentials_token : string :=
  Eval vm_compute in string_of_list_byte (encrypt cipher 0 (str_encode "credentials")).

(** The same world with the bank out of reach: every request fails before
    an answer comes. *)
Definition offline : Env :=
  {| cipher_suite := cipher_suite env;
     clock := clock env;
     plaid_server := fun _ _ => Provider.NoAnswer (ConnectionError "Max retries exceeded");
     yf_Ticker := yf_Ticker env;
     json_dumps_info := json_dumps_info env;
     json_dumps_category := json_dumps_category env;
     json_loads_credentials := json_loads_credentials env;
     collector := collector env;
     unicode_upper := unicode_upper env |}.

Definition empty_table {R} : table R := {| rows := []; sequence := 0 |}.

Definition no_results : SyncResults :=
  {| success := true; accounts_updated := 0; errors := []; last_sync := 0 |}.

(** A database file that has just been created: no table at all. *)
Definition blank : State :=
  {| database := {| api_connections := None; accounts := None; transactions_ := None;
                    stock_holdings := None; crypto_holdings := None |};
     trace := [];
     sync_results := no_results |}.

(** A database in which every table exists and is empty. *)
Definition fresh : State :=
  {| database :=
       {| api_connections := Some empty_table;
          accounts := Some empty_table;
          transactions_ := Some empty_table;
          stock_holdings := Some empty_table;
          crypto_holdings := Some empty_table |};
     trace := [];
     sync_results := no_results |}.

Definition connection_row (i : Z) (institution_name api_type : string)
  : ApiConnections.row :=
  {| ApiConnections.id := i;
     ApiConnections.user_id := 1;
     ApiConnections.institution_name := institution_name;
     ApiConnections.api_type := api_type;
     ApiConnections.encrypted_credentials := credentials_token;
     ApiConnections.is_active := true;
     ApiConnections.last_sync := None;
     ApiConnections.created_at := 0 |}.

(** A database on which only the manager's [init_database] has run: the
    tables [accounts] and [transactions] were never created.  User 1 has
    two connections. *)
Definition without_accounts : State :=
  {| database :=
       {| api_connections :=
            Some {| rows := [connection_row 1 "First Bank" "plaid";
                             connection_row 2 "Yahoo" "yfinance"];
                    sequence := 2 |};
          accounts := None;
          transactions_ := None;
          stock_holdings := Some empty_table;
          crypto_holdings := Some empty_table |};
     trace := [];
     sync_results := no_results |}.

(** The account that the bank reports, with its coffee. *)
Definition checking_account (balance : Q) : AccountData :=
  {| account_id := "acc-1";
     account_name := "Checking";
     account_type := "checking";
     balance := balance;
     currency := "USD";
     institution := "ins_1";
     last_updated := 1704412800000000;
     transactions :=
       Some [ {| amount := 85 # 2;
                 description := "Coffee";
                 transaction_type := "debit";
                 date_ := "2024-01-05";
                 category := [] |} ] |}.

End Sample.


(** * The other writers of the table of connections *)

(** [DELETE FROM ... WHERE ...]; the AUTOINCREMENT counter stays. *)
Definition delete_from {R} (t : table R) (where_ : R -> bool) : table R :=
  {| rows := filter (fun r => negb (where_ r)) (rows t); sequence := sequence t |}.

(** [WHERE id = ? AND user_id = ?] on the table of connections *)
Definition owned_connection (connection_id user_id : Z) (row : ApiConnections.row) : bool :=
  (ApiConnections.id row =? connection_id) && (ApiConnections.user_id row =? user_id).

(** [SET institution_name = ?, api_type = ?, encrypted_credentials = ?,
    last_sync = NULL] *)
Definition set_edited (institution_name api_type encrypted_credentials : string)
    (r : ApiConnections.row) : ApiConnections.row :=
  {| ApiConnections.id := ApiConnections.id r;
     ApiConnections.user_id := ApiConnections.user_id r;
     ApiConnections.institution_name := institution_name;
     ApiConnections.api_type := api_type;
     ApiConnections.encrypted_credentials := encrypted_credentials;
     ApiConnections.is_active := ApiConnections.is_active r;
     ApiConnections.last_sync := None;
     ApiConnections.created_at := ApiConnections.created_at r |}.

(** The empty dictionary of credentials. *)
Definition no_credentials : Credentials :=
  {| cred_client_id := None; cred_secret := None; cred_access_token := None |}.

(** ** FinancialDataManager.add_api_connection *)

Module Manager.

Section WithEnv.
Variable env : Env.

(** [json.dumps] on a dictionary of credentials. *)
Variable json_dumps_credentials : Credentials -> string.

Definition add_api_connection (user_id : Z) (institution_name api_type : string)
    (credentials : Credentials) : M bool :=
  try_except
    (encrypted_credentials <- encrypt_data env (json_dumps_credentials credentials) ;;
     conn <- sqlite3_connect ;;
     t <- lift (from_table "api_connections" (api_connections conn)) ;;
     begin_write ;;
     created <- CURRENT_TIMESTAMP env ;;
     commit (set_api_connections
               (insert_into ApiConnections.id t (fun i =>
                  {| ApiConnections.id := i;
                     ApiConnections.user_id := user_id;
                     ApiConnections.institution_name := institution_name;
                     ApiConnections.api_type := api_type;
                     ApiConnections.encrypted_credentials := encrypted_credentials;
                     ApiConnections.is_active := true;
                     ApiConnections.last_sync := None;
                     ApiConnections.created_at := created |}))
               conn) ;;
     ret true)
    (fun e =>
       print ("Error adding API connection: " +++ str_of_exception e) ;;
       ret false).
End WithEnv.

End Manager.

(** ** app.py: the routes that delete and edit a connection *)

Module Routes.

(** The fields of the form of the edit page; a field that was not posted
    is [None]. *)
Record Form := {
  form_institution_name : option string;
  form_api_type : option string;
  plaid_client_id : option string;
  plaid_secret : option string;
  plaid_access_token : option string
}.

(** The dictionary given to the template of the edit page. *)
Record ConnectionView := {
  view_id : Z;
  view_institution_name : string;
  view_api_type : string;
  view_credentials : Credentials
}.

(** What a route answers: a redirect with the flashed message and its
    category, or the edit page. *)
Inductive Response : Type :=
| Redirect (endpoint message category : string)
| RenderEdit (connection : ConnectionView).

(** [delete_api_connection]; [session_user_id] is [session['user_id']],
    [connection_id] the integer of the URL. *)
Definition delete_api_connection (session_user_id connection_id : Z) : M Response :=
  conn <- sqlite3_connect ;;
  (* Verify the connection belongs to the user *)
  t <- lift (from_table "api_connections" (api_connections conn)) ;;
  connection_id <- lift (bind_int connection_id) ;;
  match find (owned_connection connection_id session_user_id) (rows t) with
  | None => ret (Redirect "api_connections" "API connection not found." "error")
  | Some connection =>
      (* Delete the connection *)
      t <- lift (from_table "api_connections" (api_connections conn)) ;;
      begin_write ;;
      commit (set_api_connections
                (delete_from t (owned_connection connection_id session_user_id)) conn) ;;
      ret (Redirect "api_connections"
             ("API connection for " +++ ApiConnections.institution_name connection
              +++ " has been deleted.")
             "success")
  end.

Section WithEnv.
Variable env : Env.
Variable json_dumps_credentials : Credentials -> string.

(** The credentials collected from the form for a type of connection. *)
Definition collect_credentials (api_type : string) (form : Form) : result Credentials :=
  if String.eqb api_type "plaid" then
    rbind (getitem "plaid_client_id" (plaid_client_id form)) (fun client_id =>
    rbind (getitem "plaid_secret" (plaid_secret form)) (fun secret =>
    rbind (getitem "plaid_access_token" (plaid_access_token form)) (fun access_token =>
    Val {| cred_client_id := Some client_id;
           cred_secret := Some secret;
           cred_access_token := Some access_token |})))
  else Val no_credentials.

(** [edit_api_connection]; [post] is the form of a POST request, [None]
    for a GET request; [connection_id] is the integer of the URL. *)
Definition edit_api_connection (session_user_id connection_id : Z) (post : option Form)
  : M Response :=
  conn <- sqlite3_connect ;;
  (* Get the connection details *)
  t <- lift (from_table "api_connections" (api_connections conn)) ;;
  connection_id <- lift (bind_int connection_id) ;;
  match find (owned_connection connection_id session_user_id) (rows t) with
  | None => ret (Redirect "api_connections" "API connection not found." "error")
  | Some connection =>
      (* Decrypt credentials for editing *)
      credentials <-
        try_except
          (lift (rbind (decrypt_data env (ApiConnections.encrypted_credentials connection))
                   (json_loads_credentials env)))
          (fun _ => ret no_credentials) ;;
      match post with
      | Some form =>
          institution_name <-
            lift (getitem "institution_name" (form_institution_name form)) ;;
          api_type <- lift (getitem "api_type" (form_api_type form)) ;;
          (* Collect credentials based on API type *)
          new_credentials <- lift (collect_credentials api_type form) ;;
          (* Update the connection *)
          encrypted_credentials <-
            encrypt_data env (json_dumps_credentials new_credentials) ;;
          conn <- sqlite3_connect ;;
          t <- lift (from_table "api_connections" (api_connections conn)) ;;
          begin_write ;;
          commit (set_api_connections
                    (update_where t (owned_connection connection_id session_user_id)
                       (set_edited institution_name api_type encrypted_credentials))
                    conn) ;;
          ret (Redirect "api_connections" "API connection updated successfully!" "success")
      | None =>
          ret (RenderEdit {| view_id := connection_id;
                             view_institution_name :=
                               ApiConnections.institution_name connection;
                             view_api_type := ApiConnections.api_type connection;
                             view_credentials := credentials |})
      end
  end.
End WithEnv.

End Routes.

(** The rows of the table of connections that belong to a user. *)
Definition connections_of (user_id : Z) (d : Database) : list ApiConnections.row :=
  filter (fun row => ApiConnections.user_id row =? user_id) (rows_of (api_connections d)).

(** The connections of a user, as [get_api_connections] lists them. *)
Definition listing (user_id : Z) (d : Database) : list Connection :=
  map FinancialDataManager.connection_of (connections_of user_id d).

(** The object that [PlaidAPI(...)] builds from a dictionary of
    credentials. *)
Definition api_of (c : Credentials) : PlaidAPI.t :=
  {| PlaidAPI.client_id := cred_client_id c;
     PlaidAPI.secret := cred_secret c;
     PlaidAPI.access_token := cred_access_token c |}.

(** * Further vocabulary *)

(** The request that [_get_transactions] posts from the state [s]. *)
Definition transactions_request (env : Env) (self : PlaidAPI.t) (account_id : string)
    (s : State) : Provider.Request :=
  let now := clock env (List.length (trace s)) in
  {| Provider.endpoint := "/transactions/get";
     Provider.PLAID_CLIENT_ID := PlaidAPI.client_id self;
     Provider.PLAID_SECRET := PlaidAPI.secret self;
     Provider.access_token := PlaidAPI.access_token self;
     Provider.start_date := Some (strftime_Ymd (now - timedelta_days 30));
     Provider.end_date := Some (strftime_Ymd now);
     Provider.account_ids := [account_id] |}.

(** The request that [get_account_data] posts first. *)
Definition accounts_request (self : PlaidAPI.t) : Provider.Request :=
  {| Provider.endpoint := "/accounts/get";
     Provider.PLAID_CLIENT_ID := PlaidAPI.client_id self;
     Provider.PLAID_SECRET := PlaidAPI.secret self;
     Provider.access_token := PlaidAPI.access_token self;
     Provider.start_date := None;
     Provider.end_date := None;
     Provider.account_ids := [] |}.

Definition present {A} (field : option A) : bool :=
  match field with
  | Some _ => true
  | None => false
  end.

(** An entry of the provider that has the keys that the code subscripts. *)
Definition complete_transaction (raw : Provider.RawTransaction) : bool :=
  present (Provider.raw_amount raw) && present (Provider.raw_name raw)
  && present (Provider.raw_date raw).

Definition complete_account (raw : Provider.RawAccount) : bool :=
  present (Provider.raw_account_id raw) && present (Provider.raw_name_ raw)
  && present (Provider.raw_type raw)
  && match Provider.raw_balances raw with
     | Some balances => present (Provider.raw_current balances)
                        && present (Provider.raw_iso_currency_code balances)
     | None => false
     end
  && present (Provider.raw_institution_id raw).

(** The fields that a transaction dictionary copies from its entry. *)
Definition copied_from (raw : Provider.RawTransaction) (t : Transaction) : Prop :=
  Provider.raw_name raw = Some (description t)
  /\ Provider.raw_date raw = Some (date_ t)
  /\ category t = get_default (Provider.raw_category raw) [].

(** The account data built from an entry of the provider. *)
Definition account_from (raw : Provider.RawAccount) (a : AccountData) : Prop :=
  Provider.raw_account_id raw = Some (account_id a)
  /\ Provider.raw_name_ raw = Some (account_name a)
  /\ option_map PlaidAPI._map_account_type (Provider.raw_type raw) = Some (account_type a)
  /\ (exists balances, Provider.raw_balances raw = Some balances
                       /\ Provider.raw_current balances = Some (balance a)
                       /\ Provider.raw_iso_currency_code balances = Some (currency a))
  /\ Provider.raw_institution_id raw = Some (institution a)
  /\ transactions a <> None.

(** An entry of the dictionary of quotes: the quote carries its key as
    symbol, and its price is the close of the last bar of a history that
    the market-data service gave for [query key]. *)
Definition quoted_from (env : Env) (query : string -> string) (kv : string * Quote) : Prop :=
  q_symbol (snd kv) = fst kv
  /\ exists i ticker bar bars,
       yf_Ticker env i (query (fst kv)) = Val ticker
       /\ rev (YF.history ticker) = bar :: bars
       /\ current_price (snd kv) = YF.Close bar.

(** The name under which [get_crypto_data] asks for a symbol. *)
Definition usd_pair (symbol : string) : string := symbol +++ "-USD".

(** The dictionaries of quotes that the two loops maintain. *)
Definition quotes_of (env : Env) (query : string -> string) (symbols : list string)
    (d : list (string * Quote)) : Prop :=
  NoDup (map fst d)
  /\ Forall (fun kv => In (fst kv) symbols /\ quoted_from env query kv) d.


(** A transaction whose amount SQLite can bind: a float, or an int of 64
    bits. *)
Definition storable (t : Transaction) : bool :=
  negb (py_int (amount t)) || sqlite_integer (Qnum (amount t)).


(** What an edit of the connection [connection_id] of [user_id] may do
    to one row of the table of connections: the id, the owner, the active
    flag and the creation time stay, and a row that is not that connection
    of that user stays as a whole. *)
Definition edit_frame (user_id connection_id : Z) (row row' : ApiConnections.row) : Prop :=
  ApiConnections.id row' = ApiConnections.id row
  /\ ApiConnections.user_id row' = ApiConnections.user_id row
  /\ ApiConnections.is_active row' = ApiConnections.is_active row
  /\ ApiConnections.created_at row' = ApiConnections.created_at row
  /\ (owned_connection connection_id user_id row = false -> row' = row).

(** The same for the table: no row is added, deleted or moved. *)
Definition connections_framed (R : ApiConnections.row -> ApiConnections.row -> Prop)
    (before after : option (table ApiConnections.row)) : Prop :=
  match before, after with
  | Some t, Some t' => sequence t' = sequence t /\ Forall2 R (rows t) (rows t')
  | None, None => True
  | _, _ => False
  end.

(** ** What a synchronisation keeps *)

(** A row of connections that differs at most in its last-sync time. *)
Definition connection_kept (row row' : ApiConnections.row) : Prop :=
  ApiConnections.id row' = ApiConnections.id row
  /\ ApiConnections.user_id row' = ApiConnections.user_id row
  /\ ApiConnections.institution_name row' = ApiConnections.institution_name row
  /\ ApiConnections.api_type row' = ApiConnections.api_type row
  /\ ApiConnections.encrypted_credentials row' = ApiConnections.encrypted_credentials row
  /\ ApiConnections.is_active row' = ApiConnections.is_active row
  /\ ApiConnections.created_at row' = ApiConnections.created_at row.

(** An account record that differs at most in its sealed data and its
    time of update. *)
Definition account_kept (row row' : Accounts.row) : Prop :=
  Accounts.id row' = Accounts.id row
  /\ Accounts.user_id row' = Accounts.user_id row
  /\ Accounts.account_name row' = Accounts.account_name row
  /\ Accounts.account_type row' = Accounts.account_type row
  /\ Accounts.created_at row' = Accounts.created_at row.

(** A holding that differs at most in its current price and its time of
    update, and not at all when it belongs to another user. *)
Definition holding_kept (user_id : Z) (row row' : Holdings.row) : Prop :=
  Holdings.id row' = Holdings.id row
  /\ Holdings.user_id row' = Holdings.user_id row
  /\ Holdings.symbol row' = Holdings.symbol row
  /\ Holdings.quantity row' = Holdings.quantity row
  /\ Holdings.purchase_price row' = Holdings.purchase_price row
  /\ (Holdings.user_id row <> user_id -> row' = row).

(** The rows of a table stay in place: none is added, deleted or moved. *)
Definition rows_kept {R} (kept : R -> R -> Prop) (before after : option (table R)) : Prop :=
  match before, after with
  | Some t, Some t' => Forall2 kept (rows t) (rows t')
  | None, None => True
  | _, _ => False
  end.

(** The rows of a table stay in place and new ones come after them. *)
Definition rows_grown {R} (kept : R -> R -> Prop) (before after : option (table R)) : Prop :=
  match before, after with
  | Some t, Some t' => exists old new, rows t' = old ++ new /\ Forall2 kept (rows t) old
  | None, None => True
  | _, _ => False
  end.

(** What the market-data pass for [user_id] may change: the prices of the
    holdings of that user, and the trace. *)
Definition market_pass (user_id : Z) (s s' : State) : Prop :=
  api_connections (database s') = api_connections (database s)
  /\ accounts (database s') = accounts (database s)
  /\ transactions_ (database s') = transactions_ (database s)
  /\ sync_results s' = sync_results s
  /\ rows_kept (holding_kept user_id)
       (stock_holdings (database s)) (stock_holdings (database s'))
  /\ rows_kept (holding_kept user_id)
       (crypto_holdings (database s)) (crypto_holdings (database s')).

(** What a synchronisation for [user_id] keeps of the database. *)
Definition preserved (user_id : Z) (s s' : State) : Prop :=
  rows_kept connection_kept (api_connections (database s)) (api_connections (database s'))
  /\ rows_grown account_kept (accounts (database s)) (accounts (database s'))
  /\ rows_grown eq (transactions_ (database s)) (transactions_ (database s'))
  /\ rows_kept (holding_kept user_id)
       (stock_holdings (database s)) (stock_holdings (database s'))
  /\ rows_kept (holding_kept user_id)
       (crypto_holdings (database s)) (crypto_holdings (database s')).

(** The error messages that a pass over the connections leaves, given for
    each connection the exception that its processing raised, if any. *)
Fixpoint sync_errors (outcomes : list (Connection * option Exception)) : list string :=
  match outcomes with
  | [] => []
  | (connection, Some e) :: l => error_msg connection e :: sync_errors l
  | (_, None) :: l => sync_errors l
  end.

(** What the processing of the connections may do to [sync_results]
    besides appending errors: count accounts. *)
Definition tally (s s' : State) : Prop :=
  success (sync_results s') = success (sync_results s)
  /\ last_sync (sync_results s') = last_sync (sync_results s)
  /\ errors (sync_results s') = errors (sync_results s)
  /\ accounts_updated (sync_results s) <= accounts_updated (sync_results s').

Module Sample2.

(** The sample world with a market-data service that fails for the symbol
    BAD, has a bar for AAPL and for the pair BTC-USD, and has no bar for
    any other symbol. *)
Definition market : Env :=
  {| cipher_suite := cipher_suite Sample.env;
     clock := clock Sample.env;
     plaid_server := plaid_server Sample.env;
     yf_Ticker := fun _ symbol =>
       if String.eqb symbol "BAD" then Exn (PlainException "No data found")
       else
         Val {| YF.longName := None;
                YF.info_currency := None;
                YF.history :=
                  if String.eqb symbol "AAPL" || String.eqb symbol "BTC-USD"
                  then [ {| YF.Open := 180; YF.Close := 185; YF.Volume := 1000 |} ]
                  else [] |};
     json_dumps_info := json_dumps_info Sample.env;
     json_dumps_category := json_dumps_category Sample.env;
     json_loads_credentials := json_loads_credentials Sample.env;
     collector := collector Sample.env;
     unicode_upper := unicode_upper Sample.env |}.

(** The sample world with a bank that answers every request with status
    503. *)
Definition unavailable : Env :=
  {| cipher_suite := cipher_suite Sample.env;
     clock := clock Sample.env;
     plaid_server := fun _ _ =>
       Provider.Answer 503 "Service Unavailable" (Exn (PlainException "no body"));
     yf_Ticker := yf_Ticker Sample.env;
     json_dumps_info := json_dumps_info Sample.env;
     json_dumps_category := json_dumps_category Sample.env;
     json_loads_credentials := json_loads_credentials Sample.env;
     collector := collector Sample.env;
     unicode_upper := unicode_upper Sample.env |}.

(** A database in which the table [transactions] was never created; the
    other tables are empty. *)
Definition without_transactions : State :=
  {| database :=
       {| api_connections := Some Sample.empty_table;
          accounts := Some Sample.empty_table;
          transactions_ := None;
          stock_holdings := Some Sample.empty_table;
          crypto_holdings := Some Sample.empty_table |};
     trace := [];
     sync_results := Sample.no_results |}.

(** The sample world with a bank that reports, for the checking account, a
    transfer of -2^63, an integer; [_get_transactions] makes of it the
    amount 2^63, one more than the largest integer that SQLite binds. *)
Definition big_spender : Env :=
  {| cipher_suite := cipher_suite Sample.env;
     clock := clock Sample.env;
     plaid_server := fun i _ =>
       Provider.Answer 200 "OK"
         (Val {| Provider.resp_accounts := Some [Sample.checking (inject_Z (Z.of_nat i))];
                 Provider.resp_transactions :=
                   Some [ {| Provider.raw_amount := Some (inject_Z (- 2 ^ 63));
                             Provider.raw_name := Some "Transfer";
                             Provider.raw_date := Some "2024-01-05";
                             Provider.raw_category := None |} ] |});
     yf_Ticker := yf_Ticker Sample.env;
     json_dumps_info := json_dumps_info Sample.env;
     json_dumps_category := json_dumps_category Sample.env;
     json_loads_credentials := json_loads_credentials Sample.env;
     collector := collector Sample.env;
     unicode_upper := unicode_upper Sample.env |}.

(** A database in which every table exists; user 1 has two connections and
    nothing else. *)
Definition connected : State :=
  {| database :=
       set_api_connections
         {| rows := [Sample.connection_row 1 "First Bank" "plaid";
                     Sample.connection_row 2 "Yahoo" "yfinance"];
            sequence := 2 |}
         (database Sample.fresh);
     trace := [];
     sync_results := Sample.no_results |}.

(** A serialiser of credentials that the sample parser reads back. *)
Definition dumps (c : Credentials) : string := "credentials".

(** A serialiser of the dictionary of [add_account]. *)
Definition dumps_account (a : App.AccountForm) : string :=
  "balance=" +++ Sample.str_of_Q (App.form_balance a)
  +++ " currency=" +++ App.form_currency a.

(** The user adds an account "Checking" by hand, twice. *)
Definition added_twice : M unit :=
  App.add_account Sample.env dumps_account 1 "Checking" "checking" 100 None None None ;;
  App.add_account Sample.env dumps_account 1 "Checking" "checking" 200 None None None.

(** A posted form that renames the connection and gives new Plaid
    credentials. *)
Definition form : Routes.Form :=
  {| Routes.form_institution_name := Some "Second Bank";
     Routes.form_api_type := Some "plaid";
     Routes.plaid_client_id := Some "client";
     Routes.plaid_secret := Some "secret";
     Routes.plaid_access_token := Some "access-token" |}.

Definition api : PlaidAPI.t :=
  {| PlaidAPI.client_id := Some "client"; PlaidAPI.secret := Some "secret";
     PlaidAPI.access_token := Some "access-token" |}.

End Sample2.

(** * Properties *)

(** ** Facts about the monad *)

Lemma bind_returned {A B} (c : M A) (k : A -> M B) s a s' :
  c s = Returned a s' -> bind c k s = k a s'.
Proof. unfold bind; intros ->; reflexivity. Qed.

Lemma bind_raised {A B} (c : M A) (k : A -> M B) s e s' :
  c s = Raised e s' -> bind c k s = Raised e s'.
Proof. unfold bind; intros ->; reflexivity. Qed.

Lemma try_except_returned {A} (body : M A) handler s a s' :
  body s = Returned a s' -> try_except body handler s = Returned a s'.
Proof. unfold try_except; intros ->; reflexivity. Qed.

Lemma try_except_raised {A} (body : M A) handler s e s' :
  body s = Raised e s' -> try_except body handler s = handler e s'.
Proof. unfold try_except; intros ->; reflexivity. Qed.

(** ** The account-type table *)

Lemma mapping_get_cases (d : list (string * string)) key default :
  In (key, PlaidAPI.mapping_get d key default) d
  \/ (~ In key (map fst d) /\ PlaidAPI.mapping_get d key default = default).
Proof.
  induction d as [|[k v] d IH]; simpl.
  - right; split; [tauto | reflexivity].
  - destruct (String.eqb_spec k key) as [->|Hne].
    + left; left; reflexivity.
    + destruct IH as [IH|[IH1 IH2]]; [left; right; exact IH|].
      right; split; [|exact IH2]. intros [E|E]; [congruence | contradiction].
Qed.

(** C6, as stated, fails: the provider label "brokerage" is mapped to
    "stock", which is not one of the kinds that the specification lists. *)
Lemma brokerage_maps_outside_spec_kinds :
  PlaidAPI._map_account_type "brokerage" = "stock"
  /\ ~ In (PlaidAPI._map_account_type "brokerage") spec_account_kinds.
Proof.
  split; [reflexivity|].
  simpl. intros H.
  repeat (destruct H as [H|H]; [discriminate H|]). exact H.
Qed.

(** C6, amended: for every provider label the mapping answers one of
    checking / credit / loan / investment / stock / other by a fixed lookup
    table; "depository" gives "checking", "brokerage" gives "stock", and a
    label that is not a key of the table (such as "foobar") gives "other". *)
Theorem map_account_type_total (plaid_type : string) :
  In (PlaidAPI._map_account_type plaid_type) account_kinds
  /\ (In plaid_type (map fst PlaidAPI.mapping)
      \/ PlaidAPI._map_account_type plaid_type = "other")
  /\ PlaidAPI._map_account_type "depository" = "checking"
  /\ PlaidAPI._map_account_type "brokerage" = "stock"
  /\ PlaidAPI._map_account_type "foobar" = "other".
Proof.
  unfold PlaidAPI._map_account_type.
  destruct (mapping_get_cases PlaidAPI.mapping plaid_type "other") as [H|[H1 H2]].
  - remember (PlaidAPI.mapping_get PlaidAPI.mapping plaid_type "other") as kind eqn:Hkind.
    split; [|split; [|repeat split]].
    + unfold PlaidAPI.mapping in H; simpl in H.
      repeat (destruct H as [H|H];
              [injection H as H0 H1; rewrite <- H1; simpl; tauto|]).
      contradiction.
    + left. change plaid_type with (fst (plaid_type, kind)).
      apply in_map; exact H.
  - rewrite H2. split; [simpl; tauto|]. split; [right; reflexivity|repeat split].
Qed.

(** ** Fetching transactions *)

Lemma strftime_30_days (now : datetime) :
  strftime_Ymd (now - timedelta_days 30) = strftime_Ymd now - 30.
Proof.
  unfold strftime_Ymd, timedelta_days, date, datetime in *.
  replace (now - 30 * us_per_day) with (now + (-30) * us_per_day) by ring.
  rewrite Z.div_add by (unfold us_per_day; lia). ring.
Qed.

Lemma positive_true (a : Q) : PlaidAPI.positive a = true <-> (0 < a)%Q.
Proof.
  unfold PlaidAPI.positive. rewrite negb_true_iff, <- not_true_iff_false, Qle_bool_iff.
  split; [apply Qnot_le_lt | apply Qlt_not_le].
Qed.

Lemma transaction_dict_built_from raw t :
  PlaidAPI.transaction_dict raw = Val t -> built_from raw t.
Proof.
  unfold PlaidAPI.transaction_dict, getitem, rbind.
  destruct (Provider.raw_amount raw) as [a|] eqn:Hamount; [|discriminate].
  destruct (Provider.raw_name raw); [|discriminate].
  destruct (Provider.raw_date raw); [|discriminate].
  intros [= <-]. exists a; simpl.
  split; [exact Hamount|split; [reflexivity|split]].
  - intros Ha. apply positive_true in Ha. rewrite Ha. reflexivity.
  - intros Ha. destruct (PlaidAPI.positive a) eqn:E; [|reflexivity].
    apply positive_true in E. exfalso. exact (Qlt_not_le _ _ E Ha).
Qed.

Lemma transaction_dicts_built_from raws ts :
  PlaidAPI.transaction_dicts raws = Val ts ->
  Forall (fun t => exists raw, In raw raws /\ built_from raw t) ts.
Proof.
  revert ts. induction raws as [|raw raws IH]; simpl; intros ts H.
  - injection H as <-. constructor.
  - unfold rbind in H.
    destruct (PlaidAPI.transaction_dict raw) as [t|] eqn:Ht; [|discriminate].
    destruct (PlaidAPI.transaction_dicts raws) as [ts'|]; [|discriminate].
    injection H as <-. constructor.
    + exists raw. split; [left; reflexivity | apply transaction_dict_built_from; exact Ht].
    + eapply Forall_impl; [|apply IH; reflexivity].
      intros t' (raw' & Hin & Hb). exists raw'. split; [right; exact Hin | exact Hb].
Qed.

Lemma datetime_now_eq env s :
  datetime_now env s = Returned (clock env (List.length (trace s))) (record ClockRead s).
Proof. reflexivity. Qed.

Lemma trace_record ev s : trace (record ev s) = trace s ++ [ev].
Proof. reflexivity. Qed.

Lemma length_trace_record ev s :
  List.length (trace (record ev s)) = S (List.length (trace s)).
Proof. unfold record; simpl. rewrite length_app; simpl; lia. Qed.

(** ** The write lock *)

Lemma held_until_record ev s :
  held_until (trace (record ev s))
  = match ev with LeftOpen n => n | _ => held_until (trace s) end.
Proof. unfold held_until. rewrite trace_record, fold_left_app. reflexivity. Qed.

(** Time passes: a database that is not locked stays so while no
    connection is left open. *)
Lemma write_locked_record ev s :
  write_locked s = false ->
  match ev with LeftOpen _ => False | _ => True end ->
  write_locked (record ev s) = false.
Proof.
  unfold write_locked. intros Hfree Hev.
  rewrite held_until_record, length_trace_record.
  apply Nat.ltb_ge in Hfree. apply Nat.ltb_ge.
  destruct ev; try contradiction; lia.
Qed.

Lemma begin_write_free s : write_locked s = false -> begin_write s = Returned tt s.
Proof. unfold begin_write. intros ->. reflexivity. Qed.

Lemma begin_write_locked s :
  write_locked s = true ->
  begin_write s = Raised (OperationalError "database is locked") s.
Proof. unfold begin_write. intros ->. reflexivity. Qed.

Lemma begin_write_cases s :
  begin_write s = Returned tt s
  \/ begin_write s = Raised (OperationalError "database is locked") s.
Proof. unfold begin_write. destruct (write_locked s); auto. Qed.

(** A request either brings back the JSON body of a 200 answer or raises;
    in both cases it is recorded, and nothing else changes. *)
Lemma make_request_cases env self endpoint start_date end_date account_ids s :
  let request :=
    {| Provider.endpoint := endpoint;
       Provider.PLAID_CLIENT_ID := PlaidAPI.client_id self;
       Provider.PLAID_SECRET := PlaidAPI.secret self;
       Provider.access_token := PlaidAPI.access_token self;
       Provider.start_date := start_date;
       Provider.end_date := end_date;
       Provider.account_ids := account_ids |} in
  (exists response text,
     plaid_server env (List.length (trace s)) request
     = Provider.Answer 200 text (Val response)
     /\ PlaidAPI._make_request env self endpoint start_date end_date account_ids s
        = Returned response (record (Posted request) s))
  \/ (exists e,
     PlaidAPI._make_request env self endpoint start_date end_date account_ids s
     = Raised e (record (Posted request) s)).
Proof.
  intros request. unfold PlaidAPI._make_request. fold request.
  unfold bind, emit.
  destruct (plaid_server env (List.length (trace s)) request) as [e|status_code text json].
  - right. exists e. reflexivity.
  - destruct (Z.eqb_spec status_code 200) as [->|Hne].
    + destruct json as [response|e].
      * left. exists response, text. split; reflexivity.
      * right. exists e. reflexivity.
    + right. eexists. reflexivity.
Qed.

(** C7: [_get_transactions] always returns; it reads the clock and posts one
    request whose window ends on the day of that reading and starts 30 days
    before it; every transaction it returns was built from an entry of the
    provider's answer to that request, its amount is the absolute value of
    the entry's signed amount, and its direction is "credit" when that
    amount is strictly positive and "debit" when it is negative or zero. *)
Theorem get_transactions_window_and_direction
    (env : Env) (self : PlaidAPI.t) (account_id : string) (s : State) :
  exists (ts : list Transaction) (s' : State) (request : Provider.Request)
         (rest : list Event),
    PlaidAPI._get_transactions env self account_id s = Returned ts s'
    /\ trace s' = trace s ++ ClockRead :: Posted request :: rest
    /\ Provider.endpoint request = "/transactions/get"
    /\ Provider.account_ids request = [account_id]
    /\ Provider.end_date request = Some (strftime_Ymd (clock env (List.length (trace s))))
    /\ Provider.start_date request
       = Some (strftime_Ymd (clock env (List.length (trace s))) - 30)
    /\ Forall (fun t =>
         exists text response raw,
           plaid_server env (S (List.length (trace s))) request
           = Provider.Answer 200 text (Val response)
           /\ In raw (get_default (Provider.resp_transactions response) [])
           /\ built_from raw t) ts.
Proof.
  set (now := clock env (List.length (trace s))).
  unfold PlaidAPI._get_transactions, try_except.
  rewrite (bind_returned _ _ _ _ _ (datetime_now_eq env s)). fold now.
  pose proof (make_request_cases env self "/transactions/get"
                (Some (strftime_Ymd (now - timedelta_days 30)))
                (Some (strftime_Ymd now)) [account_id] (record ClockRead s)) as Hreq.
  cbv zeta in Hreq. rewrite length_trace_record in Hreq.
  set (request := {| Provider.endpoint := "/transactions/get" |}) in *.
  assert (Hwin : Provider.start_date request = Some (strftime_Ymd now - 30))
    by (simpl; f_equal; apply strftime_30_days).
  assert (Htrace : forall s' rest,
             trace s' = (trace s ++ [ClockRead]) ++ Posted request :: rest ->
             trace s' = trace s ++ ClockRead :: Posted request :: rest)
    by (intros s' rest ->; rewrite <- app_assoc; reflexivity).
  destruct Hreq as [(response & text & Hanswer & Hreq)|(e & Hreq)].
  - rewrite (bind_returned _ _ _ _ _ Hreq).
    destruct (PlaidAPI.transaction_dicts
                (get_default (Provider.resp_transactions response) [])) as [ts|e] eqn:Hts.
    + exists ts, (record (Posted request) (record ClockRead s)), request, [].
      split; [reflexivity|]. split; [apply Htrace; reflexivity|].
      do 3 (split; [reflexivity|]). split; [exact Hwin|].
      eapply Forall_impl; [|apply transaction_dicts_built_from; exact Hts].
      intros t (raw & Hin & Hb). exists text, response, raw. auto.
    + eexists [], _, request, [_].
      split; [reflexivity|]. split; [apply Htrace; cbn [print bind]; rewrite !trace_record, <- app_assoc; reflexivity|].
      do 3 (split; [reflexivity|]). split; [exact Hwin|constructor].
  - rewrite (bind_raised _ _ _ _ _ Hreq).
    eexists [], _, request, [_].
    split; [reflexivity|]. split; [apply Htrace; cbn [print bind]; rewrite !trace_record, <- app_assoc; reflexivity|].
    do 3 (split; [reflexivity|]). split; [exact Hwin|constructor].
Qed.

(** ** Sealing and opening *)

Lemma ascii_utf8_valid (l : bytes) :
  forallb (between 0 127) l = true -> utf8_valid l = true.
Proof.
  induction l as [|b l IH]; [reflexivity|].
  cbn [forallb]. intros H. apply andb_true_iff in H as [Hb Hl].
  cbn [utf8_valid]. rewrite Hb. apply IH; exact Hl.
Qed.

Lemma bytes_decode_encode (s : string) :
  well_formed s -> bytes_decode (str_encode s) = Val s.
Proof.
  unfold well_formed, bytes_decode, str_encode. intros ->.
  rewrite string_of_list_byte_of_string. reflexivity.
Qed.

(** A token of a cipher suite that honours the contract is text. *)
Lemma token_is_text cipher_suite n p :
  FernetContract cipher_suite ->
  exists token, bytes_decode (encrypt cipher_suite n p) = Val token
                /\ str_encode token = encrypt cipher_suite n p.
Proof.
  intros Hc. unfold bytes_decode.
  rewrite (ascii_utf8_valid _ (token_ascii _ Hc n p)).
  eexists; split; [reflexivity|]. apply list_byte_of_string_of_list_byte.
Qed.

Lemma encrypt_data_returns env data s :
  FernetContract (cipher_suite env) ->
  exists token,
    encrypt_data env data s = Returned token (record TokenSealed s)
    /\ str_encode token
       = encrypt (cipher_suite env) (List.length (trace s)) (str_encode data).
Proof.
  intros Hc.
  destruct (token_is_text _ (List.length (trace s)) (str_encode data) Hc)
    as (token & Hdecode & Hencode).
  exists token. split; [|exact Hencode].
  unfold encrypt_data, bind, emit. rewrite Hdecode. reflexivity.
Qed.

(** C9: under a cipher suite that honours the contract of the library,
    sealing never raises, and opening the sealed blob with the same suite
    gives back exactly the plaintext: its bytes, and, when they are
    well-formed text, the string itself. *)
Theorem seal_then_open (env : Env) (data : string) (s : State)
    (contract : FernetContract (cipher_suite env)) :
  exists blob s',
    encrypt_data env data s = Returned blob s'
    /\ decrypt (cipher_suite env) (str_encode blob) = Some (str_encode data)
    /\ (well_formed data -> decrypt_data env blob = Val data).
Proof.
  destruct (encrypt_data_returns env data s contract) as (blob & Hseal & Htoken).
  exists blob, (record TokenSealed s). split; [exact Hseal|].
  assert (Hopen : decrypt (cipher_suite env) (str_encode blob) = Some (str_encode data))
    by (rewrite Htoken; apply (decrypt_encrypt _ contract)).
  split; [exact Hopen|].
  intros Hwf. unfold decrypt_data. rewrite Hopen.
  apply bytes_decode_encode; exact Hwf.
Qed.

Lemma sample_letters (b : byte) :
  Sample.byte_of_letters (Sample.letter (Byte.to_N b / 16))
    (Sample.letter (Byte.to_N b mod 16)) = Some b
  /\ forallb (between 0 127) (Sample.letters_of b) = true.
Proof. destruct b; split; reflexivity. Qed.

Lemma sample_unspell_spell (p : bytes) : Sample.unspell (Sample.spell p) = Some p.
Proof.
  induction p as [|b p IH]; [reflexivity|].
  cbn [Sample.spell Sample.letters_of app Sample.unspell].
  rewrite (proj1 (sample_letters b)), IH. reflexivity.
Qed.

Lemma sample_spell_ascii (p : bytes) : forallb (between 0 127) (Sample.spell p) = true.
Proof.
  induction p as [|b p IH]; [reflexivity|].
  cbn [Sample.spell]. rewrite forallb_app, (proj2 (sample_letters b)), IH. reflexivity.
Qed.

(** The sample cipher suite honours the contract. *)
Lemma sample_cipher_contract : FernetContract Sample.cipher.
Proof.
  split; intros n p; cbn [Sample.cipher encrypt decrypt].
  - rewrite sample_unspell_spell. reflexivity.
  - apply sample_spell_ascii.
Qed.

Lemma seal_then_open_witness :
  exists blob s',
    encrypt_data Sample.env "Coffee" Sample.fresh = Returned blob s'
    /\ decrypt (cipher_suite Sample.env) (str_encode blob) = Some (str_encode "Coffee")
    /\ (well_formed "Coffee" -> decrypt_data Sample.env blob = Val "Coffee").
Proof. exact (seal_then_open Sample.env "Coffee" Sample.fresh sample_cipher_contract). Defined.

(** ** Tables *)

Section TableFacts.
Context {R : Type} (rowid : R -> Z).

Lemma fold_max_bound (l : list Z) (x : Z) : In x l -> x <= fold_right Z.max 0 l.
Proof.
  induction l as [|y l IH]; simpl; [contradiction|].
  intros [->|H]; [lia|]. specialize (IH H). lia.
Qed.

(** The rowid of the next row is above every rowid in the table. *)
Lemma next_rowid_fresh (t : table R) (r : R) :
  In r (rows t) -> rowid r < next_rowid rowid t.
Proof.
  intros H. unfold next_rowid.
  assert (rowid r <= fold_right Z.max 0 (map rowid (rows t)))
    by (apply fold_max_bound; apply (in_map rowid); exact H).
  lia.
Qed.

Lemma no_conflict (t : table R) (mk : Z -> R) :
  (forall i, rowid (mk i) = i) ->
  forall r, In r (rows t) -> conflicts rowid (mk (next_rowid rowid t)) r = false.
Proof.
  intros Hmk r Hr. unfold conflicts. rewrite Hmk.
  apply Z.eqb_neq. pose proof (next_rowid_fresh t r Hr). lia.
Qed.

(** With the primary key as the only uniqueness constraint, a row that
    takes a fresh rowid conflicts with nothing: OR IGNORE never ignores
    and OR REPLACE never replaces. *)
Lemma insert_or_ignore_inserts (t : table R) (mk : Z -> R) :
  (forall i, rowid (mk i) = i) ->
  insert_or_ignore_into rowid t mk = insert_into rowid t mk.
Proof.
  intros Hmk. unfold insert_or_ignore_into, insert_into.
  replace (existsb _ (rows t)) with false; [reflexivity|].
  symmetry. apply not_true_iff_false. intros H.
  apply existsb_exists in H as (r & Hr & Hc).
  rewrite (no_conflict t mk Hmk r Hr) in Hc. discriminate.
Qed.

Lemma insert_or_replace_inserts (t : table R) (mk : Z -> R) :
  (forall i, rowid (mk i) = i) ->
  insert_or_replace_into rowid t mk = insert_into rowid t mk.
Proof.
  intros Hmk. unfold insert_or_replace_into, insert_into. f_equal. f_equal.
  pose proof (no_conflict t mk Hmk) as H.
  induction (rows t) as [|r l IH]; [reflexivity|].
  simpl. rewrite (H r (or_introl eq_refl)). simpl. f_equal.
  apply IH. intros r' Hr'. apply H. right; exact Hr'.
Qed.
End TableFacts.

(** ** Duplicate transactions *)

(** C1, on the code: the same account, with the same transaction (amount
    42.50, "Coffee", "debit", "2024-01-05"), is written twice to a database
    whose tables are empty; the second INSERT OR IGNORE ignores nothing, and
    two rows with that natural key are stored, where the claim says one. *)
Theorem same_transaction_stored_twice :
  exists s' row,
    (FinancialDataManager._update_account_from_api Sample.env 1 (Sample.checking_account 10) ;;
     FinancialDataManager._update_account_from_api Sample.env 1 (Sample.checking_account 10))
      Sample.fresh = Returned tt s'
    /\ accounts_named 1 "Checking" (accounts (database s')) = [row]
    /\ List.length
         (filter (same_natural_key (Accounts.id row)
                    {| amount := 85 # 2; description := "Coffee";
                       transaction_type := "debit"; date_ := "2024-01-05";
                       category := [] |})
            (rows_of (transactions_ (database s')))) = 2%nat.
Proof.
  eexists _, _. split; [vm_compute; reflexivity|]. split; vm_compute; reflexivity.
Qed.

(** ** Re-adding a holding *)

(** C3, on the code: user 1 adds 10 shares of AAPL and then 5 shares of AAPL
    to a database whose tables are empty; INSERT OR REPLACE replaces
    nothing, and two rows for (user 1, AAPL) are stored, the first still
    with its 10 shares, where the claim says one row with 5.  The same
    happens with crypto holdings. *)
Theorem holding_added_twice_two_rows :
  (exists s',
      (App.add_stock_holding Sample.env 1 "aapl" 10 (Some 150%Q) ;;
       App.add_stock_holding Sample.env 1 "AAPL" 5 (Some 170%Q)) Sample.fresh
      = Returned tt s'
      /\ map Holdings.quantity (holdings_of 1 "AAPL" (stock_holdings (database s')))
         = [10%Q; 5%Q])
  /\ (exists s',
      (App.add_crypto_holding Sample.env 1 "btc" 1 None ;;
       App.add_crypto_holding Sample.env 1 "btc" 2 None) Sample.fresh
      = Returned tt s'
      /\ map Holdings.quantity (holdings_of 1 "BTC" (crypto_holdings (database s')))
         = [1%Q; 2%Q]).
Proof.
  split; eexists; (split; [vm_compute; reflexivity|]); vm_compute; reflexivity.
Qed.

(** ** Refreshing the prices of holdings *)

(** The row that one UPDATE of a price leaves in place of [row]. *)
Lemma update_price_rows t price now user_id symbol :
  rows (FinancialDataManager.update_price t price now user_id symbol)
  = map (fun row =>
           if (Holdings.user_id row =? user_id) && String.eqb (Holdings.symbol row) symbol
           then Holdings.set_price price now row else row)
      (rows t).
Proof. reflexivity. Qed.

Lemma refreshed_nil user_id row : refreshed user_id [] row row.
Proof.
  unfold refreshed. do 6 (split; [reflexivity|]).
  intros [_ []].
Qed.

Lemma refreshed_cons user_id symbol data now quotes row row' :
  refreshed user_id quotes
    (if (Holdings.user_id row =? user_id) && String.eqb (Holdings.symbol row) symbol
     then Holdings.set_price (current_price data) now row else row)
    row' ->
  refreshed user_id ((symbol, data) :: quotes) row row'.
Proof.
  set (hit := (Holdings.user_id row =? user_id) && String.eqb (Holdings.symbol row) symbol).
  set (row1 := if hit then Holdings.set_price (current_price data) now row else row).
  assert (Hkeep : Holdings.id row1 = Holdings.id row
                  /\ Holdings.user_id row1 = Holdings.user_id row
                  /\ Holdings.symbol row1 = Holdings.symbol row
                  /\ Holdings.quantity row1 = Holdings.quantity row
                  /\ Holdings.purchase_price row1 = Holdings.purchase_price row)
    by (unfold row1; destruct hit; repeat split).
  destruct Hkeep as (K1 & K2 & K3 & K4 & K5).
  intros (H1 & H2 & H3 & H4 & H5 & Hsame & Hprice).
  unfold refreshed.
  split; [congruence|]. split; [congruence|]. split; [congruence|].
  split; [congruence|]. split; [congruence|]. split.
  - intros Hout.
    assert (Hmiss : hit = false).
    { unfold hit. apply andb_false_iff.
      destruct Hout as [Hu|Hs].
      - left. apply Z.eqb_neq; exact Hu.
      - right. apply String.eqb_neq. intros E. apply Hs. left. simpl. congruence. }
    assert (E1 : row1 = row) by (unfold row1; rewrite Hmiss; reflexivity).
    transitivity row1; [|exact E1]. apply Hsame. rewrite K2, K3.
    destruct Hout as [Hu|Hs]; [left; exact Hu|right].
    intros Hin. apply Hs. right. exact Hin.
  - intros [Hu Hin].
    destruct (in_dec string_dec (Holdings.symbol row) (map fst quotes)) as [Hlater|Hnot].
    + destruct Hprice as (data' & Hd & Hp); [rewrite K2, K3; split; assumption|].
      exists data'. split; [right; rewrite <- K3; exact Hd|exact Hp].
    + destruct Hin as [E|Hin]; [|contradiction]. simpl in E.
      assert (Hhit : hit = true).
      { unfold hit. apply andb_true_iff. split.
        - apply Z.eqb_eq; exact Hu.
        - apply String.eqb_eq. congruence. }
      assert (E' : row' = row1)
        by (apply Hsame; right; rewrite K3; exact Hnot).
      exists data. split; [left; congruence|].
      rewrite E'. unfold row1. rewrite Hhit. reflexivity.
Qed.

Lemma Forall2_refreshed_nil user_id rows : Forall2 (refreshed user_id []) rows rows.
Proof. induction rows; constructor; [apply refreshed_nil|assumption]. Qed.

Lemma Forall2_refreshed_cons user_id symbol data now quotes rows rows' :
  Forall2 (refreshed user_id quotes)
    (map (fun row =>
            if (Holdings.user_id row =? user_id) && String.eqb (Holdings.symbol row) symbol
            then Holdings.set_price (current_price data) now row else row) rows)
    rows' ->
  Forall2 (refreshed user_id ((symbol, data) :: quotes)) rows rows'.
Proof.
  revert rows'. induction rows as [|row rows IH]; simpl; intros rows' H.
  - inversion H; constructor.
  - inversion H as [|r1 r' l1 l' Hr Hl]; subst. constructor.
    + eapply refreshed_cons; exact Hr.
    + apply IH; exact Hl.
Qed.

(** The loop of [_update_stock_prices], run on a connection that sees the
    table: where it returns, and where the write lock is refused. *)
Lemma stock_prices_loop env user_id quotes : forall conn s t,
  stock_holdings conn = Some t ->
  match
    for_fold quotes
      (fun conn '(symbol, data) =>
         now <- datetime_now env ;;
         t <- lift (from_table "stock_holdings" (stock_holdings conn)) ;;
         begin_write ;;
         ret (set_stock_holdings
                (FinancialDataManager.update_price t (current_price data) now user_id symbol)
                conn))
      conn s
  with
  | Returned conn' s' =>
      exists t',
        stock_holdings conn' = Some t'
        /\ sequence t' = sequence t
        /\ Forall2 (refreshed user_id quotes) (rows t) (rows t')
        /\ api_connections conn' = api_connections conn
        /\ accounts conn' = accounts conn
        /\ transactions_ conn' = transactions_ conn
        /\ crypto_holdings conn' = crypto_holdings conn
        /\ database s' = database s
        /\ sync_results s' = sync_results s
  | Raised _ s' => database s' = database s /\ sync_results s' = sync_results s
  end.
Proof.
  induction quotes as [|[symbol data] quotes IH]; intros conn s t Ht.
  - cbn [for_fold ret]. exists t.
    do 2 (split; [auto|]). split; [apply Forall2_refreshed_nil|]. repeat split.
  - cbn [for_fold]. unfold bind at 1.
    unfold bind at 1. rewrite datetime_now_eq.
    unfold bind at 1. rewrite Ht. cbn [from_table lift ret].
    unfold bind at 1.
    destruct (begin_write_cases (record ClockRead s)) as [Hlock|Hlock]; rewrite Hlock;
      cbn [ret]; [|split; reflexivity].
    set (now := clock env (List.length (trace s))).
    set (t1 := FinancialDataManager.update_price t (current_price data) now user_id symbol).
    specialize (IH (set_stock_holdings t1 conn) (record ClockRead s) t1 eq_refl).
    destruct (for_fold quotes _ (set_stock_holdings t1 conn) (record ClockRead s))
      as [conn' s'|e s']; [|exact IH].
    destruct IH as (t' & Hget & Hseq & Hrows & H1 & H2 & H3 & H4 & H5 & H6).
    exists t'. split; [exact Hget|].
    split; [rewrite Hseq; reflexivity|].
    split; [eapply Forall2_refreshed_cons; rewrite <- update_price_rows; exact Hrows|].
    repeat split; assumption.
Qed.

(** On a database that is not locked, the loop returns. *)
Lemma stock_prices_loop_returns env user_id quotes : forall conn s t,
  stock_holdings conn = Some t ->
  write_locked s = false ->
  exists conn' s',
    for_fold quotes
      (fun conn '(symbol, data) =>
         now <- datetime_now env ;;
         t <- lift (from_table "stock_holdings" (stock_holdings conn)) ;;
         begin_write ;;
         ret (set_stock_holdings
                (FinancialDataManager.update_price t (current_price data) now user_id symbol)
                conn))
      conn s = Returned conn' s'.
Proof.
  induction quotes as [|[symbol data] quotes IH]; intros conn s t Ht Hfree.
  - exists conn, s. reflexivity.
  - pose proof (write_locked_record ClockRead s Hfree I) as Hfree1.
    cbn [for_fold]. unfold bind at 1.
    unfold bind at 1. rewrite datetime_now_eq.
    unfold bind at 1. rewrite Ht. cbn [from_table lift ret].
    unfold bind at 1. rewrite (begin_write_free _ Hfree1). cbn [ret].
    eapply IH; [reflexivity | exact Hfree1].
Qed.

Lemma crypto_prices_loop env user_id quotes : forall conn s t,
  crypto_holdings conn = Some t ->
  match
    for_fold quotes
      (fun conn '(symbol, data) =>
         now <- datetime_now env ;;
         t <- lift (from_table "crypto_holdings" (crypto_holdings conn)) ;;
         begin_write ;;
         ret (set_crypto_holdings
                (FinancialDataManager.update_price t (current_price data) now user_id symbol)
                conn))
      conn s
  with
  | Returned conn' s' =>
      exists t',
        crypto_holdings conn' = Some t'
        /\ sequence t' = sequence t
        /\ Forall2 (refreshed user_id quotes) (rows t) (rows t')
        /\ api_connections conn' = api_connections conn
        /\ accounts conn' = accounts conn
        /\ transactions_ conn' = transactions_ conn
        /\ stock_holdings conn' = stock_holdings conn
        /\ database s' = database s
        /\ sync_results s' = sync_results s
  | Raised _ s' => database s' = database s /\ sync_results s' = sync_results s
  end.
Proof.
  induction quotes as [|[symbol data] quotes IH]; intros conn s t Ht.
  - cbn [for_fold ret]. exists t.
    do 2 (split; [auto|]). split; [apply Forall2_refreshed_nil|]. repeat split.
  - cbn [for_fold]. unfold bind at 1.
    unfold bind at 1. rewrite datetime_now_eq.
    unfold bind at 1. rewrite Ht. cbn [from_table lift ret].
    unfold bind at 1.
    destruct (begin_write_cases (record ClockRead s)) as [Hlock|Hlock]; rewrite Hlock;
      cbn [ret]; [|split; reflexivity].
    set (now := clock env (List.length (trace s))).
    set (t1 := FinancialDataManager.update_price t (current_price data) now user_id symbol).
    specialize (IH (set_crypto_holdings t1 conn) (record ClockRead s) t1 eq_refl).
    destruct (for_fold quotes _ (set_crypto_holdings t1 conn) (record ClockRead s))
      as [conn' s'|e s']; [|exact IH].
    destruct IH as (t' & Hget & Hseq & Hrows & H1 & H2 & H3 & H4 & H5 & H6).
    exists t'. split; [exact Hget|].
    split; [rewrite Hseq; reflexivity|].
    split; [eapply Forall2_refreshed_cons; rewrite <- update_price_rows; exact Hrows|].
    repeat split; assumption.
Qed.

(** On a database that is not locked, the loop returns. *)
Lemma crypto_prices_loop_returns env user_id quotes : forall conn s t,
  crypto_holdings conn = Some t ->
  write_locked s = false ->
  exists conn' s',
    for_fold quotes
      (fun conn '(symbol, data) =>
         now <- datetime_now env ;;
         t <- lift (from_table "crypto_holdings" (crypto_holdings conn)) ;;
         begin_write ;;
         ret (set_crypto_holdings
                (FinancialDataManager.update_price t (current_price data) now user_id symbol)
                conn))
      conn s = Returned conn' s'.
Proof.
  induction quotes as [|[symbol data] quotes IH]; intros conn s t Ht Hfree.
  - exists conn, s. reflexivity.
  - pose proof (write_locked_record ClockRead s Hfree I) as Hfree1.
    cbn [for_fold]. unfold bind at 1.
    unfold bind at 1. rewrite datetime_now_eq.
    unfold bind at 1. rewrite Ht. cbn [from_table lift ret].
    unfold bind at 1. rewrite (begin_write_free _ Hfree1). cbn [ret].
    eapply IH; [reflexivity | exact Hfree1].
Qed.

(** C8: [_update_stock_prices] and [_update_crypto_prices] leave every row
    of their table in place, with its id, owner, symbol, quantity and
    purchase price; a row of another user or of a symbol that is not in
    the quote map (MSFT when the map has only AAPL) is left wholly
    unchanged, current price included; a row of the user whose symbol is in
    the map takes the price of a quote for its symbol; no row is deleted or
    added, the other tables are untouched, and the call returns whenever
    the table exists and no connection that was left open holds the write
    lock.  A call that raises, for want of the table or of the lock, has
    written nothing. *)
Theorem refresh_prices_frame (env : Env) (user_id : Z) (quotes : list (string * Quote))
    (s : State) :
  let run1 := FinancialDataManager._update_stock_prices env user_id quotes s in
  let run2 := FinancialDataManager._update_crypto_prices env user_id quotes s in
  let s1 := final run1 in
  let s2 := final run2 in
  (match run1 with
   | Returned _ _ =>
       table_refreshed user_id quotes
         (stock_holdings (database s)) (stock_holdings (database s1))
   | Raised _ _ => stock_holdings (database s1) = stock_holdings (database s)
   end
   /\ crypto_holdings (database s1) = crypto_holdings (database s)
   /\ api_connections (database s1) = api_connections (database s)
   /\ accounts (database s1) = accounts (database s)
   /\ transactions_ (database s1) = transactions_ (database s)
   /\ (stock_holdings (database s) = None
       \/ write_locked s = true
       \/ exists s', run1 = Returned tt s'))
  /\ (match run2 with
      | Returned _ _ =>
          table_refreshed user_id quotes
            (crypto_holdings (database s)) (crypto_holdings (database s2))
      | Raised _ _ => crypto_holdings (database s2) = crypto_holdings (database s)
      end
      /\ stock_holdings (database s2) = stock_holdings (database s)
      /\ api_connections (database s2) = api_connections (database s)
      /\ accounts (database s2) = accounts (database s)
      /\ transactions_ (database s2) = transactions_ (database s)
      /\ (crypto_holdings (database s) = None
          \/ write_locked s = true
          \/ exists s', run2 = Returned tt s')).
Proof.
  cbv zeta. split.
  - unfold FinancialDataManager._update_stock_prices.
    rewrite (bind_returned sqlite3_connect _ s (database s) s eq_refl).
    destruct (stock_holdings (database s)) as [t|] eqn:Ht.
    + pose proof (stock_prices_loop env user_id quotes (database s) s t Ht) as Hloop.
      assert (Hreturns : write_locked s = false ->
                exists conn' s',
                  for_fold quotes
                    (fun conn '(symbol, data) =>
                       now <- datetime_now env ;;
                       t <- lift (from_table "stock_holdings" (stock_holdings conn)) ;;
                       begin_write ;;
                       ret (set_stock_holdings
                              (FinancialDataManager.update_price t (current_price data) now
                                 user_id symbol)
                              conn))
                    (database s) s = Returned conn' s')
        by (apply (stock_prices_loop_returns env user_id quotes _ _ t Ht)).
      destruct (for_fold quotes _ (database s) s) as [conn' s'|e s'] eqn:Hrun.
      * destruct Hloop as (t' & Hget & Hseq & Hrows & H1 & H2 & H3 & H4 & H5 & H6).
        rewrite (bind_returned _ _ _ _ _ Hrun). cbn [commit final database].
        rewrite Hget. cbn [table_refreshed].
        repeat split; try assumption.
        right; right. eexists; reflexivity.
      * destruct Hloop as [Hd _].
        rewrite (bind_raised _ _ _ _ _ Hrun). cbn [final]. rewrite Hd, Ht.
        do 5 (split; [reflexivity|]).
        right; left. destruct (write_locked s); [reflexivity|].
        destruct (Hreturns eq_refl) as (conn' & s'' & H). discriminate H.
    + destruct quotes as [|[symbol data] quotes].
      * cbn. rewrite Ht. repeat split. left; reflexivity.
      * cbn [for_fold]. unfold bind. rewrite datetime_now_eq, Ht.
        cbn [from_table lift raise final record database]. rewrite Ht.
        repeat split. left; reflexivity.
  - unfold FinancialDataManager._update_crypto_prices.
    rewrite (bind_returned sqlite3_connect _ s (database s) s eq_refl).
    destruct (crypto_holdings (database s)) as [t|] eqn:Ht.
    + pose proof (crypto_prices_loop env user_id quotes (database s) s t Ht) as Hloop.
      assert (Hreturns : write_locked s = false ->
                exists conn' s',
                  for_fold quotes
                    (fun conn '(symbol, data) =>
                       now <- datetime_now env ;;
                       t <- lift (from_table "crypto_holdings" (crypto_holdings conn)) ;;
                       begin_write ;;
                       ret (set_crypto_holdings
                              (FinancialDataManager.update_price t (current_price data) now
                                 user_id symbol)
                              conn))
                    (database s) s = Returned conn' s')
        by (apply (crypto_prices_loop_returns env user_id quotes _ _ t Ht)).
      destruct (for_fold quotes _ (database s) s) as [conn' s'|e s'] eqn:Hrun.
      * destruct Hloop as (t' & Hget & Hseq & Hrows & H1 & H2 & H3 & H4 & H5 & H6).
        rewrite (bind_returned _ _ _ _ _ Hrun). cbn [commit final database].
        rewrite Hget. cbn [table_refreshed].
        repeat split; try assumption.
        right; right. eexists; reflexivity.
      * destruct Hloop as [Hd _].
        rewrite (bind_raised _ _ _ _ _ Hrun). cbn [final]. rewrite Hd, Ht.
        do 5 (split; [reflexivity|]).
        right; left. destruct (write_locked s); [reflexivity|].
        destruct (Hreturns eq_refl) as (conn' & s'' & H). discriminate H.
    + destruct quotes as [|[symbol data] quotes].
      * cbn. rewrite Ht. repeat split. left; reflexivity.
      * cbn [for_fold]. unfold bind. rewrite datetime_now_eq, Ht.
        cbn [from_table lift raise final record database]. rewrite Ht.
        repeat split. left; reflexivity.
Qed.

(** The scenario of the specification: quotes for AAPL alone leave the
    price of a MSFT holding as it was. *)
Example msft_price_survives_aapl_quote :
  let msft := App.holding_row 1 "MSFT" 3 300 0 2 in
  let aapl := App.holding_row 1 "AAPL" 10 150 0 1 in
  let s := {| database :=
                set_stock_holdings {| rows := [aapl; msft]; sequence := 2 |}
                  (database Sample.fresh);
              trace := []; sync_results := Sample.no_results |} in
  let quote := {| q_symbol := "AAPL"; q_name := "Apple Inc."; current_price := 185;
                  q_currency := "USD"; q_volume := 1000; q_last_updated := 0 |} in
  exists s' aapl',
    FinancialDataManager._update_stock_prices Sample.env 1 [("AAPL", quote)] s
    = Returned tt s'
    /\ rows_of (stock_holdings (database s')) = [aapl'; msft]
    /\ Holdings.current_price aapl' = Some 185%Q.
Proof. cbv zeta. eexists _, _. split; [vm_compute; reflexivity|]. split; reflexivity. Qed.

(** ** Computations that respect a relation *)

Section Respects.
Variable R : State -> State -> Prop.
Hypothesis R_refl : forall s, R s s.
Hypothesis R_trans : forall s1 s2 s3, R s1 s2 -> R s2 s3 -> R s1 s3.

Lemma respects_ret {A} (a : A) : respects R (ret a).
Proof. intros s; apply R_refl. Qed.

Lemma respects_raise {A} (e : Exception) : respects R (@raise A e).
Proof. intros s; apply R_refl. Qed.

Lemma respects_lift {A} (r : result A) : respects R (lift r).
Proof. destruct r; intros s; apply R_refl. Qed.

Lemma respects_bind {A B} (c : M A) (k : A -> M B) :
  respects R c -> (forall a, respects R (k a)) -> respects R (bind c k).
Proof.
  intros Hc Hk s. unfold bind. specialize (Hc s).
  destruct (c s) as [a s1|e s1]; [|exact Hc].
  eapply R_trans; [exact Hc | apply Hk].
Qed.

Lemma respects_try_except {A} (body : M A) (handler : Exception -> M A) :
  respects R body -> (forall e, respects R (handler e)) ->
  respects R (try_except body handler).
Proof.
  intros Hb Hh s. unfold try_except. specialize (Hb s).
  destruct (body s) as [a s1|e s1]; [exact Hb|].
  eapply R_trans; [exact Hb | apply Hh].
Qed.

Lemma respects_for_each {A} (l : list A) (body : A -> M unit) :
  (forall x, respects R (body x)) -> respects R (for_each l body).
Proof.
  intros Hb. induction l as [|x l IH]; cbn [for_each].
  - apply respects_ret.
  - apply respects_bind; [apply Hb | intros _; exact IH].
Qed.

Lemma respects_for_fold {A V} (l : list A) (body : V -> A -> M V) :
  (forall v x, respects R (body v x)) -> forall v, respects R (for_fold l body v).
Proof.
  intros Hb. induction l as [|x l IH]; intros v; cbn [for_fold].
  - apply respects_ret.
  - apply respects_bind; [apply Hb | intros v'; apply IH].
Qed.

(** A relation that does not look at the trace holds across a connection
    that is left open. *)
Lemma respects_uncommitted env {A} (body : M A) :
  (forall s s' ev, R s s' -> R s (record ev s')) ->
  respects R body -> respects R (uncommitted env body).
Proof.
  intros Hrecord Hb s. unfold uncommitted. specialize (Hb s).
  destruct (body s) as [a s1|e s1]; [exact Hb|].
  cbn [final] in *. apply Hrecord. exact Hb.
Qed.
End Respects.

Lemma same_store_refl s : same_store s s.
Proof. split; reflexivity. Qed.

Lemma same_store_trans s1 s2 s3 : same_store s1 s2 -> same_store s2 s3 -> same_store s1 s3.
Proof. intros [A1 A2] [B1 B2]; split; congruence. Qed.

Lemma reconciled_refl s : reconciled s s.
Proof. repeat split. Qed.

Lemma reconciled_trans s1 s2 s3 : reconciled s1 s2 -> reconciled s2 s3 -> reconciled s1 s3.
Proof.
  intros (A1 & A2 & A3 & A4 & A5 & A6) (B1 & B2 & B3 & B4 & B5 & B6).
  repeat split; congruence.
Qed.

Lemma same_store_reconciled s s' : same_store s s' -> reconciled s s'.
Proof. intros [H1 H2]. unfold reconciled. rewrite H1, H2. repeat split. Qed.

Lemma success_kept_refl s : success_kept s s.
Proof. reflexivity. Qed.

Lemma success_kept_trans s1 s2 s3 :
  success_kept s1 s2 -> success_kept s2 s3 -> success_kept s1 s3.
Proof. unfold success_kept; congruence. Qed.

Lemma reconciled_success_kept s s' : reconciled s s' -> success_kept s s'.
Proof. intros (_ & _ & _ & H & _). exact H. Qed.

Lemma respects_weaken (R R' : State -> State -> Prop) {A} (c : M A) :
  (forall s s', R s s' -> R' s s') -> respects R c -> respects R' c.
Proof. intros H Hc s. apply H, Hc. Qed.

Lemma quiet_emit ev : quiet (emit ev).
Proof. intros s. split; reflexivity. Qed.

Lemma quiet_connect : quiet sqlite3_connect.
Proof. intros s. split; reflexivity. Qed.

Lemma quiet_get_sync_results : quiet get_sync_results.
Proof. intros s. split; reflexivity. Qed.

Lemma quiet_begin_write : quiet begin_write.
Proof. intros s. unfold begin_write. destruct (write_locked s); split; reflexivity. Qed.

Lemma same_store_record s s' ev : same_store s s' -> same_store s (record ev s').
Proof. intros H. exact H. Qed.

(** The proof that a computation built from quiet parts is quiet follows
    its syntax. *)
Ltac quiet_step :=
  lazymatch goal with
  | |- quiet _ => unfold quiet
  | |- respects same_store (ret _) => apply (respects_ret same_store same_store_refl)
  | |- respects same_store (raise _) => apply (respects_raise same_store same_store_refl)
  | |- respects same_store (lift _) => apply (respects_lift same_store same_store_refl)
  | |- respects same_store (emit _) => apply quiet_emit
  | |- respects same_store sqlite3_connect => apply quiet_connect
  | |- respects same_store get_sync_results => apply quiet_get_sync_results
  | |- respects same_store begin_write => apply quiet_begin_write
  | |- respects same_store (uncommitted _ _) =>
      apply (respects_uncommitted same_store); [exact same_store_record|]
  | |- respects same_store (bind _ _) =>
      apply (respects_bind same_store same_store_trans); [|intros ?]
  | |- respects same_store (try_except _ _) =>
      apply (respects_try_except same_store same_store_trans); [|intros ?]
  | |- respects same_store (for_fold _ _ _) =>
      apply (respects_for_fold same_store same_store_refl same_store_trans); intros ? ?
  | |- respects same_store (for_each _ _) =>
      apply (respects_for_each same_store same_store_refl same_store_trans); intros ?
  | |- respects same_store (match ?x with _ => _ end) => destruct x
  | |- respects same_store ?c => change (quiet c); solve [auto]
  end.

Ltac quiet_tac := repeat quiet_step.

Lemma quiet_print line : quiet (print line).
Proof. unfold print. quiet_tac. Qed.

Lemma quiet_datetime_now env : quiet (datetime_now env).
Proof. unfold datetime_now. quiet_tac. Qed.

Lemma quiet_encrypt_data env data : quiet (encrypt_data env data).
Proof. unfold encrypt_data. quiet_tac. Qed.

#[local] Hint Resolve quiet_print quiet_datetime_now quiet_encrypt_data : core.

Lemma quiet_make_request env self endpoint start_date end_date account_ids :
  quiet (PlaidAPI._make_request env self endpoint start_date end_date account_ids).
Proof. unfold PlaidAPI._make_request. quiet_tac. Qed.

#[local] Hint Resolve quiet_make_request : core.

Lemma quiet_get_transactions env self account_id :
  quiet (PlaidAPI._get_transactions env self account_id).
Proof. unfold PlaidAPI._get_transactions. quiet_tac. Qed.

#[local] Hint Resolve quiet_get_transactions : core.

Lemma quiet_get_account_data env self : quiet (PlaidAPI.get_account_data env self).
Proof. unfold PlaidAPI.get_account_data, PlaidAPI.account_data_of. quiet_tac. Qed.

Lemma quiet_init env encrypted_credentials :
  quiet (PlaidAPI.__init__ env encrypted_credentials).
Proof. unfold PlaidAPI.__init__, PlaidAPI._decrypt_credentials. quiet_tac. Qed.

Lemma quiet_get_stock_data env symbols : quiet (YFinanceAPI.get_stock_data env symbols).
Proof. unfold YFinanceAPI.get_stock_data, YFinanceAPI.Ticker. quiet_tac. Qed.

Lemma quiet_get_crypto_data env symbols : quiet (YFinanceAPI.get_crypto_data env symbols).
Proof. unfold YFinanceAPI.get_crypto_data, YFinanceAPI.Ticker. quiet_tac. Qed.

(** A [try] whose handler only prints and returns never raises. *)
Lemma never_raises_try_except {A} (body : M A) (handler : Exception -> M A) :
  (forall e, never_raises (handler e)) -> never_raises (try_except body handler).
Proof.
  intros Hh s. unfold try_except.
  destruct (body s) as [a s1|e s1]; [exists a, s1; reflexivity | apply Hh].
Qed.

Lemma never_raises_print_ret {A} line (a : A) : never_raises (print line ;; ret a).
Proof. intros s. eexists _, _. reflexivity. Qed.

Lemma never_raises_print line : never_raises (print line).
Proof. intros s. eexists _, _. reflexivity. Qed.

Lemma never_raises_get_account_data env self :
  never_raises (PlaidAPI.get_account_data env self).
Proof. apply never_raises_try_except. intros e. apply never_raises_print_ret. Qed.

Lemma never_raises_init env encrypted_credentials :
  never_raises (PlaidAPI.__init__ env encrypted_credentials).
Proof.
  intros s. unfold PlaidAPI.__init__, PlaidAPI._decrypt_credentials, bind, try_except.
  destruct (lift _ s); eexists _, _; reflexivity.
Qed.

Lemma never_raises_get_stock_data env symbols :
  never_raises (YFinanceAPI.get_stock_data env symbols).
Proof. apply never_raises_try_except. intros e. apply never_raises_print_ret. Qed.

Lemma never_raises_get_crypto_data env symbols :
  never_raises (YFinanceAPI.get_crypto_data env symbols).
Proof. apply never_raises_try_except. intros e. apply never_raises_print_ret. Qed.

(** ** Writing an account and its transactions *)

Lemma bind_inv {A B} (c : M A) (k : A -> M B) s b s' :
  bind c k s = Returned b s' ->
  exists a s1, c s = Returned a s1 /\ k a s1 = Returned b s'.
Proof.
  unfold bind. destruct (c s) as [a s1|e s1]; [|discriminate].
  intros H. exists a, s1. split; [reflexivity | exact H].
Qed.

Lemma lift_returned {A} (r : result A) s a s' :
  lift r s = Returned a s' -> r = Val a /\ s' = s.
Proof. destruct r; cbn; intros H; inversion H; auto. Qed.

Lemma uncommitted_returned env {A} (body : M A) s a s' :
  body s = Returned a s' -> uncommitted env body s = Returned a s'.
Proof. unfold uncommitted. intros ->. reflexivity. Qed.

Lemma uncommitted_raised env {A} (body : M A) s e s' :
  body s = Raised e s' ->
  uncommitted env body s
  = Raised e (record (LeftOpen (collector env (List.length (trace s')))) s').
Proof. unfold uncommitted. intros ->. reflexivity. Qed.

Lemma bind_real_storable transaction :
  storable transaction = true ->
  bind_real (amount transaction) = Val (real_of (amount transaction)).
Proof.
  unfold storable, bind_real, real_of, bind_int.
  destruct (py_int (amount transaction)); cbn [negb orb]; [|reflexivity].
  intros ->. reflexivity.
Qed.

Lemma bind_real_val q v : bind_real q = Val v -> v = real_of q.
Proof.
  unfold bind_real, real_of, bind_int.
  destruct (py_int q); [|intros [= <-]; reflexivity].
  destruct (sqlite_integer (Qnum q)); cbn [rbind]; [intros [= <-]; reflexivity | discriminate].
Qed.

Lemma stays_free_refl s : stays_free s s.
Proof. intros H. exact H. Qed.

Lemma stays_free_trans s1 s2 s3 : stays_free s1 s2 -> stays_free s2 s3 -> stays_free s1 s3.
Proof. unfold stays_free. auto. Qed.

Lemma stays_free_emit ev :
  match ev with LeftOpen _ => False | _ => True end -> respects stays_free (emit ev).
Proof. intros Hev s Hfree. apply write_locked_record; assumption. Qed.

Lemma stays_free_datetime_now env : respects stays_free (datetime_now env).
Proof.
  unfold datetime_now.
  apply (respects_bind _ stays_free_trans); [apply stays_free_emit; exact I | intros i].
  apply (respects_ret _ stays_free_refl).
Qed.

Lemma stays_free_encrypt_data env data : respects stays_free (encrypt_data env data).
Proof.
  unfold encrypt_data.
  apply (respects_bind _ stays_free_trans); [apply stays_free_emit; exact I | intros i].
  apply (respects_lift _ stays_free_refl).
Qed.

Lemma encrypt_data_cases env data s :
  (exists token, encrypt_data env data s = Returned token (record TokenSealed s))
  \/ (exists e, encrypt_data env data s = Raised e (record TokenSealed s)).
Proof.
  unfold encrypt_data, bind, emit.
  destruct (bytes_decode _) as [token|e]; [left; exists token|right; exists e]; reflexivity.
Qed.

Lemma quiet_insert_transaction env account_id conn transaction :
  quiet (FinancialDataManager.insert_transaction env account_id conn transaction).
Proof.
  unfold FinancialDataManager.insert_transaction, CURRENT_TIMESTAMP. quiet_tac.
Qed.

#[local] Hint Resolve quiet_insert_transaction : core.

Lemma insert_transaction_returned env account_id conn transaction s conn' s' :
  FinancialDataManager.insert_transaction env account_id conn transaction s
  = Returned conn' s' ->
  same_but_transactions conn conn'
  /\ exists t t' notes now,
       transactions_ conn = Some t /\ transactions_ conn' = Some t'
       /\ rows t' = rows t ++ [ {| Transactions.id := next_rowid Transactions.id t;
                                   Transactions.account_id := account_id;
                                   Transactions.amount := real_of (amount transaction);
                                   Transactions.description := description transaction;
                                   Transactions.transaction_type := transaction_type transaction;
                                   Transactions.date := date_ transaction;
                                   Transactions.encrypted_notes := notes;
                                   Transactions.created_at := now |} ].
Proof.
  unfold FinancialDataManager.insert_transaction. intros H.
  apply bind_inv in H as (notes & s1 & _ & H).
  apply bind_inv in H as (t & s2 & Ht & H).
  apply bind_inv in H as (stored & s2' & Hstored & H).
  apply bind_inv in H as (now & s3 & _ & H).
  injection H as <- <-.
  destruct (transactions_ conn) as [t0|] eqn:Et; [|discriminate Ht].
  injection Ht as -> ->.
  apply lift_returned in Hstored as [Hstored _]. apply bind_real_val in Hstored as ->.
  split; [repeat split|].
  eexists t, _, notes, now. split; [reflexivity|]. split; [reflexivity|].
  rewrite insert_or_ignore_inserts by reflexivity. reflexivity.
Qed.

Lemma insert_transactions_returned env account_id transactions : forall conn s conn' s',
  for_fold transactions (FinancialDataManager.insert_transaction env account_id) conn s
  = Returned conn' s' ->
  same_but_transactions conn conn'.
Proof.
  induction transactions as [|transaction l IH]; cbn [for_fold]; intros conn s conn' s' H.
  - injection H as <- <-. repeat split.
  - apply bind_inv in H as (conn1 & s1 & H1 & H).
    apply insert_transaction_returned in H1 as [(A1 & A2 & A3 & A4) _].
    apply IH in H as (B1 & B2 & B3 & B4).
    repeat split; congruence.
Qed.

Lemma insert_transactions_same_store env account_id transactions conn s conn' s' :
  for_fold transactions (FinancialDataManager.insert_transaction env account_id) conn s
  = Returned conn' s' ->
  same_store s s'.
Proof.
  intros H.
  pose proof (respects_for_fold same_store same_store_refl same_store_trans
                transactions _ (quiet_insert_transaction env account_id) conn s) as Hq.
  rewrite H in Hq. exact Hq.
Qed.

(** When the table exists and the tokens of the cipher suite are text, the
    loop over the transactions returns. *)
Lemma insert_transactions_return env account_id transactions
    (contract : FernetContract (cipher_suite env)) : forall conn s t,
  transactions_ conn = Some t ->
  forallb storable transactions = true ->
  exists conn' s' t',
    for_fold transactions (FinancialDataManager.insert_transaction env account_id) conn s
    = Returned conn' s'
    /\ transactions_ conn' = Some t'.
Proof.
  induction transactions as [|transaction l IH]; cbn [for_fold forallb];
    intros conn s t Ht Hstorable.
  - exists conn, s, t. split; [reflexivity | exact Ht].
  - apply andb_true_iff in Hstorable as [Hfirst Hrest].
    assert (Hstep : exists conn1 s1 t1,
               FinancialDataManager.insert_transaction env account_id conn transaction s
               = Returned conn1 s1 /\ transactions_ conn1 = Some t1).
    { unfold FinancialDataManager.insert_transaction.
      destruct (category transaction) as [|c cs].
      - unfold bind at 1. cbn [ret]. unfold bind at 1. rewrite Ht. cbn [from_table lift ret].
        unfold bind at 1. rewrite (bind_real_storable _ Hfirst). cbn [lift ret].
        eexists _, _, _. split; reflexivity.
      - destruct (encrypt_data_returns env (json_dumps_category env (c :: cs)) s contract)
          as (token & Hseal & _).
        rewrite (bind_returned _ _ _ _ _ Hseal).
        unfold bind at 1. rewrite Ht. cbn [from_table lift ret].
        unfold bind at 1. rewrite (bind_real_storable _ Hfirst). cbn [lift ret].
        eexists _, _, _. split; reflexivity. }
    destruct Hstep as (conn1 & s1 & t1 & Hrun & Ht1).
    rewrite (bind_returned _ _ _ _ _ Hrun). apply (IH conn1 s1 t1 Ht1 Hrest).
Qed.

Lemma stays_free_insert_transaction env account_id conn transaction :
  respects stays_free (FinancialDataManager.insert_transaction env account_id conn transaction).
Proof.
  pose proof stays_free_refl as Rf. pose proof stays_free_trans as T.
  unfold FinancialDataManager.insert_transaction, CURRENT_TIMESTAMP.
  apply (respects_bind _ T); [|intros notes].
  { destruct (category transaction);
      [apply (respects_ret _ Rf) | apply stays_free_encrypt_data]. }
  apply (respects_bind _ T); [apply (respects_lift _ Rf) | intros t].
  apply (respects_bind _ T); [apply (respects_lift _ Rf) | intros stored].
  apply (respects_bind _ T); [apply stays_free_datetime_now | intros now].
  apply (respects_ret _ Rf).
Qed.

(** [_update_account_from_api] on a database that has both tables and is
    not locked, under a cipher suite whose tokens are text, for an account
    whose transactions SQLite can store. *)
Lemma update_account_returns env user_id a s t tx
    (contract : FernetContract (cipher_suite env)) :
  accounts (database s) = Some t ->
  transactions_ (database s) = Some tx ->
  write_locked s = false ->
  forallb storable (get_default (transactions a) []) = true ->
  exists s' t' tx' payload,
    FinancialDataManager._update_account_from_api env user_id a s = Returned tt s'
    /\ accounts (database s') = Some t'
    /\ transactions_ (database s') = Some tx'
    /\ reflects env payload a
    /\ upserted user_id a payload (clock env (S (List.length (trace s)))) t t'
    /\ api_connections (database s') = api_connections (database s)
    /\ stock_holdings (database s') = stock_holdings (database s)
    /\ crypto_holdings (database s') = crypto_holdings (database s)
    /\ sync_results s' = sync_results s
    /\ write_locked s' = false.
Proof.
  intros Ht Htx Hfree Hstorable. unfold FinancialDataManager._update_account_from_api.
  rewrite (bind_returned sqlite3_connect _ s (database s) s eq_refl).
  unfold bind at 1. rewrite Ht. cbn [from_table lift ret]. cbv zeta.
  destruct (encrypt_data_returns env (json_dumps_info env (account_info_of a)) s contract)
    as (payload & Hseal & Htoken).
  assert (Hreflects : reflects env payload a).
  { unfold reflects. rewrite Htoken. apply (decrypt_encrypt _ contract). }
  assert (Hlen : List.length (trace (record TokenSealed s)) = S (List.length (trace s)))
    by apply length_trace_record.
  pose proof (write_locked_record TokenSealed s Hfree I) as Hfree1.
  pose proof (write_locked_record ClockRead _ Hfree1 I) as Hfree2.
  assert (Hloop : forall account_id conn,
             transactions_ conn = Some tx ->
             exists conn' s' tx',
               uncommitted env
                 (conn <- for_fold (get_default (transactions a) [])
                            (FinancialDataManager.insert_transaction env account_id) conn ;;
                  commit conn)
                 (record ClockRead (record TokenSealed s))
               = Returned tt s'
               /\ database s' = conn'
               /\ same_but_transactions conn conn'
               /\ transactions_ conn' = Some tx'
               /\ sync_results s' = sync_results s
               /\ write_locked s' = false).
  { intros account_id conn Hconn.
    destruct (insert_transactions_return env account_id (get_default (transactions a) [])
                contract conn (record ClockRead (record TokenSealed s)) tx Hconn Hstorable)
      as (conn' & s' & tx' & Hloop & Htx').
    pose proof (insert_transactions_returned _ _ _ _ _ _ _ Hloop) as Hsame.
    pose proof (insert_transactions_same_store _ _ _ _ _ _ _ Hloop) as [_ Hq].
    pose proof (respects_for_fold stays_free stays_free_refl stays_free_trans
                  (get_default (transactions a) []) _
                  (stays_free_insert_transaction env account_id) conn
                  (record ClockRead (record TokenSealed s))) as Hstays.
    rewrite Hloop in Hstays. specialize (Hstays Hfree2).
    exists conn', {| database := conn'; trace := trace s'; sync_results := sync_results s' |}, tx'.
    split; [apply uncommitted_returned; rewrite (bind_returned _ _ _ _ _ Hloop);
            reflexivity|].
    split; [reflexivity|]. split; [exact Hsame|]. split; [exact Htx'|].
    split; [exact Hq | exact Hstays]. }
  unfold upserted. fold (named user_id (account_name a)).
  change {| info_balance := balance a; info_currency := currency a;
            info_institution := institution a; last_api_update := last_updated a |}
    with (account_info_of a).
  destruct (find (named user_id (account_name a)) (rows t)) as [existing|] eqn:Hfind.
  - unfold bind at 1. unfold bind at 1. rewrite Hseal.
    unfold bind at 1. rewrite datetime_now_eq, Hlen.
    unfold bind at 1. rewrite (begin_write_free _ Hfree2). cbn [ret].
    match goal with
    | |- context [uncommitted env (bind (for_fold _ (_ ?i) ?c) _) _] =>
        destruct (Hloop i c Htx) as (conn' & s' & tx' & Hrun & Hdb & (B1 & B2 & B3 & B4)
                                     & Htx' & Hres & Hfree')
    end.
    rewrite Hrun.
    eexists _, _, tx', payload. split; [reflexivity|]. rewrite Hdb.
    split; [rewrite B2; reflexivity|]. split; [exact Htx'|]. split; [exact Hreflects|].
    split; [reflexivity|]. repeat split; assumption.
  - unfold bind at 1. unfold bind at 1. rewrite Hseal.
    unfold bind at 1. rewrite (begin_write_free _ Hfree1).
    unfold bind at 1. unfold CURRENT_TIMESTAMP. rewrite datetime_now_eq, Hlen. cbn [ret].
    match goal with
    | |- context [uncommitted env (bind (for_fold _ (_ ?i) ?c) _) _] =>
        destruct (Hloop i c Htx) as (conn' & s' & tx' & Hrun & Hdb & (B1 & B2 & B3 & B4)
                                     & Htx' & Hres & Hfree')
    end.
    rewrite Hrun.
    eexists _, _, tx', payload. split; [reflexivity|]. rewrite Hdb.
    split; [rewrite B2; reflexivity|]. split; [exact Htx'|]. split; [exact Hreflects|].
    split; [reflexivity|]. repeat split; assumption.
Qed.

Section FindFilter.
Context {A : Type} (p : A -> bool).

Lemma find_none_filter (l : list A) : find p l = None -> filter p l = [].
Proof.
  induction l as [|x l IH]; simpl; [reflexivity|].
  destruct (p x); [discriminate | exact IH].
Qed.

Lemma find_some_filter (l : list A) (x : A) :
  find p l = Some x -> (List.length (filter p l) <= 1)%nat -> filter p l = [x].
Proof.
  induction l as [|y l IH]; simpl; [discriminate|].
  destruct (p y) eqn:Hy.
  - intros [= ->] Hlen. simpl in Hlen.
    destruct (filter p l); [reflexivity | simpl in Hlen; lia].
  - exact IH.
Qed.

Lemma filter_map_stable (f : A -> A) (l : list A) :
  (forall x, p (f x) = p x) -> filter p (map f l) = map f (filter p l).
Proof.
  intros H. induction l as [|x l IH]; simpl; [reflexivity|].
  rewrite H. destruct (p x); simpl; rewrite IH; reflexivity.
Qed.
End FindFilter.

(** After an upsert into a table with at most one record of the name, the
    table has exactly one, and it carries the new payload. *)
Lemma upserted_one_named user_id a payload now t t' :
  upserted user_id a payload now t t' ->
  (List.length (accounts_named user_id (account_name a) (Some t)) <= 1)%nat ->
  exists row,
    accounts_named user_id (account_name a) (Some t') = [row]
    /\ Accounts.encrypted_data row = payload.
Proof.
  unfold upserted, accounts_named, rows_of. intros Hup Hlen.
  destruct (find (named user_id (account_name a)) (rows t)) as [existing|] eqn:Hfind.
  - rewrite Hup, filter_map_stable.
    + rewrite (find_some_filter _ _ _ Hfind Hlen). cbn [map].
      rewrite Z.eqb_refl. eexists; split; reflexivity.
    + intros row. destruct (Accounts.id row =? Accounts.id existing); reflexivity.
  - rewrite Hup, filter_app, (find_none_filter _ _ Hfind). cbn [filter app].
    unfold named at 1. cbn [Accounts.user_id Accounts.account_name].
    rewrite Z.eqb_refl, String.eqb_refl. cbn [andb].
    eexists; split; reflexivity.
Qed.

(** C4, as stated, fails.  [add_account] inserts without looking for a
    record of the same name, and the schema has no uniqueness constraint:
    a user who adds "Checking" twice by hand has two records under the
    name.  The upsert looks one record up, the first, and overwrites it;
    after two upserts with different balances there are still two records
    under the name, and the second keeps the payload that the form gave
    it. *)
Lemma upsert_twice_leaves_two_records :
  exists s0 s2 first second,
    Sample2.added_twice Sample.fresh = Returned tt s0
    /\ (FinancialDataManager._update_account_from_api Sample.env 1
           (Sample.checking_account 10) ;;
         FinancialDataManager._update_account_from_api Sample.env 1
           (Sample.checking_account 20)) s0 = Returned tt s2
    /\ accounts_named 1 "Checking" (accounts (database s2)) = [first; second]
    /\ reflects Sample.env (Accounts.encrypted_data first) (Sample.checking_account 20)
    /\ nth_error (accounts_named 1 "Checking" (accounts (database s0))) 1 = Some second.
Proof.
  eexists _, _, _, _. split; [vm_compute; reflexivity|].
  split; [vm_compute; reflexivity|]. split; [vm_compute; reflexivity|].
  split; vm_compute; reflexivity.
Qed.

(** C4, amended: on a database that has the tables [accounts] and
    [transactions] and that no connection left open keeps locked, under a
    cipher suite that honours the contract of the library, for accounts
    whose transaction amounts SQLite can bind, an upsert returns, and it
    looks the account up by (user, display name): if a record exists its
    payload is overwritten with the sealed information of the account and
    its update time set to the reading of the clock; otherwise a record is
    inserted.  When the user has at most one record under the name
    beforehand, two upserts under that name leave exactly one, whose
    payload opens to the information, hence the balance, of the second. *)
Theorem upsert_account (env : Env) (user_id : Z) (a1 a2 : AccountData) (s : State)
    (t : table Accounts.row) (tx : table Transactions.row)
    (contract : FernetContract (cipher_suite env))
    (Haccounts : accounts (database s) = Some t)
    (Htransactions : transactions_ (database s) = Some tx)
    (Hfree : write_locked s = false)
    (Hstorable1 : forallb storable (get_default (transactions a1) []) = true)
    (Hstorable2 : forallb storable (get_default (transactions a2) []) = true)
    (Hname : account_name a2 = account_name a1) :
  (exists s1 t1 payload,
      FinancialDataManager._update_account_from_api env user_id a1 s = Returned tt s1
      /\ accounts (database s1) = Some t1
      /\ reflects env payload a1
      /\ upserted user_id a1 payload (clock env (S (List.length (trace s)))) t t1)
  /\ ((List.length (accounts_named user_id (account_name a1) (Some t)) <= 1)%nat ->
      upserted_twice env user_id a1 a2 s).
Proof.
  destruct (update_account_returns env user_id a1 s t tx contract Haccounts Htransactions
              Hfree Hstorable1)
    as (s1 & t1 & tx1 & payload1 & Hrun1 & Ht1 & Htx1 & Hr1 & Hup1 & _ & _ & _ & _ & Hfree1).
  split; [exists s1, t1, payload1; auto|].
  intros Hlen.
  destruct (upserted_one_named _ _ _ _ _ _ Hup1 Hlen) as (row1 & Hone1 & _).
  destruct (update_account_returns env user_id a2 s1 t1 tx1 contract Ht1 Htx1
              Hfree1 Hstorable2)
    as (s2 & t2 & tx2 & payload2 & Hrun2 & Ht2 & _ & Hr2 & Hup2 & _).
  rewrite <- Hname in Hone1.
  destruct (upserted_one_named _ _ _ _ _ _ Hup2) as (row2 & Hone2 & Hpay2).
  { rewrite Hone1. simpl. lia. }
  rewrite Hname in Hone2.
  exists s1, s2, row2. rewrite Ht2, Hpay2. auto.
Qed.

Lemma upsert_account_witness :
  upserted_twice Sample.env 1 (Sample.checking_account 10) (Sample.checking_account 20)
    Sample.fresh.
Proof.
  apply (upsert_account Sample.env 1 (Sample.checking_account 10)
           (Sample.checking_account 20) Sample.fresh Sample.empty_table Sample.empty_table
           sample_cipher_contract eq_refl eq_refl eq_refl eq_refl eq_refl eq_refl).
  simpl. lia.
Defined.

(** Whatever its outcome, [_update_account_from_api] writes only the tables
    [accounts] and [transactions]. *)
Lemma reconciled_record s s' ev : reconciled s s' -> reconciled s (record ev s').
Proof. intros H. exact H. Qed.

Lemma update_account_reconciled env user_id a :
  respects reconciled (FinancialDataManager._update_account_from_api env user_id a).
Proof.
  intros s. unfold FinancialDataManager._update_account_from_api.
  rewrite (bind_returned sqlite3_connect _ s (database s) s eq_refl).
  unfold bind at 1.
  destruct (accounts (database s)) as [t|]; cbn [from_table lift ret raise];
    [|apply reconciled_refl].
  cbv zeta.
  assert (Hloop : forall account_id conn s0,
             same_store s s0 ->
             api_connections conn = api_connections (database s) ->
             stock_holdings conn = stock_holdings (database s) ->
             crypto_holdings conn = crypto_holdings (database s) ->
             reconciled s
               (final (uncommitted env
                         (conn <- for_fold (get_default (transactions a) [])
                                    (FinancialDataManager.insert_transaction env account_id)
                                    conn ;;
                          commit conn) s0))).
  { intros account_id conn s0 [Hdb Hres] C1 C2 C3. unfold uncommitted, bind.
    destruct (for_fold _ _ conn s0) as [conn' s'|e s'] eqn:Hrun.
    - apply insert_transactions_returned in Hrun as Hsame.
      apply insert_transactions_same_store in Hrun as [_ Hres'].
      destruct Hsame as (B1 & _ & B3 & B4).
      unfold reconciled. cbn [commit final database sync_results].
      rewrite Hres', Hres. repeat split; congruence.
    - pose proof (respects_for_fold same_store same_store_refl same_store_trans
                    (get_default (transactions a) []) _
                    (quiet_insert_transaction env account_id) conn s0) as Hq.
      rewrite Hrun in Hq. cbn [final] in *. apply reconciled_record.
      apply same_store_reconciled. eapply same_store_trans; [split; eassumption | exact Hq]. }
  destruct (find _ (rows t)) as [existing|].
  - unfold bind at 1. unfold bind at 1.
    destruct (encrypt_data_cases env
                (json_dumps_info env
                   {| info_balance := balance a; info_currency := currency a;
                      info_institution := institution a;
                      last_api_update := last_updated a |}) s)
      as [(payload & ->)|(e & ->)]; [|repeat split].
    unfold bind at 1. rewrite datetime_now_eq.
    unfold bind at 1.
    destruct (begin_write_cases (record ClockRead (record TokenSealed s))) as [->| ->];
      [|repeat split].
    cbn [ret]. apply Hloop; try reflexivity. split; reflexivity.
  - unfold bind at 1. unfold bind at 1.
    destruct (encrypt_data_cases env
                (json_dumps_info env
                   {| info_balance := balance a; info_currency := currency a;
                      info_institution := institution a;
                      last_api_update := last_updated a |}) s)
      as [(payload & ->)|(e & ->)]; [|repeat split].
    unfold bind at 1.
    destruct (begin_write_cases (record TokenSealed s)) as [->| ->]; [|repeat split].
    unfold bind at 1. unfold CURRENT_TIMESTAMP. rewrite datetime_now_eq. cbn [ret].
    apply Hloop; try reflexivity. split; reflexivity.
Qed.

Lemma count_account_reconciled : respects reconciled FinancialDataManager.count_account.
Proof. intros s. repeat split. Qed.

Lemma quiet_reconciled {A} (c : M A) : quiet c -> respects reconciled c.
Proof. apply respects_weaken. exact same_store_reconciled. Qed.

(** The statements of the inner [try] that come before the update of the
    last-sync time, for a connection of type plaid. *)
Lemma plaid_branch_reconciled env user_id encrypted_creds :
  respects reconciled
    (api <- PlaidAPI.__init__ env encrypted_creds ;;
     accounts <- PlaidAPI.get_account_data env api ;;
     for_each accounts (fun account =>
       FinancialDataManager._update_account_from_api env user_id account ;;
       FinancialDataManager.count_account)).
Proof.
  apply (respects_bind reconciled reconciled_trans);
    [apply quiet_reconciled, quiet_init | intros api].
  apply (respects_bind reconciled reconciled_trans);
    [apply quiet_reconciled, quiet_get_account_data | intros accounts].
  apply (respects_for_each reconciled reconciled_refl reconciled_trans). intros account.
  apply (respects_bind reconciled reconciled_trans);
    [apply update_account_reconciled | intros _; apply count_account_reconciled].
Qed.

(** The inner [try] of [sync_account_data]: when it raises, it has written
    nothing but accounts, transactions and the count of accounts; in
    particular no last-sync time. *)
Lemma sync_connection_outcome env user_id connection s :
  match FinancialDataManager.sync_connection env user_id connection s with
  | Raised _ s1 => reconciled s s1
  | Returned _ s1 => success_kept s s1 /\ errors (sync_results s1) = errors (sync_results s)
  end.
Proof.
  unfold FinancialDataManager.sync_connection.
  rewrite (bind_returned sqlite3_connect _ s (database s) s eq_refl).
  unfold bind at 1.
  destruct (api_connections (database s)) as [t|]; cbn [from_table lift ret raise];
    [|apply reconciled_refl].
  unfold bind at 1.
  destruct (option_map _ _) as [encrypted_creds|];
    cbn [FinancialDataManager.fetchone_0 lift ret raise]; [|apply reconciled_refl].
  unfold bind at 1.
  assert (Hmid : respects reconciled
            (if String.eqb (conn_api_type connection) "plaid"
             then api <- PlaidAPI.__init__ env encrypted_creds ;;
                  accounts <- PlaidAPI.get_account_data env api ;;
                  for_each accounts (fun account =>
                    FinancialDataManager._update_account_from_api env user_id account ;;
                    FinancialDataManager.count_account)
             else ret tt)).
  { destruct (String.eqb _ _);
      [apply plaid_branch_reconciled | apply (respects_ret reconciled reconciled_refl)]. }
  specialize (Hmid s).
  match type of Hmid with
  | reconciled _ (final ?o) => destruct o as [[] s1|e s1]
  end; cbn [final] in Hmid; [|exact Hmid].
  rewrite (bind_returned sqlite3_connect _ s1 (database s1) s1 eq_refl).
  unfold bind at 1. rewrite datetime_now_eq.
  unfold bind at 1. cbn [record database].
  destruct (api_connections (database s1)) as [t1|]; cbn [from_table lift ret raise].
  - unfold bind at 1.
    destruct (begin_write_cases (record ClockRead s1)) as [->| ->].
    + cbn [commit]. destruct Hmid as (_ & _ & _ & H4 & H5 & _).
      split; [exact H4 | exact H5].
    + eapply reconciled_trans; [exact Hmid | repeat split].
  - eapply reconciled_trans; [exact Hmid | repeat split].
Qed.

(** The manager creates its three tables and no others: a database on
    which only its [init_database] has run has no table [accounts], and
    the application's [init_database] is what adds it. *)
Example manager_creates_no_accounts_table :
  exists s1 s2,
    FinancialDataManager.init_database Sample.blank = Returned tt s1
    /\ api_connections (database s1) = Some Sample.empty_table
    /\ accounts (database s1) = None
    /\ App.init_database s1 = Returned tt s2
    /\ accounts (database s2) = Some Sample.empty_table.
Proof. eexists _, _. repeat split. Qed.

(** C2, as stated, fails.  The database has no table [accounts]; the bank
    reports one account; reconciling it raises inside the inner [try]; the
    error is recorded, but the statement that writes the last-sync time,
    which comes later in the same [try], is skipped: the last-sync time of
    the connection is still NULL. *)
Lemma failed_connection_keeps_last_sync :
  let connection :=
    FinancialDataManager.connection_of (Sample.connection_row 1 "First Bank" "plaid") in
  exists s1 s2,
    FinancialDataManager.sync_connection Sample.env 1 connection Sample.without_accounts
    = Raised (OperationalError "no such table: accounts") s1
    /\ FinancialDataManager.sync_one Sample.env 1 connection Sample.without_accounts
       = Returned tt s2
    /\ errors (sync_results s2) = ["Error syncing First Bank: no such table: accounts"]
    /\ map (fun row => (ApiConnections.id row, ApiConnections.last_sync row))
         (rows_of (api_connections (database s2)))
       = [(1, None); (2, None)].
Proof.
  cbv zeta. eexists _, _. split; [vm_compute; reflexivity|].
  split; [vm_compute; reflexivity|]. split; reflexivity.
Qed.

(** C2, amended: when the processing of an active connection raises, a
    message naming the institution of the connection is appended to the
    errors and printed, the success flag stays, the loop goes on with the
    next connection, and the table of connections is as it was before the
    connection was processed: its last-sync time is not written. *)
Theorem failed_connection (env : Env) (user_id : Z) (connection : Connection)
    (s s1 : State) (e : Exception)
    (Hactive : conn_is_active connection = true)
    (Hraised : FinancialDataManager.sync_connection env user_id connection s
               = Raised e s1) :
  exists s2,
    FinancialDataManager.sync_one env user_id connection s = Returned tt s2
    /\ errors (sync_results s2) = errors (sync_results s) ++ [error_msg connection e]
    /\ success (sync_results s2) = success (sync_results s)
    /\ trace s2 = trace s1 ++ [Printed (error_msg connection e)]
    /\ api_connections (database s2) = api_connections (database s)
    /\ forall rest,
         for_each (connection :: rest) (FinancialDataManager.sync_one env user_id) s
         = for_each rest (FinancialDataManager.sync_one env user_id) s2.
Proof.
  pose proof (sync_connection_outcome env user_id connection s) as Hout.
  rewrite Hraised in Hout. destruct Hout as (H1 & _ & _ & H4 & H5 & _).
  assert (Hrun : FinancialDataManager.sync_one env user_id connection s
                 = Returned tt
                     (record (Printed (error_msg connection e))
                        {| database := database s1; trace := trace s1;
                           sync_results :=
                             {| success := success (sync_results s1);
                                accounts_updated := accounts_updated (sync_results s1);
                                errors := errors (sync_results s1) ++ [error_msg connection e];
                                last_sync := last_sync (sync_results s1) |} |})).
  { unfold FinancialDataManager.sync_one. rewrite Hactive. cbn [negb].
    rewrite (try_except_raised _ _ _ _ _ Hraised). reflexivity. }
  eexists. split; [exact Hrun|].
  cbn [record sync_results errors success trace database].
  split; [rewrite H5; reflexivity|]. split; [exact H4|]. split; [reflexivity|].
  split; [exact H1|].
  intros rest. cbn [for_each].
  exact (bind_returned _
           (fun _ => for_each rest (FinancialDataManager.sync_one env user_id)) _ _ _ Hrun).
Qed.

Lemma failed_connection_witness :
  exists s2,
    FinancialDataManager.sync_one Sample.env 1
      (FinancialDataManager.connection_of (Sample.connection_row 1 "First Bank" "plaid"))
      Sample.without_accounts = Returned tt s2
    /\ errors (sync_results s2) = ["Error syncing First Bank: no such table: accounts"]
    /\ api_connections (database s2) = api_connections (database Sample.without_accounts).
Proof.
  destruct (failed_connection Sample.env 1
              (FinancialDataManager.connection_of
                 (Sample.connection_row 1 "First Bank" "plaid"))
              Sample.without_accounts
              (final (FinancialDataManager.sync_connection Sample.env 1
                        (FinancialDataManager.connection_of
                           (Sample.connection_row 1 "First Bank" "plaid"))
                        Sample.without_accounts))
              (OperationalError "no such table: accounts")
              eq_refl ltac:(vm_compute; reflexivity))
    as (s2 & Hrun & Herrors & _ & _ & Hconnections & _).
  exists s2. split; [exact Hrun|]. split; [exact Herrors | exact Hconnections].
Defined.

(** ** Connections of another type *)

Lemma find_some_of_in {A} (p : A -> bool) (l : list A) (x : A) :
  In x l -> p x = true -> exists y, find p l = Some y.
Proof.
  induction l as [|z l IH]; simpl; [contradiction|].
  intros [->|Hin] Hp.
  - rewrite Hp. eexists; reflexivity.
  - destruct (p z); [eexists; reflexivity | apply IH; assumption].
Qed.

(** C10, as stated, fails.  Every table exists; the user has a Plaid
    connection and a Yahoo connection; the bank reports an account with a
    transaction of the integer -2^63, hence of the amount 2^63, which
    SQLite cannot bind.  The reconciliation of
    the account writes the record and then raises on the transaction; its
    connection to the database stays open with the write lock.  When the
    turn of the Yahoo connection comes the lock is still held: the
    statement that writes its last-sync time raises, an error is recorded
    for the Yahoo connection, and its last-sync time is still NULL. *)
Lemma other_connection_locked_out :
  exists r s',
    FinancialDataManager.sync_account_data Sample2.big_spender 1 Sample2.connected
    = Returned r s'
    /\ errors r
       = ["Error syncing First Bank: Python int too large to convert to SQLite INTEGER";
          "Error syncing Yahoo: database is locked"]
    /\ map (fun row => (ApiConnections.institution_name row, ApiConnections.last_sync row))
         (rows_of (api_connections (database s')))
       = [("First Bank", None); ("Yahoo", None)].
Proof.
  eexists _, _. split; [vm_compute; reflexivity|]. split; vm_compute; reflexivity.
Qed.

(** C10, amended: on a database that no connection left open keeps locked,
    for an active connection that has a row in the table of connections and
    whose type is not "plaid", the turn of the loop returns; the only event
    is one reading of the clock: no request is posted and nothing is
    printed; [sync_results] is as before: no error is appended and no
    account is counted; no table but [api_connections] changes; and the
    rows that carry the id of the connection get the reading of the clock
    as their last-sync time. *)
Theorem other_connection_only_last_sync (env : Env) (user_id : Z)
    (connection : Connection) (s : State) (t : table ApiConnections.row)
    (row : ApiConnections.row)
    (Hactive : conn_is_active connection = true)
    (Htype : conn_api_type connection <> "plaid")
    (Htable : api_connections (database s) = Some t)
    (Hfree : write_locked s = false)
    (Hrow : In row (rows t))
    (Hid : ApiConnections.id row = conn_id connection) :
  let now := clock env (List.length (trace s)) in
  exists s' t',
    FinancialDataManager.sync_one env user_id connection s = Returned tt s'
    /\ trace s' = trace s ++ [ClockRead]
    /\ sync_results s' = sync_results s
    /\ accounts (database s') = accounts (database s)
    /\ transactions_ (database s') = transactions_ (database s)
    /\ stock_holdings (database s') = stock_holdings (database s)
    /\ crypto_holdings (database s') = crypto_holdings (database s)
    /\ api_connections (database s') = Some t'
    /\ rows t' = map (fun r => if ApiConnections.id r =? conn_id connection
                               then ApiConnections.set_last_sync now r else r) (rows t)
    /\ Forall (fun r => ApiConnections.id r = conn_id connection ->
                        ApiConnections.last_sync r = Some now) (rows t').
Proof.
  intros now.
  assert (Hfind : exists r0, find (fun r => ApiConnections.id r =? conn_id connection) (rows t)
                             = Some r0)
    by (apply (find_some_of_in _ _ row Hrow); apply Z.eqb_eq; exact Hid).
  destruct Hfind as (r0 & Hfind).
  assert (Hplaid : String.eqb (conn_api_type connection) "plaid" = false)
    by (apply String.eqb_neq; exact Htype).
  eexists _, _. split.
  - unfold FinancialDataManager.sync_one. rewrite Hactive. cbn [negb].
    apply try_except_returned.
    unfold FinancialDataManager.sync_connection.
    rewrite (bind_returned sqlite3_connect _ s (database s) s eq_refl).
    unfold bind at 1. rewrite Htable. cbn [from_table lift ret].
    unfold bind at 1. rewrite Hfind. cbn [option_map FinancialDataManager.fetchone_0 lift ret].
    unfold bind at 1. rewrite Hplaid. cbn [ret].
    rewrite (bind_returned sqlite3_connect _ s (database s) s eq_refl).
    unfold bind at 1. rewrite datetime_now_eq.
    unfold bind at 1. cbn [record database]. rewrite Htable. cbn [from_table lift ret].
    unfold bind at 1.
    change {| database := database s; trace := trace s ++ [ClockRead];
              sync_results := sync_results s |} with (record ClockRead s).
    rewrite (begin_write_free _ (write_locked_record ClockRead s Hfree I)).
    reflexivity.
  - cbn [database trace sync_results set_api_connections api_connections accounts
           transactions_ stock_holdings crypto_holdings record commit].
    do 7 (split; [reflexivity|]). fold now. split; [reflexivity|].
    cbn [update_where rows]. apply Forall_forall. intros r Hr Hr_id.
    apply in_map_iff in Hr as (r1 & Hr1 & _).
    destruct (Z.eqb_spec (ApiConnections.id r1) (conn_id connection)) as [E|E].
    + rewrite <- Hr1. reflexivity.
    + exfalso. apply E. rewrite <- Hr_id, <- Hr1. reflexivity.
Qed.

Lemma other_connection_witness :
  exists s' t',
    FinancialDataManager.sync_one Sample.env 1
      (FinancialDataManager.connection_of (Sample.connection_row 2 "Yahoo" "yfinance"))
      Sample.without_accounts = Returned tt s'
    /\ trace s' = [ClockRead]
    /\ sync_results s' = Sample.no_results
    /\ api_connections (database s') = Some t'
    /\ map ApiConnections.last_sync (rows t') = [None; Some 1704412800000000].
Proof.
  destruct (other_connection_only_last_sync Sample.env 1
              (FinancialDataManager.connection_of
                 (Sample.connection_row 2 "Yahoo" "yfinance"))
              Sample.without_accounts
              {| rows := [Sample.connection_row 1 "First Bank" "plaid";
                          Sample.connection_row 2 "Yahoo" "yfinance"];
                 sequence := 2 |}
              (Sample.connection_row 2 "Yahoo" "yfinance")
              eq_refl ltac:(discriminate) eq_refl eq_refl ltac:(simpl; tauto) eq_refl)
    as (s' & t' & Hrun & Htrace & Hresults & _ & _ & _ & _ & Htable & Hrows & _).
  exists s', t'. split; [exact Hrun|]. split; [exact Htrace|].
  split; [exact Hresults|]. split; [exact Htable|].
  rewrite Hrows. reflexivity.
Defined.

(** ** The whole synchronisation *)

Lemma same_results_refl s : same_results s s.
Proof. reflexivity. Qed.

Lemma same_results_trans s1 s2 s3 :
  same_results s1 s2 -> same_results s2 s3 -> same_results s1 s3.
Proof. unfold same_results; congruence. Qed.

Lemma quiet_same_results {A} (c : M A) : quiet c -> respects same_results c.
Proof. apply respects_weaken. intros s s' [_ H]. exact H. Qed.

Lemma update_stock_prices_results env user_id quotes :
  respects same_results (FinancialDataManager._update_stock_prices env user_id quotes).
Proof.
  unfold FinancialDataManager._update_stock_prices.
  apply (respects_bind _ same_results_trans);
    [apply quiet_same_results, quiet_connect | intros conn].
  apply (respects_bind _ same_results_trans); [|intros conn' s; reflexivity].
  apply quiet_same_results. unfold quiet.
  apply (respects_for_fold same_store same_store_refl same_store_trans).
  intros v [symbol data]. quiet_tac.
Qed.

Lemma update_crypto_prices_results env user_id quotes :
  respects same_results (FinancialDataManager._update_crypto_prices env user_id quotes).
Proof.
  unfold FinancialDataManager._update_crypto_prices.
  apply (respects_bind _ same_results_trans);
    [apply quiet_same_results, quiet_connect | intros conn].
  apply (respects_bind _ same_results_trans); [|intros conn' s; reflexivity].
  apply quiet_same_results. unfold quiet.
  apply (respects_for_fold same_store same_store_refl same_store_trans).
  intros v [symbol data]. quiet_tac.
Qed.

(** The market-data pass swallows its own errors and leaves [sync_results]
    alone. *)
Lemma sync_stock_data_results env user_id :
  respects same_results (FinancialDataManager._sync_stock_data env user_id)
  /\ never_raises (FinancialDataManager._sync_stock_data env user_id).
Proof.
  split.
  - unfold FinancialDataManager._sync_stock_data.
    apply (respects_try_except same_results same_results_trans);
      [|intros e; apply quiet_same_results, quiet_print].
    apply (respects_bind same_results same_results_trans);
      [apply quiet_same_results, quiet_connect | intros conn].
    apply (respects_bind same_results same_results_trans);
      [apply (respects_lift same_results same_results_refl) | intros stocks].
    apply (respects_bind same_results same_results_trans);
      [apply (respects_lift same_results same_results_refl) | intros cryptos].
    apply (respects_bind same_results same_results_trans); [|intros _].
    + destruct (FinancialDataManager.select_symbols stocks user_id);
        [apply (respects_ret same_results same_results_refl)|].
      apply (respects_bind same_results same_results_trans);
        [apply quiet_same_results, quiet_get_stock_data
        |intros stock_data; apply update_stock_prices_results].
    + destruct (FinancialDataManager.select_symbols cryptos user_id);
        [apply (respects_ret same_results same_results_refl)|].
      apply (respects_bind same_results same_results_trans);
        [apply quiet_same_results, quiet_get_crypto_data
        |intros crypto_data; apply update_crypto_prices_results].
  - apply never_raises_try_except. intros e. apply never_raises_print.
Qed.

Lemma never_raises_for_each {A} (l : list A) (body : A -> M unit) :
  (forall x, never_raises (body x)) -> never_raises (for_each l body).
Proof.
  intros Hb. induction l as [|x l IH]; cbn [for_each]; intros s.
  - exists tt, s. reflexivity.
  - destruct (Hb x s) as ([] & s1 & H1). rewrite (bind_returned _ _ _ _ _ H1). apply IH.
Qed.

(** The loop over the connections returns, keeps the success flag, and
    appends to the errors the message of each active connection whose
    processing raised, in the order of the connections. *)
Lemma sync_loop_errors env user_id connections : forall s,
  exists s',
    for_each connections (FinancialDataManager.sync_one env user_id) s = Returned tt s'
    /\ success (sync_results s') = success (sync_results s)
    /\ errors (sync_results s')
       = errors (sync_results s) ++ raised_errors env user_id connections s.
Proof.
  induction connections as [|connection l IH]; intros s; cbn [for_each raised_errors].
  - exists s. cbn [ret]. rewrite app_nil_r. repeat split.
  - assert (Hone : exists s1,
               FinancialDataManager.sync_one env user_id connection s = Returned tt s1
               /\ success (sync_results s1) = success (sync_results s)
               /\ errors (sync_results s1)
                  = errors (sync_results s)
                    ++ (if conn_is_active connection then
                          match FinancialDataManager.sync_connection env user_id connection s
                          with
                          | Raised e _ => [error_msg connection e]
                          | Returned _ _ => []
                          end
                        else [])).
    { unfold FinancialDataManager.sync_one.
      destruct (conn_is_active connection); cbn [negb].
      - unfold try_except.
        pose proof (sync_connection_outcome env user_id connection s) as Hout.
        destruct (FinancialDataManager.sync_connection env user_id connection s)
          as [[] s1|e s1].
        + exists s1. destruct Hout as [Hsuccess Herrors].
          rewrite Herrors, app_nil_r. repeat split. exact Hsuccess.
        + destruct Hout as (_ & _ & _ & Hsuccess & Herrors & _).
          eexists. split; [reflexivity|].
          cbn [sync_results success errors record]. rewrite Hsuccess, Herrors.
          split; reflexivity.
      - exists s. cbn [ret]. rewrite app_nil_r. repeat split. }
    destruct Hone as (s1 & Hrun & Hsuccess & Herrors).
    rewrite Hrun. cbn [final].
    destruct (IH s1) as (s' & Hloop & Hsuccess' & Herrors').
    rewrite (bind_returned _ _ _ _ _ Hrun).
    exists s'. split; [exact Hloop|]. split; [congruence|].
    rewrite Herrors', Herrors, app_assoc. reflexivity.
Qed.

(** C5: [sync_account_data] always returns its result dictionary.  If the
    enumeration of the connections raised, the success flag is false and
    the one error is the general one; if it returned, the loop over the
    connections and the market-data pass ran to their end without raising,
    the success flag is true, and the errors of the result are exactly the
    messages of the active connections whose processing raised, one for
    each, in the order of the connections. *)
Theorem sync_always_returns (env : Env) (user_id : Z) (s : State) :
  exists r s',
    FinancialDataManager.sync_account_data env user_id s = Returned r s'
    /\ r = sync_results s'
    /\ match FinancialDataManager.get_api_connections user_id (started env s) with
       | Raised e _ =>
           success r = false
           /\ accounts_updated r = 0
           /\ errors r = ["General sync error: " +++ str_of_exception e]
       | Returned connections s1 =>
           success r = true
           /\ errors r = raised_errors env user_id connections s1
           /\ exists s2 s3,
                for_each connections (FinancialDataManager.sync_one env user_id) s1
                = Returned tt s2
                /\ FinancialDataManager._sync_stock_data env user_id s2 = Returned tt s3
                /\ s' = s3
       end.
Proof.
  unfold FinancialDataManager.sync_account_data.
  rewrite (bind_returned _ _ _ _ _ (datetime_now_eq env s)).
  unfold bind at 1. cbn [put_sync_results record database trace].
  change {| database := database s; trace := trace s ++ [ClockRead];
            sync_results := {| success := true; accounts_updated := 0; errors := [];
                               last_sync := clock env (List.length (trace s)) |} |}
    with (started env s).
  destruct (FinancialDataManager.get_api_connections user_id (started env s))
    as [connections s1|e s1] eqn:Henum.
  - assert (Hs1 : s1 = started env s).
    { unfold FinancialDataManager.get_api_connections, bind, sqlite3_connect in Henum.
      destruct (lift _ (started env s)) as [t s0|e0 s0] eqn:Hl; [|discriminate].
      unfold lift in Hl. destruct (from_table _ _); [|discriminate].
      injection Hl as _ <-. injection Henum as _ <-. reflexivity. }
    destruct (sync_loop_errors env user_id connections s1)
      as (s2 & Hloop & Hkept & Herrors).
    destruct (proj2 (sync_stock_data_results env user_id) s2) as ([] & s3 & Hmarket).
    pose proof (proj1 (sync_stock_data_results env user_id) s2) as Hres.
    rewrite Hmarket in Hres. cbn [final] in Hres.
    assert (Hbody : (connections <- FinancialDataManager.get_api_connections user_id ;;
                     for_each connections (FinancialDataManager.sync_one env user_id) ;;
                     FinancialDataManager._sync_stock_data env user_id) (started env s)
                    = Returned tt s3).
    { rewrite (bind_returned _ _ _ _ _ Henum).
      rewrite (bind_returned _ _ _ _ _ Hloop). exact Hmarket. }
    rewrite (bind_returned _ _ _ _ _ (try_except_returned _ _ _ _ _ Hbody)).
    exists (sync_results s3), s3. split; [reflexivity|]. split; [reflexivity|].
    unfold same_results in Hres. rewrite Hres.
    split; [rewrite Hkept, Hs1; reflexivity|].
    split; [rewrite Herrors, Hs1; reflexivity|].
    exists s2, s3. auto.
  - assert (Hs1 : s1 = started env s).
    { unfold FinancialDataManager.get_api_connections, bind, sqlite3_connect in Henum.
      destruct (lift _ (started env s)) as [t s0|e0 s0] eqn:Hl; [discriminate|].
      unfold lift in Hl. destruct (from_table _ _); [discriminate|].
      injection Hl as _ <-. injection Henum as _ <-. reflexivity. }
    assert (Hbody : (connections <- FinancialDataManager.get_api_connections user_id ;;
                     for_each connections (FinancialDataManager.sync_one env user_id) ;;
                     FinancialDataManager._sync_stock_data env user_id) (started env s)
                    = Raised e s1)
      by (apply bind_raised; exact Henum).
    unfold bind at 1. rewrite (try_except_raised _ _ _ _ _ Hbody). subst s1.
    eexists _, _. split; [reflexivity|]. split; [reflexivity|].
    cbn. repeat split.
Qed.

(** The scenario of the specification, on the sample world: the first
    connection fails, the second is processed, and the result still says
    success. *)
Example partial_success :
  exists r s',
    FinancialDataManager.sync_account_data Sample.env 1 Sample.without_accounts
    = Returned r s'
    /\ success r = true
    /\ errors r = ["Error syncing First Bank: no such table: accounts"]
    /\ map (fun row => (ApiConnections.id row, ApiConnections.last_sync row))
         (rows_of (api_connections (database s')))
       = [(1, None); (2, Some 1704412800000006)].
Proof.
  eexists _, _. split; [vm_compute; reflexivity|]. repeat split.
Qed.

(** An error of the fetch itself does not reach the loop: the adapter
    catches it, prints it and returns no account; the turn of the loop
    ends normally, records no error, and writes the last-sync time. *)
Example fetch_failure_is_swallowed :
  exists r s',
    FinancialDataManager.sync_account_data Sample.offline 1 Sample.without_accounts
    = Returned r s'
    /\ success r = true
    /\ accounts_updated r = 0
    /\ errors r = []
    /\ In (Printed "Error fetching Plaid data: Max retries exceeded") (trace s')
    /\ map (fun row => (ApiConnections.id row, ApiConnections.last_sync row))
         (rows_of (api_connections (database s')))
       = [(1, Some 1704412800000003); (2, Some 1704412800000004)].
Proof.
  eexists _, _. split; [vm_compute; reflexivity|].
  do 3 (split; [reflexivity|]). split; [simpl; tauto | reflexivity].
Qed.

(** On any database that has the table and is not locked, adding a stock
    holding appends a row and keeps every row that was there, whatever
    their symbols. *)
Lemma add_stock_holding_appends env user_id symbol shares purchase_price s t :
  stock_holdings (database s) = Some t ->
  write_locked s = false ->
  exists s' t',
    App.add_stock_holding env user_id symbol shares purchase_price s = Returned tt s'
    /\ stock_holdings (database s') = Some t'
    /\ rows t' = rows t ++ [App.holding_row user_id (str_upper env symbol) shares
                              (get_default purchase_price 0%Q)
                              (clock env (List.length (trace s)))
                              (next_rowid Holdings.id t)].
Proof.
  intros Ht Hfree. unfold App.add_stock_holding. cbv zeta.
  rewrite (bind_returned sqlite3_connect _ s (database s) s eq_refl).
  unfold bind at 1. rewrite Ht. cbn [from_table lift ret].
  unfold bind at 1. rewrite (begin_write_free _ Hfree).
  unfold bind at 1, CURRENT_TIMESTAMP. rewrite datetime_now_eq.
  eexists _, _. split; [reflexivity|]. cbn [database set_stock_holdings stock_holdings].
  split; [reflexivity|].
  rewrite insert_or_replace_inserts by reflexivity. reflexivity.
Qed.

Lemma add_crypto_holding_appends env user_id symbol amount purchase_price s t :
  crypto_holdings (database s) = Some t ->
  write_locked s = false ->
  exists s' t',
    App.add_crypto_holding env user_id symbol amount purchase_price s = Returned tt s'
    /\ crypto_holdings (database s') = Some t'
    /\ rows t' = rows t ++ [App.holding_row user_id (str_upper env symbol) amount
                              (get_default purchase_price 0%Q)
                              (clock env (List.length (trace s)))
                              (next_rowid Holdings.id t)].
Proof.
  intros Ht Hfree. unfold App.add_crypto_holding. cbv zeta.
  rewrite (bind_returned sqlite3_connect _ s (database s) s eq_refl).
  unfold bind at 1. rewrite Ht. cbn [from_table lift ret].
  unfold bind at 1. rewrite (begin_write_free _ Hfree).
  unfold bind at 1, CURRENT_TIMESTAMP. rewrite datetime_now_eq.
  eexists _, _. split; [reflexivity|]. cbn [database set_crypto_holdings crypto_holdings].
  split; [reflexivity|].
  rewrite insert_or_replace_inserts by reflexivity. reflexivity.
Qed.

(** * Further properties *)

(** ** The bank adapter *)

Lemma transaction_dicts_complete (raws : list Provider.RawTransaction) :
  forallb complete_transaction raws = true ->
  exists ts, PlaidAPI.transaction_dicts raws = Val ts
             /\ Forall2 (fun raw t => built_from raw t /\ copied_from raw t) raws ts.
Proof.
  induction raws as [|raw raws IH]; cbn [forallb]; intros H.
  - exists []. split; [reflexivity | constructor].
  - apply andb_true_iff in H as [Hraw Hrest].
    destruct (IH Hrest) as (ts & Hts & Hall).
    unfold complete_transaction in Hraw.
    apply andb_true_iff in Hraw as [Hraw Hd]. apply andb_true_iff in Hraw as [Ha Hn].
    destruct (PlaidAPI.transaction_dict raw) as [t|e] eqn:Ht.
    + exists (t :: ts). cbn [PlaidAPI.transaction_dicts]. rewrite Ht, Hts.
      split; [reflexivity|]. constructor; [|exact Hall].
      split; [apply transaction_dict_built_from; exact Ht|].
      unfold PlaidAPI.transaction_dict, getitem, rbind in Ht. unfold copied_from.
      destruct (Provider.raw_amount raw); [|discriminate].
      destruct (Provider.raw_name raw); [|discriminate].
      destruct (Provider.raw_date raw); [|discriminate].
      injection Ht as <-. repeat split.
    + exfalso. unfold PlaidAPI.transaction_dict, getitem, rbind in Ht.
      destruct (Provider.raw_amount raw); [|discriminate].
      destruct (Provider.raw_name raw); [|discriminate].
      destruct (Provider.raw_date raw); discriminate.
Qed.

Lemma transaction_dicts_incomplete (raws : list Provider.RawTransaction) :
  forallb complete_transaction raws = false ->
  exists key, PlaidAPI.transaction_dicts raws = Exn (KeyError key).
Proof.
  induction raws as [|raw raws IH]; cbn [forallb]; intros H; [discriminate|].
  cbn [PlaidAPI.transaction_dicts].
  destruct (complete_transaction raw) eqn:Hraw.
  - destruct (IH H) as (key & Hkey). exists key. rewrite Hkey.
    unfold rbind. destruct (PlaidAPI.transaction_dict raw) eqn:Ht; [reflexivity|].
    exfalso. destruct (transaction_dicts_complete [raw]) as (ts & Hts & _).
    { cbn [forallb]. rewrite Hraw. reflexivity. }
    cbn [PlaidAPI.transaction_dicts] in Hts. rewrite Ht in Hts. discriminate Hts.
  - unfold complete_transaction, present in Hraw.
    unfold PlaidAPI.transaction_dict, getitem, rbind.
    destruct (Provider.raw_amount raw); [|eexists; reflexivity].
    destruct (Provider.raw_name raw); [|eexists; reflexivity].
    destruct (Provider.raw_date raw); [cbn in Hraw; discriminate Hraw|eexists; reflexivity].
Qed.

(** X1: when the provider answers the transactions request with status 200,
    [_get_transactions] is all or nothing: if every entry has the keys
    amount, name and date, it returns one dictionary per entry, in order,
    with the name as description, the date, and the category (the empty
    list when absent); if one entry lacks a key, it returns no transaction
    at all, not even those of the complete entries. *)
Theorem get_transactions_all_or_nothing (env : Env) (self : PlaidAPI.t)
    (account_id : string) (s : State) (text : string) (response : Provider.Response)
    (Hanswer : plaid_server env (S (List.length (trace s)))
                 (transactions_request env self account_id s)
               = Provider.Answer 200 text (Val response)) :
  let raws := get_default (Provider.resp_transactions response) [] in
  exists ts s',
    PlaidAPI._get_transactions env self account_id s = Returned ts s'
    /\ if forallb complete_transaction raws
       then Forall2 (fun raw t => built_from raw t /\ copied_from raw t) raws ts
       else ts = [].
Proof.
  intros raws. unfold PlaidAPI._get_transactions, try_except.
  rewrite (bind_returned _ _ _ _ _ (datetime_now_eq env s)).
  pose proof (make_request_cases env self "/transactions/get"
                (Some (strftime_Ymd (clock env (List.length (trace s)) - timedelta_days 30)))
                (Some (strftime_Ymd (clock env (List.length (trace s))))) [account_id]
                (record ClockRead s)) as Hreq.
  cbv zeta in Hreq. rewrite length_trace_record in Hreq.
  change {| Provider.endpoint := "/transactions/get" |}
    with (transactions_request env self account_id s) in Hreq.
  rewrite Hanswer in Hreq.
  destruct Hreq as [(response' & text' & [= <- <-] & Hreq)|(e & Hreq)].
  - rewrite (bind_returned _ _ _ _ _ Hreq). fold raws.
    destruct (forallb complete_transaction raws) eqn:Hall.
    + destruct (transaction_dicts_complete raws Hall) as (ts & Hts & Hrel).
      rewrite Hts. eexists ts, _. split; [reflexivity | exact Hrel].
    + destruct (transaction_dicts_incomplete raws Hall) as (key & Hkey).
      rewrite Hkey. eexists [], _. split; reflexivity.
  - exfalso. unfold PlaidAPI._make_request, bind, emit in Hreq.
    rewrite length_trace_record in Hreq.
    change {| Provider.endpoint := "/transactions/get" |}
      with (transactions_request env self account_id s) in Hreq.
    rewrite Hanswer in Hreq. discriminate Hreq.
Qed.

Lemma get_transactions_all_or_nothing_witness :
  exists ts s',
    PlaidAPI._get_transactions Sample.env Sample2.api "acc-1" Sample.fresh = Returned ts s'
    /\ Forall2 (fun raw t => built_from raw t /\ copied_from raw t) [Sample.coffee] ts.
Proof.
  exact (get_transactions_all_or_nothing Sample.env Sample2.api "acc-1" Sample.fresh
           "OK" _ eq_refl).
Defined.

Lemma never_raises_get_transactions env self account_id :
  never_raises (PlaidAPI._get_transactions env self account_id).
Proof. apply never_raises_try_except. intros e. apply never_raises_print_ret. Qed.

Lemma map_account_type_kind (plaid_type : string) :
  In (PlaidAPI._map_account_type plaid_type) account_kinds.
Proof.
  unfold PlaidAPI._map_account_type.
  destruct (mapping_get_cases PlaidAPI.mapping plaid_type "other") as [H|[_ ->]];
    [|simpl; tauto].
  remember (PlaidAPI.mapping_get PlaidAPI.mapping plaid_type "other") as kind.
  unfold PlaidAPI.mapping in H; simpl in H.
  repeat (destruct H as [H|H]; [injection H as _ <-; simpl; tauto|]).
  contradiction.
Qed.

(** What [account_data_of] returns, when it returns. *)
Lemma account_data_of_returned env self raw s a s' :
  PlaidAPI.account_data_of env self raw s = Returned a s' -> account_from raw a.
Proof.
  unfold PlaidAPI.account_data_of. intros H.
  apply bind_inv in H as (id0 & s0 & H0 & H).
  apply bind_inv in H as (ts & s1 & _ & H).
  apply bind_inv in H as (id1 & s2 & H1 & H).
  apply bind_inv in H as (name & s3 & H2 & H).
  apply bind_inv in H as (type & s4 & H3 & H).
  apply bind_inv in H as (balances & s5 & H4 & H).
  apply bind_inv in H as (current & s6 & H5 & H).
  apply bind_inv in H as (balances' & s7 & H6 & H).
  apply bind_inv in H as (code & s8 & H7 & H).
  apply bind_inv in H as (institution_id & s9 & H8 & H).
  apply bind_inv in H as (now & s10 & _ & H).
  injection H as <- _.
  unfold getitem in *. unfold account_from.
  destruct (Provider.raw_account_id raw) as [i|]; [|discriminate H1].
  destruct (Provider.raw_name_ raw) as [n|]; [|discriminate H2].
  destruct (Provider.raw_type raw) as [ty|]; [|discriminate H3].
  destruct (Provider.raw_balances raw) as [b|]; [|discriminate H4].
  destruct (Provider.raw_institution_id raw) as [ins|]; [|discriminate H8].
  injection H1 as <- _. injection H2 as <- _. injection H3 as <- _.
  injection H4 as <- _. injection H6 as <- _. injection H8 as <- _.
  cbn [account_id account_name account_type balance currency
       institution transactions option_map].
  do 3 (split; [reflexivity|]). split.
  - exists b. split; [reflexivity|].
    destruct (Provider.raw_current b); [|discriminate H5].
    destruct (Provider.raw_iso_currency_code b); [|discriminate H7].
    injection H5 as <- _. injection H7 as <- _. split; reflexivity.
  - split; [reflexivity | discriminate].
Qed.

Lemma account_data_of_complete env self raw s :
  complete_account raw = true ->
  exists a s', PlaidAPI.account_data_of env self raw s = Returned a s'.
Proof.
  unfold complete_account, present. intros H.
  unfold PlaidAPI.account_data_of, getitem.
  destruct (Provider.raw_account_id raw) as [i|]; [|discriminate H].
  destruct (Provider.raw_name_ raw) as [n|]; [|discriminate H].
  destruct (Provider.raw_type raw) as [ty|]; [|discriminate H].
  destruct (Provider.raw_balances raw) as [b|]; [|discriminate H].
  destruct (Provider.raw_current b) as [c|] eqn:Hc; [|discriminate H].
  destruct (Provider.raw_iso_currency_code b) as [code|] eqn:Hcode; [|discriminate H].
  destruct (Provider.raw_institution_id raw) as [ins|]; [|discriminate H].
  cbn [lift]. unfold bind at 1. cbn [ret].
  destruct (never_raises_get_transactions env self i s) as (ts & s1 & Hts).
  rewrite (bind_returned _ _ _ _ _ Hts).
  cbv beta iota delta [bind ret lift]. rewrite Hc.
  cbv beta iota delta [bind ret lift]. rewrite Hcode.
  eexists _, _. reflexivity.
Qed.

Lemma account_data_of_incomplete env self raw s :
  complete_account raw = false ->
  exists e s', PlaidAPI.account_data_of env self raw s = Raised e s'.
Proof.
  intros H.
  destruct (PlaidAPI.account_data_of env self raw s) as [a s'|e s'] eqn:Hrun;
    [|exists e, s'; reflexivity].
  exfalso. apply account_data_of_returned in Hrun
    as (H1 & H2 & H3 & (b & H4 & H5 & H6) & H7 & _).
  unfold complete_account in H. rewrite H1, H2, H4, H5, H6, H7 in H.
  destruct (Provider.raw_type raw); [discriminate H | discriminate H3].
Qed.

(** The loop of [get_account_data] over the entries of the provider. *)
Lemma accounts_loop env self raws : forall accounts s,
  (forallb complete_account raws = true ->
   exists built s',
     for_fold raws
       (fun accounts account =>
          account_data <- PlaidAPI.account_data_of env self account ;;
          ret (accounts ++ [account_data]))
       accounts s = Returned (accounts ++ built) s'
     /\ Forall2 account_from raws built)
  /\ (forallb complete_account raws = false ->
      exists e s',
        for_fold raws
          (fun accounts account =>
             account_data <- PlaidAPI.account_data_of env self account ;;
             ret (accounts ++ [account_data]))
          accounts s = Raised e s').
Proof.
  induction raws as [|raw raws IH]; intros accounts s; cbn [forallb for_fold].
  - split; [|discriminate]. intros _. exists [], s. rewrite app_nil_r.
    split; [reflexivity | constructor].
  - destruct (complete_account raw) eqn:Hraw; cbn [andb].
    + destruct (account_data_of_complete env self raw s Hraw) as (a & s1 & Ha).
      pose proof (account_data_of_returned _ _ _ _ _ _ Ha) as Hfrom.
      assert (Hstep : (account_data <- PlaidAPI.account_data_of env self raw ;;
                       ret (accounts ++ [account_data])) s
                      = Returned (accounts ++ [a]) s1)
        by (rewrite (bind_returned _ _ _ _ _ Ha); reflexivity).
      rewrite (bind_returned _ _ _ _ _ Hstep).
      destruct (IH (accounts ++ [a]) s1) as [IHa IHb]. split.
      * intros Hall. destruct (IHa Hall) as (built & s' & Hrun & Hrel).
        exists (a :: built), s'. rewrite Hrun, <- app_assoc.
        split; [reflexivity | constructor; assumption].
      * exact IHb.
    + split; [discriminate|]. intros _.
      destruct (account_data_of_incomplete env self raw s Hraw) as (e & s1 & He).
      exists e, s1. apply bind_raised. apply bind_raised. exact He.
Qed.

(** X2: [get_account_data] never raises and writes nothing, neither to the
    database nor to [sync_results]; every account that it returns has one
    of the account kinds of the table and carries a list of transactions. *)
Theorem get_account_data_contained (env : Env) (self : PlaidAPI.t) (s : State) :
  exists accounts s',
    PlaidAPI.get_account_data env self s = Returned accounts s'
    /\ database s' = database s
    /\ sync_results s' = sync_results s
    /\ Forall (fun a => In (account_type a) account_kinds /\ transactions a <> None)
         accounts.
Proof.
  destruct (never_raises_get_account_data env self s) as (accounts & s' & Hrun).
  pose proof (quiet_get_account_data env self s) as Hq. rewrite Hrun in Hq.
  destruct Hq as [Hdb Hres]. cbn [final] in *.
  exists accounts, s'. split; [exact Hrun|]. split; [exact Hdb|]. split; [exact Hres|].
  unfold PlaidAPI.get_account_data, try_except in Hrun.
  destruct ((accounts_response <- PlaidAPI._make_request env self "/accounts/get"
                                    None None [] ;; _) s) as [accounts0 s0|e s0] eqn:Hbody.
  - injection Hrun as <- <-.
    apply bind_inv in Hbody as (response & s1 & _ & Hloop).
    set (raws := get_default (Provider.resp_accounts response) []) in *.
    destruct (forallb complete_account raws) eqn:Hall.
    + destruct (proj1 (accounts_loop env self raws [] s1) Hall)
        as (built & s2 & Hrun & Hrel).
      rewrite Hrun in Hloop. injection Hloop as <- _. cbn [app].
      clear Hrun Hall. induction Hrel as [|raw a raws' built' Hfrom _ IH]; constructor.
      * destruct Hfrom as (_ & _ & H3 & _ & _ & H6). split; [|exact H6].
        destruct (Provider.raw_type raw); [|discriminate H3].
        injection H3 as <-. apply map_account_type_kind.
      * exact IH.
    + destruct (proj2 (accounts_loop env self raws [] s1) Hall) as (e & s2 & Hrun).
      rewrite Hrun in Hloop. discriminate Hloop.
  - cbn in Hrun. injection Hrun as <- _. constructor.
Qed.

(** X3: when the provider answers the accounts request with status 200,
    [get_account_data] is all or nothing: if every entry has the keys that
    the code subscripts, it returns one account per entry, in order, with
    the identity, name, balance, currency and institution of the entry and
    the mapped kind; if one entry lacks a key, it returns no account at
    all. *)
Theorem get_account_data_all_or_nothing (env : Env) (self : PlaidAPI.t) (s : State)
    (text : string) (response : Provider.Response)
    (Hanswer : plaid_server env (List.length (trace s)) (accounts_request self)
               = Provider.Answer 200 text (Val response)) :
  let raws := get_default (Provider.resp_accounts response) [] in
  exists accounts s',
    PlaidAPI.get_account_data env self s = Returned accounts s'
    /\ if forallb complete_account raws
       then Forall2 account_from raws accounts
       else accounts = [].
Proof.
  intros raws. unfold PlaidAPI.get_account_data, try_except.
  pose proof (make_request_cases env self "/accounts/get" None None [] s) as Hreq.
  cbv zeta in Hreq.
  change {| Provider.endpoint := "/accounts/get" |} with (accounts_request self) in Hreq.
  rewrite Hanswer in Hreq.
  destruct Hreq as [(response' & text' & [= <- <-] & Hreq)|(e & Hreq)].
  - rewrite (bind_returned _ _ _ _ _ Hreq). fold raws.
    destruct (forallb complete_account raws) eqn:Hall.
    + destruct (proj1 (accounts_loop env self raws []
                        (record (Posted (accounts_request self)) s)) Hall)
        as (built & s2 & -> & Hrel).
      exists built, s2. split; [reflexivity | exact Hrel].
    + destruct (proj2 (accounts_loop env self raws []
                        (record (Posted (accounts_request self)) s)) Hall)
        as (e & s2 & ->).
      eexists [], _. split; reflexivity.
  - exfalso. unfold PlaidAPI._make_request, bind, emit in Hreq.
    change {| Provider.endpoint := "/accounts/get" |} with (accounts_request self) in Hreq.
    rewrite Hanswer in Hreq. discriminate Hreq.
Qed.

Lemma get_account_data_all_or_nothing_witness :
  exists accounts s',
    PlaidAPI.get_account_data Sample.env Sample2.api Sample.fresh = Returned accounts s'
    /\ Forall2 account_from [Sample.checking 0] accounts.
Proof.
  exact (get_account_data_all_or_nothing Sample.env Sample2.api Sample.fresh "OK" _ eq_refl).
Defined.

(** X4: when the provider answers the accounts request with a status other
    than 200, [get_account_data] returns no account; the request and one
    printed line that gives the status and the text of the answer are the
    only events. *)
Theorem get_account_data_bad_status (env : Env) (self : PlaidAPI.t) (s : State)
    (status_code : Z) (text : string) (json : result Provider.Response)
    (Hanswer : plaid_server env (List.length (trace s)) (accounts_request self)
               = Provider.Answer status_code text json)
    (Hstatus : status_code <> 200) :
  exists s',
    PlaidAPI.get_account_data env self s = Returned [] s'
    /\ trace s' = trace s
                  ++ [Posted (accounts_request self);
                      Printed ("Error fetching Plaid data: API request failed: "
                               +++ str_of_int status_code +++ " - " +++ text)]
    /\ database s' = database s.
Proof.
  unfold PlaidAPI.get_account_data, try_except.
  assert (Hreq : PlaidAPI._make_request env self "/accounts/get" None None [] s
                 = Raised (PlainException ("API request failed: "
                                           +++ str_of_int status_code +++ " - " +++ text))
                     (record (Posted (accounts_request self)) s)).
  { unfold PlaidAPI._make_request, bind, emit.
    change {| Provider.endpoint := "/accounts/get" |} with (accounts_request self).
    rewrite Hanswer. destruct (Z.eqb_spec status_code 200); [contradiction|reflexivity]. }
  rewrite (bind_raised _ _ _ _ _ Hreq).
  eexists. split; [reflexivity|]. split; [|reflexivity].
  cbn [print bind emit ret record trace]. rewrite <- app_assoc. reflexivity.
Qed.

Lemma get_account_data_bad_status_witness :
  exists s',
    PlaidAPI.get_account_data Sample2.unavailable Sample2.api Sample.fresh = Returned [] s'
    /\ trace s' = [Posted (accounts_request Sample2.api);
                   Printed "Error fetching Plaid data: API request failed: 503 - Service Unavailable"]
    /\ database s' = database Sample.fresh.
Proof.
  exact (get_account_data_bad_status Sample2.unavailable Sample2.api Sample.fresh 503
           "Service Unavailable" _ eq_refl ltac:(discriminate)).
Defined.

(** ** The market-data adapter *)

Lemma for_fold_invariant {A V} (I : V -> Prop) (l : list A) (body : V -> A -> M V) :
  (forall v x s v' s', In x l -> I v -> body v x s = Returned v' s' -> I v') ->
  forall v s v' s', I v -> for_fold l body v s = Returned v' s' -> I v'.
Proof.
  induction l as [|x l IH]; intros Hb v s v' s' Hv H; cbn [for_fold] in H.
  - injection H as <- _. exact Hv.
  - apply bind_inv in H as (v1 & s1 & H1 & H).
    apply (IH (fun v0 x0 s0 v0' s0' Hin => Hb v0 x0 s0 v0' s0' (or_intror Hin)) v1 s1 v' s');
      [|exact H].
    apply (Hb v x s v1 s1 (or_introl eq_refl) Hv H1).
Qed.

(** A loop raises when its body raises on one of the elements, whatever
    the state. *)
Lemma for_fold_raises {A V} (l : list A) (body : V -> A -> M V) (x : A) :
  In x l ->
  (forall v s, exists e s', body v x s = Raised e s') ->
  forall v s, exists e s', for_fold l body v s = Raised e s'.
Proof.
  induction l as [|y l IH]; intros Hin Hx v s; [contradiction|].
  cbn [for_fold]. unfold bind.
  destruct (body v y s) as [v1 s1|e s1] eqn:Hy; [|exists e, s1; reflexivity].
  destruct Hin as [->|Hin]; [|apply (IH Hin Hx)].
  destruct (Hx v s) as (e & s' & He). rewrite He in Hy. discriminate Hy.
Qed.

Lemma dict_set_keys {V} (d : list (string * V)) key (v : V) x :
  In x (map fst (dict_set d key v)) -> x = key \/ In x (map fst d).
Proof.
  induction d as [|[k v'] d IH]; cbn [dict_set map fst In].
  - intros [<-|[]]. left; reflexivity.
  - destruct (String.eqb_spec k key) as [->|Hne]; cbn [map fst In].
    + intros [<-|H]; [left; reflexivity | right; right; exact H].
    + intros [<-|H]; [right; left; reflexivity|].
      destruct (IH H) as [->|H']; [left; reflexivity | right; right; exact H'].
Qed.

Lemma dict_set_entries {V} (d : list (string * V)) key (v : V) kv :
  In kv (dict_set d key v) -> kv = (key, v) \/ In kv d.
Proof.
  induction d as [|[k v'] d IH]; cbn [dict_set In].
  - intros [<-|[]]. left; reflexivity.
  - destruct (String.eqb_spec k key) as [->|Hne]; cbn [In].
    + intros [<-|H]; [left; reflexivity | right; right; exact H].
    + intros [<-|H]; [right; left; reflexivity|].
      destruct (IH H) as [->|H']; [left; reflexivity | right; right; exact H'].
Qed.

(** Assigning to a key keeps the keys of a dictionary distinct. *)
Lemma dict_set_nodup {V} (d : list (string * V)) key (v : V) :
  NoDup (map fst d) -> NoDup (map fst (dict_set d key v)).
Proof.
  induction d as [|[k v'] d IH]; cbn [dict_set map fst]; intros H.
  - constructor; [intros [] | constructor].
  - inversion H as [|k0 l0 Hnotin Hrest]; subst.
    destruct (String.eqb_spec k key) as [->|Hne]; cbn [map fst].
    + constructor; assumption.
    + constructor; [|apply IH; exact Hrest].
      intros Hin. apply dict_set_keys in Hin as [->|Hin]; [apply Hne; reflexivity|].
      apply Hnotin; exact Hin.
Qed.

Lemma quotes_of_set env query symbols d symbol q i ticker bar bars :
  quotes_of env query symbols d ->
  In symbol symbols ->
  q_symbol q = symbol ->
  yf_Ticker env i (query symbol) = Val ticker ->
  rev (YF.history ticker) = bar :: bars ->
  current_price q = YF.Close bar ->
  quotes_of env query symbols (dict_set d symbol q).
Proof.
  intros [Hnd Hall] Hin Hsym Hticker Hrev Hprice. split; [apply dict_set_nodup; exact Hnd|].
  apply Forall_forall. intros kv Hkv.
  apply dict_set_entries in Hkv as [->|Hkv].
  - split; [exact Hin|]. split; [exact Hsym|]. exists i, ticker, bar, bars. auto.
  - exact (proj1 (Forall_forall _ _) Hall kv Hkv).
Qed.

Lemma ticker_returned env symbol s ticker s' :
  YFinanceAPI.Ticker env symbol s = Returned ticker s' ->
  yf_Ticker env (List.length (trace s)) symbol = Val ticker.
Proof.
  unfold YFinanceAPI.Ticker, bind, emit.
  destruct (yf_Ticker env (List.length (trace s)) symbol); [|discriminate].
  intros [= <- _]. reflexivity.
Qed.

(** X5: [get_stock_data] never raises and writes nothing; the keys of the
    dictionary it returns are distinct and are among the requested symbols;
    each quote carries its key as symbol and, as price, the close of the
    last bar that the service gave for that symbol; hence a symbol for
    which the service never has a bar is not in the dictionary. *)
Theorem get_stock_data_quotes (env : Env) (symbols : list string) (s : State) :
  exists stock_data s',
    YFinanceAPI.get_stock_data env symbols s = Returned stock_data s'
    /\ database s' = database s
    /\ sync_results s' = sync_results s
    /\ NoDup (map fst stock_data)
    /\ Forall (fun kv => In (fst kv) symbols /\ quoted_from env (fun symbol => symbol) kv)
         stock_data
    /\ forall symbol,
         (forall i ticker, yf_Ticker env i symbol = Val ticker -> YF.history ticker = []) ->
         ~ In symbol (map fst stock_data).
Proof.
  destruct (never_raises_get_stock_data env symbols s) as (d & s' & Hrun).
  pose proof (quiet_get_stock_data env symbols s) as Hq. rewrite Hrun in Hq.
  destruct Hq as [Hdb Hres]. cbn [final] in *.
  exists d, s'. split; [exact Hrun|]. split; [exact Hdb|]. split; [exact Hres|].
  assert (Hd : quotes_of env (fun symbol => symbol) symbols d).
  { unfold YFinanceAPI.get_stock_data, try_except in Hrun.
    match type of Hrun with
    | match ?body s with _ => _ end = _ => destruct (body s) as [d0 s0|e s0] eqn:Hbody
    end.
    - injection Hrun as <- _.
      refine (for_fold_invariant (quotes_of env (fun symbol => symbol) symbols)
                symbols _ _ [] s d0 s0 _ Hbody).
      + intros v x s1 v' s1' Hin Hv Hstep.
        apply bind_inv in Hstep as (ticker & s2 & Hticker & Hstep).
        apply ticker_returned in Hticker.
        destruct (rev (YF.history ticker)) as [|bar bars] eqn:Hrev.
        * injection Hstep as <- _. exact Hv.
        * apply bind_inv in Hstep as (now & s3 & _ & Hstep). injection Hstep as <- _.
          eapply (quotes_of_set env (fun symbol => symbol)); eauto.
      + split; [constructor | constructor].
    - cbn in Hrun. injection Hrun as <- _. split; constructor. }
  destruct Hd as [Hnd Hall]. split; [exact Hnd|]. split; [exact Hall|].
  intros symbol Hnone Hin. apply in_map_iff in Hin as (kv & Hkey & Hkv).
  destruct (proj1 (Forall_forall _ _) Hall kv Hkv)
    as (_ & _ & i & ticker & bar & bars & Hticker & Hrev & _).
  rewrite Hkey in Hticker. rewrite (Hnone i ticker Hticker) in Hrev. discriminate Hrev.
Qed.

(** X6: [get_crypto_data] never raises and writes nothing; the keys of the
    dictionary are distinct requested symbols; the service is asked for the
    symbol followed by "-USD"; each quote carries its key as symbol and as
    name, the currency "USD", and the close of the last bar of that pair. *)
Theorem get_crypto_data_quotes (env : Env) (symbols : list string) (s : State) :
  exists crypto_data s',
    YFinanceAPI.get_crypto_data env symbols s = Returned crypto_data s'
    /\ database s' = database s
    /\ sync_results s' = sync_results s
    /\ NoDup (map fst crypto_data)
    /\ Forall (fun kv => In (fst kv) symbols /\ quoted_from env usd_pair kv
                         /\ q_name (snd kv) = fst kv /\ q_currency (snd kv) = "USD")
         crypto_data.
Proof.
  destruct (never_raises_get_crypto_data env symbols s) as (d & s' & Hrun).
  pose proof (quiet_get_crypto_data env symbols s) as Hq. rewrite Hrun in Hq.
  destruct Hq as [Hdb Hres]. cbn [final] in *.
  exists d, s'. split; [exact Hrun|]. split; [exact Hdb|]. split; [exact Hres|].
  assert (Hd : quotes_of env usd_pair symbols d
               /\ Forall (fun kv => q_name (snd kv) = fst kv /\ q_currency (snd kv) = "USD") d).
  { unfold YFinanceAPI.get_crypto_data, try_except in Hrun.
    match type of Hrun with
    | match ?body s with _ => _ end = _ => destruct (body s) as [d0 s0|e s0] eqn:Hbody
    end.
    - injection Hrun as <- _.
      refine (for_fold_invariant
                (fun d => quotes_of env usd_pair symbols d
                          /\ Forall (fun kv => q_name (snd kv) = fst kv
                                               /\ q_currency (snd kv) = "USD") d)
                symbols _ _ [] s d0 s0 _ Hbody).
      + intros v x s1 v' s1' Hin [Hv Hv'] Hstep.
        apply bind_inv in Hstep as (ticker & s2 & Hticker & Hstep).
        apply ticker_returned in Hticker.
        destruct (rev (YF.history ticker)) as [|bar bars] eqn:Hrev.
        * injection Hstep as <- _. split; assumption.
        * apply bind_inv in Hstep as (now & s3 & _ & Hstep). injection Hstep as <- _.
          split; [eapply (quotes_of_set env usd_pair); eauto|].
          apply Forall_forall. intros kv Hkv.
          apply dict_set_entries in Hkv as [->|Hkv]; [split; reflexivity|].
          exact (proj1 (Forall_forall _ _) Hv' kv Hkv).
      + split; [split; constructor | constructor].
    - cbn in Hrun. injection Hrun as <- _. split; [split; constructor | constructor]. }
  destruct Hd as [[Hnd Hall] Hall']. split; [exact Hnd|].
  apply Forall_forall. intros kv Hkv.
  destruct (proj1 (Forall_forall _ _) Hall kv Hkv) as [H1 H2].
  destruct (proj1 (Forall_forall _ _) Hall' kv Hkv) as [H3 H4]. auto.
Qed.

(** X7: the quotes are all or nothing: when the service fails, at every
    moment, for one of the requested symbols, [get_stock_data] returns the
    empty dictionary, without the quotes of the other symbols; so does
    [get_crypto_data] when the service fails for the pair of one symbol. *)
Theorem quotes_lost_on_one_failure (env : Env) (symbols : list string) (bad : string)
    (s : State)
    (Hin : In bad symbols) :
  ((forall i, exists e, yf_Ticker env i bad = Exn e) ->
   exists s', YFinanceAPI.get_stock_data env symbols s = Returned [] s')
  /\ ((forall i, exists e, yf_Ticker env i (usd_pair bad) = Exn e) ->
      exists s', YFinanceAPI.get_crypto_data env symbols s = Returned [] s').
Proof.
  split; intros Hbad.
  - unfold YFinanceAPI.get_stock_data, try_except.
    match goal with
    | |- exists s', match for_fold symbols ?body [] s with _ => _ end = _ =>
        destruct (for_fold_raises symbols body bad Hin) with (v := @nil (string * Quote))
                                                              (s := s) as (e & s1 & ->)
    end.
    + intros v s0. unfold YFinanceAPI.Ticker, bind, emit.
      destruct (Hbad (List.length (trace s0))) as (e & ->). eexists _, _. reflexivity.
    + eexists. reflexivity.
  - unfold YFinanceAPI.get_crypto_data, try_except.
    match goal with
    | |- exists s', match for_fold symbols ?body [] s with _ => _ end = _ =>
        destruct (for_fold_raises symbols body bad Hin) with (v := @nil (string * Quote))
                                                              (s := s) as (e & s1 & ->)
    end.
    + intros v s0. unfold YFinanceAPI.Ticker, bind, emit.
      fold (usd_pair bad).
      destruct (Hbad (List.length (trace s0))) as (e & ->). eexists _, _. reflexivity.
    + eexists. reflexivity.
Qed.

Lemma quotes_lost_on_one_failure_witness :
  exists s',
    YFinanceAPI.get_stock_data Sample2.market ["AAPL"; "BAD"] Sample.fresh = Returned [] s'.
Proof.
  apply (quotes_lost_on_one_failure Sample2.market ["AAPL"; "BAD"] "BAD" Sample.fresh).
  - simpl; tauto.
  - intros i. eexists. reflexivity.
Defined.

(** ** The tables of the manager *)

(** X8: [init_database] of the manager is safe to run on any database
    that no connection left open keeps locked: it returns, the three tables
    of the manager exist afterwards, the rows of the tables that existed
    are kept, the tables of the application are left as they were, a
    second run changes nothing more, and afterwards the enumeration of the
    connections of a user cannot raise. *)
Theorem init_database_keeps_data (user_id : Z) (s : State)
    (Hfree : write_locked s = false) :
  exists s1,
    FinancialDataManager.init_database s = Returned tt s1
    /\ api_connections (database s1) <> None
    /\ stock_holdings (database s1) <> None
    /\ crypto_holdings (database s1) <> None
    /\ rows_of (api_connections (database s1)) = rows_of (api_connections (database s))
    /\ rows_of (stock_holdings (database s1)) = rows_of (stock_holdings (database s))
    /\ rows_of (crypto_holdings (database s1)) = rows_of (crypto_holdings (database s))
    /\ accounts (database s1) = accounts (database s)
    /\ transactions_ (database s1) = transactions_ (database s)
    /\ (exists s2, FinancialDataManager.init_database s1 = Returned tt s2
                   /\ database s2 = database s1)
    /\ exists connections,
         FinancialDataManager.get_api_connections user_id s1 = Returned connections s1.
Proof.
  unfold write_locked in Hfree.
  destruct (api_connections (database s)) as [t1|] eqn:H1;
    destruct (stock_holdings (database s)) as [t2|] eqn:H2;
    destruct (crypto_holdings (database s)) as [t3|] eqn:H3;
    (eexists; split;
     [unfold FinancialDataManager.init_database, create_table_if_not_exists, bind,
        sqlite3_connect, begin_write, write_locked, commit, ret;
      repeat (progress (cbn [database trace api_connections stock_holdings crypto_holdings
                             set_api_connections set_stock_holdings set_crypto_holdings];
                        rewrite ?H1, ?H2, ?H3, ?Hfree));
      reflexivity|]);
    cbn [database trace api_connections stock_holdings crypto_holdings accounts
         transactions_ set_api_connections set_stock_holdings set_crypto_holdings
         rows_of rows];
    rewrite ?H1, ?H2, ?H3; cbn [rows_of rows];
    (do 3 (split; [discriminate|]); do 5 (split; [reflexivity|]);
     split;
     [eexists; split;
      [unfold FinancialDataManager.init_database, create_table_if_not_exists, bind,
         sqlite3_connect, begin_write, write_locked, commit, ret;
       repeat (progress (cbn [database trace api_connections stock_holdings crypto_holdings
                              set_api_connections set_stock_holdings set_crypto_holdings];
                         rewrite ?H1, ?H2, ?H3, ?Hfree));
       reflexivity
      |reflexivity]
     |eexists;
      unfold FinancialDataManager.get_api_connections, bind, sqlite3_connect;
      cbn [database api_connections set_api_connections set_stock_holdings
           set_crypto_holdings];
      rewrite ?H1; reflexivity]).
Qed.

Lemma init_database_keeps_data_witness :
  exists s1,
    FinancialDataManager.init_database Sample.blank = Returned tt s1
    /\ api_connections (database s1) <> None
    /\ accounts (database s1) = None.
Proof.
  destruct (init_database_keeps_data 1 Sample.blank eq_refl)
    as (s1 & Hrun & Hconnections & _ & _ & _ & _ & _ & Haccounts & _).
  exists s1. split; [exact Hrun|]. split; [exact Hconnections | exact Haccounts].
Defined.

(** ** Writing an account, continued *)

(** X9: [_update_account_from_api] is all or nothing: when it raises, the
    database is exactly as before, even if the account record had already
    been written on the connection, and [sync_results] is untouched. *)
Theorem update_account_atomic (env : Env) (user_id : Z) (a : AccountData)
    (s s' : State) (e : Exception)
    (Hraised : FinancialDataManager._update_account_from_api env user_id a s
               = Raised e s') :
  database s' = database s /\ sync_results s' = sync_results s.
Proof.
  revert Hraised. unfold FinancialDataManager._update_account_from_api.
  rewrite (bind_returned sqlite3_connect _ s (database s) s eq_refl).
  unfold bind at 1.
  destruct (accounts (database s)) as [t|]; cbn [from_table lift ret raise];
    [|intros [= _ <-]; split; reflexivity].
  cbv zeta.
  assert (Hloop : forall account_id conn s0,
             same_store s s0 ->
             uncommitted env
               (conn <- for_fold (get_default (transactions a) [])
                          (FinancialDataManager.insert_transaction env account_id) conn ;;
                commit conn) s0 = Raised e s' ->
             same_store s s').
  { intros account_id conn s0 Hs0. unfold uncommitted, bind.
    destruct (for_fold _ _ conn s0) as [conn' s1|e1 s1] eqn:Hrun; [discriminate|].
    intros [= _ <-].
    pose proof (respects_for_fold same_store same_store_refl same_store_trans
                  (get_default (transactions a) []) _
                  (quiet_insert_transaction env account_id) conn s0) as Hq.
    rewrite Hrun in Hq. apply same_store_record.
    eapply same_store_trans; [exact Hs0 | exact Hq]. }
  destruct (find _ (rows t)) as [existing|].
  - unfold bind at 1. unfold bind at 1.
    destruct (encrypt_data_cases env
                (json_dumps_info env
                   {| info_balance := balance a; info_currency := currency a;
                      info_institution := institution a;
                      last_api_update := last_updated a |}) s)
      as [(payload & ->)|(e0 & ->)]; [|intros [= _ <-]; split; reflexivity].
    unfold bind at 1. rewrite datetime_now_eq.
    unfold bind at 1.
    destruct (begin_write_cases (record ClockRead (record TokenSealed s))) as [->| ->];
      [|intros [= _ <-]; split; reflexivity].
    cbn [ret]. apply Hloop. split; reflexivity.
  - unfold bind at 1. unfold bind at 1.
    destruct (encrypt_data_cases env
                (json_dumps_info env
                   {| info_balance := balance a; info_currency := currency a;
                      info_institution := institution a;
                      last_api_update := last_updated a |}) s)
      as [(payload & ->)|(e0 & ->)]; [|intros [= _ <-]; split; reflexivity].
    unfold bind at 1.
    destruct (begin_write_cases (record TokenSealed s)) as [->| ->];
      [|intros [= _ <-]; split; reflexivity].
    unfold bind at 1. unfold CURRENT_TIMESTAMP. rewrite datetime_now_eq. cbn [ret].
    apply Hloop. split; reflexivity.
Qed.

Lemma update_account_atomic_witness :
  exists s',
    FinancialDataManager._update_account_from_api Sample.env 1 (Sample.checking_account 10)
      Sample2.without_transactions
    = Raised (OperationalError "no such table: transactions") s'
    /\ database s' = database Sample2.without_transactions.
Proof.
  eexists. split; [vm_compute; reflexivity|].
  apply (update_account_atomic Sample.env 1 (Sample.checking_account 10)
           Sample2.without_transactions _
           (OperationalError "no such table: transactions")).
  vm_compute. reflexivity.
Defined.








(** ** Adding a connection *)

Lemma get_api_connections_listing user_id s t :
  api_connections (database s) = Some t ->
  FinancialDataManager.get_api_connections user_id s
  = Returned (listing user_id (database s)) s.
Proof.
  intros Ht. unfold FinancialDataManager.get_api_connections, listing, connections_of.
  rewrite (bind_returned sqlite3_connect _ s (database s) s eq_refl).
  unfold bind. rewrite Ht. reflexivity.
Qed.

(** A token that seals the serialised credentials opens to them. *)
Lemma init_recovers env plain token c s :
  decrypt (cipher_suite env) (str_encode token) = Some (str_encode plain) ->
  well_formed plain ->
  json_loads_credentials env plain = Val c ->
  PlaidAPI.__init__ env token s = Returned (api_of c) s.
Proof.
  intros Hopen Hwf Hjson.
  unfold PlaidAPI.__init__, PlaidAPI._decrypt_credentials, decrypt_data.
  rewrite Hopen, (bytes_decode_encode _ Hwf). cbn [rbind]. rewrite Hjson. reflexivity.
Qed.

(** X11: on a database that has the table of connections and that no
    connection left open keeps locked, under a cipher suite that honours
    the contract, [add_api_connection] returns True and
    appends one row, with an id above all others, active, never synced;
    the connections of the user, as [get_api_connections] lists them, are
    the former ones followed by the new one; and, when the JSON codec reads
    back what it wrote, [PlaidAPI(...)] recovers from the stored blob the
    credentials that were given. *)
Theorem add_connection_round_trip (env : Env) (dumps : Credentials -> string)
    (user_id : Z) (institution_name api_type : string) (c : Credentials) (s : State)
    (t : table ApiConnections.row)
    (contract : FernetContract (cipher_suite env))
    (Htable : api_connections (database s) = Some t)
    (Hfree : write_locked s = false)
    (Hwf : well_formed (dumps c))
    (Hjson : json_loads_credentials env (dumps c) = Val c) :
  exists s' row,
    Manager.add_api_connection env dumps user_id institution_name api_type c s
    = Returned true s'
    /\ rows_of (api_connections (database s')) = rows t ++ [row]
    /\ Forall (fun r => ApiConnections.id r < ApiConnections.id row) (rows t)
    /\ ApiConnections.user_id row = user_id
    /\ ApiConnections.institution_name row = institution_name
    /\ ApiConnections.api_type row = api_type
    /\ ApiConnections.is_active row = true
    /\ ApiConnections.last_sync row = None
    /\ FinancialDataManager.get_api_connections user_id s'
       = Returned (listing user_id (database s)
                   ++ [FinancialDataManager.connection_of row]) s'
    /\ forall s0,
         PlaidAPI.__init__ env (ApiConnections.encrypted_credentials row) s0
         = Returned (api_of c) s0.
Proof.
  destruct (encrypt_data_returns env (dumps c) s contract) as (token & Hseal & Htoken).
  unfold Manager.add_api_connection.
  assert (Hbody :
    exists s',
      (encrypted_credentials <- encrypt_data env (dumps c) ;;
       conn <- sqlite3_connect ;;
       t <- lift (from_table "api_connections" (api_connections conn)) ;;
       begin_write ;;
       created <- CURRENT_TIMESTAMP env ;;
       commit (set_api_connections
                 (insert_into ApiConnections.id t (fun i =>
                    {| ApiConnections.id := i;
                       ApiConnections.user_id := user_id;
                       ApiConnections.institution_name := institution_name;
                       ApiConnections.api_type := api_type;
                       ApiConnections.encrypted_credentials := encrypted_credentials;
                       ApiConnections.is_active := true;
                       ApiConnections.last_sync := None;
                       ApiConnections.created_at := created |}))
                 conn) ;;
       ret true) s = Returned true s'
      /\ api_connections (database s')
         = Some (insert_into ApiConnections.id t (fun i =>
                   {| ApiConnections.id := i;
                      ApiConnections.user_id := user_id;
                      ApiConnections.institution_name := institution_name;
                      ApiConnections.api_type := api_type;
                      ApiConnections.encrypted_credentials := token;
                      ApiConnections.is_active := true;
                      ApiConnections.last_sync := None;
                      ApiConnections.created_at :=
                        clock env (S (List.length (trace s))) |}))).
  { rewrite (bind_returned _ _ _ _ _ Hseal).
    rewrite (bind_returned sqlite3_connect _ (record TokenSealed s) (database s)
               (record TokenSealed s) eq_refl).
    unfold bind at 1. cbn [record database]. rewrite Htable. cbn [from_table lift ret].
    change {| database := database s; trace := trace s ++ [TokenSealed];
              sync_results := sync_results s |} with (record TokenSealed s).
    unfold bind at 1. rewrite (begin_write_free _ (write_locked_record TokenSealed s Hfree I)).
    unfold bind at 1, CURRENT_TIMESTAMP. rewrite datetime_now_eq, length_trace_record.
    eexists. split; reflexivity. }
  destruct Hbody as (s' & Hbody & Htable').
  rewrite (try_except_returned _ _ _ _ _ Hbody).
  eexists s', _. split; [reflexivity|].
  rewrite Htable'. cbn [rows_of insert_into rows].
  split; [reflexivity|].
  cbn [ApiConnections.id ApiConnections.user_id ApiConnections.institution_name
       ApiConnections.api_type ApiConnections.is_active ApiConnections.last_sync
       ApiConnections.encrypted_credentials].
  split; [apply Forall_forall; intros r Hr; apply next_rowid_fresh; exact Hr|].
  do 5 (split; [reflexivity|]). split.
  - erewrite get_api_connections_listing by exact Htable'.
    unfold listing, connections_of. rewrite Htable', Htable.
    cbn [rows_of insert_into rows]. rewrite filter_app, map_app.
    cbn [filter ApiConnections.user_id]. rewrite Z.eqb_refl. reflexivity.
  - intros s0. apply (init_recovers env (dumps c)); [|exact Hwf|exact Hjson].
    rewrite Htoken. apply (decrypt_encrypt _ contract).
Qed.

Lemma add_connection_round_trip_witness :
  exists s' row,
    Manager.add_api_connection Sample.env Sample2.dumps 1 "First Bank" "plaid"
      Sample.credentials Sample.fresh = Returned true s'
    /\ rows_of (api_connections (database s')) = [] ++ [row]
    /\ PlaidAPI.__init__ Sample.env (ApiConnections.encrypted_credentials row) Sample.fresh
       = Returned (api_of Sample.credentials) Sample.fresh.
Proof.
  destruct (add_connection_round_trip Sample.env Sample2.dumps 1 "First Bank" "plaid"
              Sample.credentials Sample.fresh Sample.empty_table
              sample_cipher_contract eq_refl eq_refl eq_refl eq_refl)
    as (s' & row & Hrun & Hrows & _ & _ & _ & _ & _ & _ & _ & Hinit).
  exists s', row. split; [exact Hrun|]. split; [exact Hrows | apply Hinit].
Defined.

(** X12: [add_api_connection] never raises and leaves [sync_results] alone;
    when it answers False it has written nothing; and it answers False
    when the table of connections does not exist. *)
Theorem add_connection_contained (env : Env) (dumps : Credentials -> string)
    (user_id : Z) (institution_name api_type : string) (c : Credentials) (s : State) :
  exists added s',
    Manager.add_api_connection env dumps user_id institution_name api_type c s
    = Returned added s'
    /\ sync_results s' = sync_results s
    /\ (added = false -> database s' = database s)
    /\ (api_connections (database s) = None -> added = false).
Proof.
  unfold Manager.add_api_connection, try_except.
  destruct (encrypt_data_cases env (dumps c) s) as [(token & Hseal)|(e & Hseal)].
  - rewrite (bind_returned _ _ _ _ _ Hseal).
    rewrite (bind_returned sqlite3_connect _ (record TokenSealed s) (database s)
               (record TokenSealed s) eq_refl).
    unfold bind at 1. cbn [record database].
    destruct (api_connections (database s)) as [t|]; cbn [from_table lift ret raise].
    + change {| database := database s; trace := trace s ++ [TokenSealed];
                sync_results := sync_results s |} with (record TokenSealed s).
      unfold bind at 1.
      destruct (begin_write_cases (record TokenSealed s)) as [->| ->].
      * unfold bind at 1, CURRENT_TIMESTAMP. rewrite datetime_now_eq.
        eexists _, _. split; [reflexivity|]. split; [reflexivity|].
        split; discriminate.
      * eexists _, _. split; [reflexivity|]. split; [reflexivity|].
        split; [reflexivity | discriminate].
    + eexists _, _. split; [reflexivity|]. repeat split.
  - rewrite (bind_raised _ _ _ _ _ Hseal).
    eexists _, _. split; [reflexivity|]. repeat split.
Qed.

(** ** Deleting and editing a connection *)

Section FilterFilter.
Context {A : Type}.

Lemma filter_filter_when (p q q' : A -> bool) (l : list A) :
  (forall x, p x = true -> q x = q' x) ->
  filter p (filter q l) = filter q' (filter p l).
Proof.
  intros H. induction l as [|x l IH]; cbn [filter]; [reflexivity|].
  destruct (p x) eqn:Hp.
  - rewrite (H x Hp). destruct (q' x) eqn:Hq; cbn [filter]; rewrite ?Hp, ?Hq, IH; reflexivity.
  - destruct (q x); cbn [filter]; rewrite ?Hp; exact IH.
Qed.

Lemma filter_all (l : list A) : filter (fun _ => true) l = l.
Proof. induction l as [|x l IH]; cbn [filter]; [reflexivity | rewrite IH; reflexivity]. Qed.

Lemma find_none_all (p : A -> bool) (l : list A) :
  find p l = None -> forall x, In x l -> p x = false.
Proof.
  induction l as [|y l IH]; cbn [find]; intros H x Hx; [contradiction|].
  destruct (p y) eqn:Hy; [discriminate|].
  destruct Hx as [<-|Hx]; [exact Hy | apply IH; assumption].
Qed.

Lemma filter_id_when (p : A -> bool) (l : list A) :
  (forall x, In x l -> p x = true) -> filter p l = l.
Proof.
  induction l as [|y l IH]; cbn [filter]; intros H; [reflexivity|].
  rewrite (H y (or_introl eq_refl)). rewrite IH; [reflexivity|].
  intros x Hx. apply H. right. exact Hx.
Qed.
End FilterFilter.

(** X13: on a database that has the table of connections,
    [delete_api_connection] raises nothing when the id of the URL fits a
    64-bit signed integer and no connection left open keeps the database
    locked; and however it ends, returning or raising: when it returns, of
    the connections of the session user it has removed those with the
    given id and kept the others in order, and when it raises the
    connections of the session user are as before; the connections of every
    other user are exactly as before, whatever their ids; no other table
    and not [sync_results] is touched. *)
Theorem delete_only_own (session_user_id connection_id : Z) (s : State)
    (t : table ApiConnections.row)
    (Htable : api_connections (database s) = Some t) :
  let out := Routes.delete_api_connection session_user_id connection_id s in
  let s' := final out in
  (sqlite_integer connection_id = true -> write_locked s = false ->
   exists response, out = Returned response s')
  /\ match out with
     | Returned _ _ =>
         connections_of session_user_id (database s')
         = filter (fun row => negb (ApiConnections.id row =? connection_id))
             (connections_of session_user_id (database s))
     | Raised _ _ =>
         connections_of session_user_id (database s')
         = connections_of session_user_id (database s)
     end
  /\ (forall user_id, user_id <> session_user_id ->
      connections_of user_id (database s') = connections_of user_id (database s))
  /\ accounts (database s') = accounts (database s)
  /\ transactions_ (database s') = transactions_ (database s)
  /\ stock_holdings (database s') = stock_holdings (database s)
  /\ crypto_holdings (database s') = crypto_holdings (database s)
  /\ sync_results s' = sync_results s.
Proof.
  cbv zeta.
  remember (Routes.delete_api_connection session_user_id connection_id s) as out eqn:Hout.
  unfold Routes.delete_api_connection in Hout.
  rewrite (bind_returned sqlite3_connect _ s (database s) s eq_refl) in Hout.
  unfold bind at 1 in Hout. rewrite Htable in Hout. cbn [from_table lift ret] in Hout.
  unfold bind at 1, bind_int in Hout.
  destruct (sqlite_integer connection_id) eqn:Hrange; cbn [lift ret raise] in Hout;
    [|subst out; cbn [final]; split; [discriminate | repeat split]].
  destruct (find (owned_connection connection_id session_user_id) (rows t))
    as [connection|] eqn:Hfind.
  - unfold bind at 1 in Hout. cbn [ret] in Hout. unfold bind at 1 in Hout.
    destruct (write_locked s) eqn:Hlock.
    + rewrite (begin_write_locked _ Hlock) in Hout. subst out. cbn [final].
      split; [discriminate | repeat split].
    + rewrite (begin_write_free _ Hlock) in Hout. unfold bind at 1 in Hout.
      cbn [commit ret] in Hout. subst out. cbn [final].
      split; [intros _ _; eexists; reflexivity|].
      unfold connections_of. cbn [final ret database set_api_connections api_connections
                                   accounts transactions_ stock_holdings crypto_holdings
                                   sync_results rows_of delete_from rows].
      rewrite Htable. cbn [rows_of].
      split; [|split; [|repeat split]].
      * apply filter_filter_when. intros row Hu. unfold owned_connection. rewrite Hu.
        rewrite andb_true_r. reflexivity.
      * intros user_id Hne.
        rewrite (filter_filter_when _ _ (fun _ => true)); [apply filter_all|].
        intros row Hu. apply Z.eqb_eq in Hu. unfold owned_connection.
        destruct (Z.eqb_spec (ApiConnections.user_id row) session_user_id) as [E|E];
          [exfalso; apply Hne; congruence|].
        rewrite andb_false_r. reflexivity.
  - subst out. cbn [ret final].
    split; [intros _ _; eexists; reflexivity|].
    split; [|repeat split].
    unfold connections_of. rewrite Htable. cbn [rows_of].
    symmetry. apply filter_id_when. intros row Hrow.
    apply filter_In in Hrow as [Hin Hu].
    pose proof (find_none_all _ _ Hfind row Hin) as Hown.
    unfold owned_connection in Hown. rewrite Hu, andb_true_r in Hown.
    rewrite Hown. reflexivity.
Qed.

Lemma delete_only_own_witness :
  exists response s',
    Routes.delete_api_connection 1 2 Sample.without_accounts = Returned response s'
    /\ map ApiConnections.id (connections_of 1 (database s')) = [1].
Proof.
  destruct (delete_only_own 1 2 Sample.without_accounts _ eq_refl)
    as (Hrun & Hown & _).
  destruct (Hrun eq_refl eq_refl) as (response & Hout).
  rewrite Hout in Hown. cbn [final] in Hown.
  eexists response, _. split; [exact Hout|].
  rewrite Hown. reflexivity.
Defined.

Lemma edit_frame_refl user_id connection_id row : edit_frame user_id connection_id row row.
Proof. unfold edit_frame. auto. Qed.

Lemma Forall2_same {A} (R : A -> A -> Prop) (l : list A) :
  (forall x, R x x) -> Forall2 R l l.
Proof. intros H. induction l; constructor; auto. Qed.

Lemma connections_framed_refl user_id connection_id t :
  connections_framed (edit_frame user_id connection_id) t t.
Proof.
  destruct t as [t|]; cbn; [|exact I].
  split; [reflexivity|]. apply Forall2_same. intros row. apply edit_frame_refl.
Qed.

Lemma update_where_framed user_id connection_id institution_name api_type token t :
  connections_framed (edit_frame user_id connection_id) (Some t)
    (Some (update_where t (owned_connection connection_id user_id)
             (set_edited institution_name api_type token))).
Proof.
  cbn. split; [reflexivity|].
  induction (rows t) as [|row l IH]; cbn [map]; constructor; [|exact IH].
  destruct (owned_connection connection_id user_id row) eqn:Hown.
  - unfold edit_frame. cbn [set_edited ApiConnections.id ApiConnections.user_id
                            ApiConnections.is_active ApiConnections.created_at].
    do 4 (split; [reflexivity|]). rewrite Hown. discriminate.
  - apply edit_frame_refl.
Qed.

Lemma try_lift_default {A} (r : result A) (d : A) s :
  try_except (lift r) (fun _ => ret d) s
  = Returned (match r with Val a => a | Exn _ => d end) s.
Proof. destruct r; reflexivity. Qed.

Lemma edit_untouched (session_user_id connection_id : Z) (post : option Routes.Form)
    (s : State) (o : Outcome Routes.Response) :
  database (final o) = database s -> sync_results (final o) = sync_results s ->
  connections_framed (edit_frame session_user_id connection_id)
    (api_connections (database s)) (api_connections (database (final o)))
  /\ accounts (database (final o)) = accounts (database s)
  /\ transactions_ (database (final o)) = transactions_ (database s)
  /\ stock_holdings (database (final o)) = stock_holdings (database s)
  /\ crypto_holdings (database (final o)) = crypto_holdings (database s)
  /\ sync_results (final o) = sync_results s
  /\ (post = None -> database (final o) = database s).
Proof.
  intros Hd Hr. rewrite Hd. split; [apply connections_framed_refl|].
  repeat split; assumption.
Qed.

(** X14: however [edit_api_connection] ends, returning or raising, on a GET
    or a POST with any form, no connection is added, deleted or moved; every
    row keeps its id, its owner, its active flag and its creation time; a
    row that is not the connection of the given id of the session user is
    exactly as before; no other table and not [sync_results] is touched;
    and a GET request writes nothing at all. *)
Theorem edit_connection_frame (env : Env) (dumps : Credentials -> string)
    (session_user_id connection_id : Z) (post : option Routes.Form) (s : State) :
  let s' := final (Routes.edit_api_connection env dumps session_user_id connection_id post s) in
  connections_framed (edit_frame session_user_id connection_id)
    (api_connections (database s)) (api_connections (database s'))
  /\ accounts (database s') = accounts (database s)
  /\ transactions_ (database s') = transactions_ (database s)
  /\ stock_holdings (database s') = stock_holdings (database s)
  /\ crypto_holdings (database s') = crypto_holdings (database s)
  /\ sync_results s' = sync_results s
  /\ (post = None -> database s' = database s).
Proof.
  cbv zeta.
  remember (Routes.edit_api_connection env dumps session_user_id connection_id post s)
    as out eqn:Hout.
  unfold Routes.edit_api_connection in Hout.
  rewrite (bind_returned sqlite3_connect _ s (database s) s eq_refl) in Hout.
  unfold bind at 1 in Hout.
  destruct (api_connections (database s)) as [t|] eqn:Htable;
    cbn [from_table lift ret raise] in Hout;
    [|rewrite <- Htable; apply edit_untouched; subst out; reflexivity].
  unfold bind at 1, bind_int in Hout.
  destruct (sqlite_integer connection_id); cbn [lift ret raise] in Hout;
    [|rewrite <- Htable; apply edit_untouched; subst out; reflexivity].
  destruct (find (owned_connection connection_id session_user_id) (rows t))
    as [connection|];
    [|rewrite <- Htable; apply edit_untouched; subst out; reflexivity].
  unfold bind at 1 in Hout. rewrite try_lift_default in Hout.
  destruct post as [form|];
    [|rewrite <- Htable; apply edit_untouched; subst out; reflexivity].
  unfold bind at 1 in Hout.
  destruct (Routes.form_institution_name form) as [institution_name|];
    cbn [getitem lift ret raise] in Hout;
    [|rewrite <- Htable; apply edit_untouched; subst out; reflexivity].
  unfold bind at 1 in Hout.
  destruct (Routes.form_api_type form) as [api_type|];
    cbn [getitem lift ret raise] in Hout;
    [|rewrite <- Htable; apply edit_untouched; subst out; reflexivity].
  unfold bind at 1 in Hout.
  destruct (Routes.collect_credentials api_type form) as [new_credentials|e];
    cbn [lift ret raise] in Hout;
    [|rewrite <- Htable; apply edit_untouched; subst out; reflexivity].
  destruct (encrypt_data_cases env (dumps new_credentials) s) as [(token & Hseal)|(e & Hseal)].
  - rewrite (bind_returned _ _ _ _ _ Hseal) in Hout.
    rewrite (bind_returned sqlite3_connect _ (record TokenSealed s) (database s)
               (record TokenSealed s) eq_refl) in Hout.
    unfold bind at 1 in Hout. cbn [record database] in Hout.
    rewrite Htable in Hout. cbn [from_table lift ret] in Hout.
    change {| database := database s; trace := trace s ++ [TokenSealed];
              sync_results := sync_results s |} with (record TokenSealed s) in Hout.
    unfold bind at 1 in Hout.
    destruct (begin_write_cases (record TokenSealed s)) as [Hb|Hb]; rewrite Hb in Hout;
      [|rewrite <- Htable; apply edit_untouched; subst out; reflexivity].
    unfold bind at 1 in Hout. cbn [commit ret] in Hout. subst out.
    cbn [final database set_api_connections api_connections
         accounts transactions_ stock_holdings crypto_holdings sync_results record].
    split; [apply update_where_framed|]. repeat split. discriminate.
  - rewrite (bind_raised _ _ _ _ _ Hseal) in Hout.
    rewrite <- Htable; apply edit_untouched; subst out; reflexivity.
Qed.

Lemma find_update_where {A} (p : A -> bool) (f : A -> A) (l : list A) :
  (forall x, p (f x) = p x) ->
  find p (map (fun x => if p x then f x else x) l) = option_map f (find p l).
Proof.
  intros H. induction l as [|x l IH]; cbn [map find option_map]; [reflexivity|].
  destruct (p x) eqn:Hp.
  - rewrite H, Hp. reflexivity.
  - rewrite Hp. exact IH.
Qed.

(** X15: under a cipher suite that honours the contract and a JSON codec
    that reads back what it wrote, when the id of the URL fits a 64-bit
    signed integer and no connection left open keeps the database locked,
    a POST on a connection of the session
    user with a complete form answers the redirect of success; afterwards
    every connection of that id of that user carries the posted name and
    type and has never been synced; and a GET of the same connection then
    shows the posted name, type and credentials. *)
Theorem edit_connection_post (env : Env) (dumps : Credentials -> string)
    (session_user_id connection_id : Z) (form : Routes.Form)
    (institution_name api_type : string) (c : Credentials)
    (s : State) (t : table ApiConnections.row) (connection : ApiConnections.row)
    (contract : FernetContract (cipher_suite env))
    (Htable : api_connections (database s) = Some t)
    (Hrange : sqlite_integer connection_id = true)
    (Hfree : write_locked s = false)
    (Hfind : find (owned_connection connection_id session_user_id) (rows t) = Some connection)
    (Hname : Routes.form_institution_name form = Some institution_name)
    (Htype : Routes.form_api_type form = Some api_type)
    (Hcred : Routes.collect_credentials api_type form = Val c)
    (Hwf : well_formed (dumps c))
    (Hjson : json_loads_credentials env (dumps c) = Val c) :
  exists s',
    Routes.edit_api_connection env dumps session_user_id connection_id (Some form) s
    = Returned (Routes.Redirect "api_connections" "API connection updated successfully!"
                  "success") s'
    /\ Forall (fun row =>
                 owned_connection connection_id session_user_id row = true ->
                 ApiConnections.institution_name row = institution_name
                 /\ ApiConnections.api_type row = api_type
                 /\ ApiConnections.last_sync row = None)
         (rows_of (api_connections (database s')))
    /\ Routes.edit_api_connection env dumps session_user_id connection_id None s'
       = Returned (Routes.RenderEdit
                     {| Routes.view_id := connection_id;
                        Routes.view_institution_name := institution_name;
                        Routes.view_api_type := api_type;
                        Routes.view_credentials := c |}) s'.
Proof.
  destruct (encrypt_data_returns env (dumps c) s contract) as (token & Hseal & Htoken).
  assert (Hopen : decrypt_data env token = Val (dumps c)).
  { unfold decrypt_data. rewrite Htoken, (decrypt_encrypt _ contract).
    apply bytes_decode_encode. exact Hwf. }
  assert (Hkeeps : forall row,
             owned_connection connection_id session_user_id
               (set_edited institution_name api_type token row)
             = owned_connection connection_id session_user_id row) by reflexivity.
  unfold Routes.edit_api_connection at 1.
  rewrite (bind_returned sqlite3_connect _ s (database s) s eq_refl).
  unfold bind at 1. rewrite Htable. cbn [from_table lift ret].
  unfold bind at 1, bind_int. rewrite Hrange. cbn [lift ret]. rewrite Hfind.
  unfold bind at 1. rewrite try_lift_default.
  unfold bind at 1. rewrite Hname. cbn [getitem lift ret].
  unfold bind at 1. rewrite Htype. cbn [getitem lift ret].
  unfold bind at 1. rewrite Hcred. cbn [lift ret].
  rewrite (bind_returned _ _ _ _ _ Hseal).
  rewrite (bind_returned sqlite3_connect _ (record TokenSealed s) (database s)
             (record TokenSealed s) eq_refl).
  unfold bind at 1. cbn [record database]. rewrite Htable. cbn [from_table lift ret].
  change {| database := database s; trace := trace s ++ [TokenSealed];
            sync_results := sync_results s |} with (record TokenSealed s).
  unfold bind at 1. rewrite (begin_write_free _ (write_locked_record TokenSealed s Hfree I)).
  unfold bind at 1. cbn [commit ret].
  eexists. split; [reflexivity|].
  cbn [database set_api_connections api_connections rows_of update_where rows].
  split.
  - apply Forall_forall. intros row Hin Hown.
    apply in_map_iff in Hin as (row0 & <- & _).
    destruct (owned_connection connection_id session_user_id row0) eqn:Hown0.
    + cbn. auto.
    + rewrite Hown0 in Hown. discriminate.
  - unfold Routes.edit_api_connection.
    match goal with
    | |- bind sqlite3_connect _ ?s1 = _ =>
        rewrite (bind_returned sqlite3_connect _ s1 (database s1) s1 eq_refl)
    end.
    unfold bind at 1.
    cbn [database set_api_connections api_connections from_table lift ret
         update_where rows].
    unfold bind at 1, bind_int. rewrite Hrange. cbn [lift ret].
    rewrite (find_update_where _ _ _ Hkeeps), Hfind. cbn [option_map].
    unfold bind at 1. rewrite try_lift_default.
    cbn [set_edited ApiConnections.encrypted_credentials ApiConnections.institution_name
         ApiConnections.api_type].
    rewrite Hopen. cbn [rbind]. rewrite Hjson. reflexivity.
Qed.

Lemma edit_connection_post_witness :
  exists s',
    Routes.edit_api_connection Sample.env Sample2.dumps 1 1 (Some Sample2.form)
      Sample.without_accounts
    = Returned (Routes.Redirect "api_connections" "API connection updated successfully!"
                  "success") s'
    /\ Routes.edit_api_connection Sample.env Sample2.dumps 1 1 None s'
       = Returned (Routes.RenderEdit
                     {| Routes.view_id := 1;
                        Routes.view_institution_name := "Second Bank";
                        Routes.view_api_type := "plaid";
                        Routes.view_credentials := Sample.credentials |}) s'.
Proof.
  destruct (edit_connection_post Sample.env Sample2.dumps 1 1 Sample2.form
              "Second Bank" "plaid" Sample.credentials Sample.without_accounts _ _
              sample_cipher_contract eq_refl eq_refl eq_refl eq_refl eq_refl
              eq_refl eq_refl eq_refl eq_refl)
    as (s' & Hrun & _ & Hget).
  exists s'. split; [exact Hrun | exact Hget].
Defined.

(** ** What a synchronisation keeps *)

Section Kept.
Context {R : Type} (kept : R -> R -> Prop).
Hypothesis kept_refl : forall r, kept r r.
Hypothesis kept_trans : forall r1 r2 r3, kept r1 r2 -> kept r2 r3 -> kept r1 r3.

Lemma Forall2_kept_trans (l1 l2 l3 : list R) :
  Forall2 kept l1 l2 -> Forall2 kept l2 l3 -> Forall2 kept l1 l3.
Proof.
  intros H. revert l3. induction H as [|x y l l' Hxy Hl IH]; intros l3 H3.
  - inversion H3. constructor.
  - inversion H3 as [|y' z l2' l3' Hyz Hl3]; subst.
    constructor; [eapply kept_trans; eassumption | apply IH; assumption].
Qed.

Lemma Forall2_update_where (p : R -> bool) (f : R -> R) (l : list R) :
  (forall r, kept r (f r)) ->
  Forall2 kept l (map (fun r => if p r then f r else r) l).
Proof.
  intros Hf. induction l as [|r l IH]; cbn [map]; constructor; [|exact IH].
  destruct (p r); [apply Hf | apply kept_refl].
Qed.

Lemma rows_kept_refl t : rows_kept kept t t.
Proof. destruct t; cbn; [apply Forall2_same; exact kept_refl | exact I]. Qed.

Lemma rows_kept_trans t1 t2 t3 :
  rows_kept kept t1 t2 -> rows_kept kept t2 t3 -> rows_kept kept t1 t3.
Proof.
  destruct t1 as [t1|], t2 as [t2|], t3 as [t3|]; cbn; try tauto.
  apply Forall2_kept_trans.
Qed.

Lemma rows_grown_refl t : rows_grown kept t t.
Proof.
  destruct t as [t|]; cbn; [|exact I].
  exists (rows t), []. rewrite app_nil_r.
  split; [reflexivity | apply Forall2_same; exact kept_refl].
Qed.

Lemma rows_grown_trans t1 t2 t3 :
  rows_grown kept t1 t2 -> rows_grown kept t2 t3 -> rows_grown kept t1 t3.
Proof.
  destruct t1 as [t1|], t2 as [t2|], t3 as [t3|]; cbn; try tauto.
  intros (old & new & E & H) (old' & new' & E' & H').
  rewrite E in H'. apply Forall2_app_inv_l in H' as (k1 & k2 & Hk1 & Hk2 & ->).
  exists k1, (k2 ++ new'). split; [rewrite E', <- app_assoc; reflexivity|].
  eapply Forall2_kept_trans; eassumption.
Qed.
End Kept.

Lemma connection_kept_refl row : connection_kept row row.
Proof. repeat split. Qed.

Lemma connection_kept_trans r1 r2 r3 :
  connection_kept r1 r2 -> connection_kept r2 r3 -> connection_kept r1 r3.
Proof.
  intros (A1 & A2 & A3 & A4 & A5 & A6 & A7) (B1 & B2 & B3 & B4 & B5 & B6 & B7).
  repeat split; congruence.
Qed.

Lemma account_kept_refl row : account_kept row row.
Proof. repeat split. Qed.

Lemma account_kept_trans r1 r2 r3 :
  account_kept r1 r2 -> account_kept r2 r3 -> account_kept r1 r3.
Proof.
  intros (A1 & A2 & A3 & A4 & A5) (B1 & B2 & B3 & B4 & B5).
  repeat split; congruence.
Qed.

Lemma holding_kept_refl user_id row : holding_kept user_id row row.
Proof. unfold holding_kept. auto 7. Qed.

Lemma holding_kept_trans user_id r1 r2 r3 :
  holding_kept user_id r1 r2 -> holding_kept user_id r2 r3 -> holding_kept user_id r1 r3.
Proof.
  intros (A1 & A2 & A3 & A4 & A5 & A6) (B1 & B2 & B3 & B4 & B5 & B6).
  unfold holding_kept.
  split; [congruence|]. split; [congruence|]. split; [congruence|].
  split; [congruence|]. split; [congruence|].
  intros Hother. rewrite B6; [apply A6; exact Hother | rewrite A2; exact Hother].
Qed.

Lemma refreshed_kept user_id quotes row row' :
  refreshed user_id quotes row row' -> holding_kept user_id row row'.
Proof.
  intros (H1 & H2 & H3 & H4 & H5 & Hsame & _). unfold holding_kept.
  do 5 (split; [assumption|]). intros Hother. apply Hsame. left. exact Hother.
Qed.

Lemma market_pass_refl user_id s : market_pass user_id s s.
Proof.
  unfold market_pass. do 4 (split; [reflexivity|]).
  split; apply (rows_kept_refl _ (holding_kept_refl user_id)).
Qed.

Lemma market_pass_trans user_id s1 s2 s3 :
  market_pass user_id s1 s2 -> market_pass user_id s2 s3 -> market_pass user_id s1 s3.
Proof.
  intros (A1 & A2 & A3 & A4 & A5 & A6) (B1 & B2 & B3 & B4 & B5 & B6).
  unfold market_pass.
  split; [congruence|]. split; [congruence|]. split; [congruence|]. split; [congruence|].
  split; eapply (rows_kept_trans _ (holding_kept_trans user_id)); eassumption.
Qed.

Lemma same_store_market user_id s s' : same_store s s' -> market_pass user_id s s'.
Proof. intros [Hd Hr]. unfold market_pass. rewrite Hd, Hr. apply market_pass_refl. Qed.

Lemma preserved_same user_id s s' : database s' = database s -> preserved user_id s s'.
Proof.
  intros Hd. unfold preserved. rewrite Hd.
  split; [apply (rows_kept_refl _ connection_kept_refl)|].
  split; [apply (rows_grown_refl _ account_kept_refl)|].
  split; [apply (rows_grown_refl _ (@eq_refl _))|].
  split; apply (rows_kept_refl _ (holding_kept_refl user_id)).
Qed.

Lemma preserved_refl user_id s : preserved user_id s s.
Proof. apply preserved_same. reflexivity. Qed.

Lemma preserved_trans user_id s1 s2 s3 :
  preserved user_id s1 s2 -> preserved user_id s2 s3 -> preserved user_id s1 s3.
Proof.
  intros (A1 & A2 & A3 & A4 & A5) (B1 & B2 & B3 & B4 & B5). unfold preserved.
  split; [eapply (rows_kept_trans _ connection_kept_trans); eassumption|].
  split; [eapply (rows_grown_trans _ account_kept_trans); eassumption|].
  split; [eapply (rows_grown_trans _ (@eq_trans _)); eassumption|].
  split; eapply (rows_kept_trans _ (holding_kept_trans user_id)); eassumption.
Qed.

Lemma market_pass_preserved user_id s s' : market_pass user_id s s' -> preserved user_id s s'.
Proof.
  intros (A1 & A2 & A3 & _ & A5 & A6). unfold preserved. rewrite A1, A2, A3.
  split; [apply (rows_kept_refl _ connection_kept_refl)|].
  split; [apply (rows_grown_refl _ account_kept_refl)|].
  split; [apply (rows_grown_refl _ (@eq_refl _))|].
  split; assumption.
Qed.

Lemma quiet_market user_id {A} (c : M A) : quiet c -> respects (market_pass user_id) c.
Proof. apply respects_weaken. apply same_store_market. Qed.

Lemma quiet_preserved user_id {A} (c : M A) : quiet c -> respects (preserved user_id) c.
Proof. apply respects_weaken. intros s s' [Hd _]. apply preserved_same. exact Hd. Qed.

Lemma update_stock_prices_market env user_id quotes :
  respects (market_pass user_id) (FinancialDataManager._update_stock_prices env user_id quotes).
Proof.
  intros s. unfold FinancialDataManager._update_stock_prices.
  rewrite (bind_returned sqlite3_connect _ s (database s) s eq_refl).
  destruct (stock_holdings (database s)) as [t|] eqn:Ht.
  - generalize (stock_prices_loop env user_id quotes (database s) s t Ht).
    unfold bind.
    destruct (for_fold quotes _ (database s) s) as [conn' s'|e s'];
      [|intros [Hd Hr]; apply same_store_market; split; assumption].
    intros (t' & Hget & _ & Hrows & H1 & H2 & H3 & H4 & _ & H6).
    cbn [commit final].
    unfold market_pass. cbn [database sync_results].
    rewrite Ht, Hget, H4. cbn [rows_kept].
    split; [exact H1|]. split; [exact H2|]. split; [exact H3|]. split; [exact H6|].
    split; [|apply (rows_kept_refl _ (holding_kept_refl user_id))].
    eapply Forall2_impl; [|exact Hrows]. intros a b. apply refreshed_kept.
  - destruct quotes as [|[symbol data] quotes];
      [apply same_store_market; split; reflexivity|].
    cbn [for_fold]. unfold bind. rewrite datetime_now_eq. cbn [record database].
    rewrite Ht. apply same_store_market; split; reflexivity.
Qed.

Lemma update_crypto_prices_market env user_id quotes :
  respects (market_pass user_id) (FinancialDataManager._update_crypto_prices env user_id quotes).
Proof.
  intros s. unfold FinancialDataManager._update_crypto_prices.
  rewrite (bind_returned sqlite3_connect _ s (database s) s eq_refl).
  destruct (crypto_holdings (database s)) as [t|] eqn:Ht.
  - generalize (crypto_prices_loop env user_id quotes (database s) s t Ht).
    unfold bind.
    destruct (for_fold quotes _ (database s) s) as [conn' s'|e s'];
      [|intros [Hd Hr]; apply same_store_market; split; assumption].
    intros (t' & Hget & _ & Hrows & H1 & H2 & H3 & H4 & _ & H6).
    cbn [commit final].
    unfold market_pass. cbn [database sync_results].
    rewrite Ht, Hget, H4. cbn [rows_kept].
    split; [exact H1|]. split; [exact H2|]. split; [exact H3|]. split; [exact H6|].
    split; [apply (rows_kept_refl _ (holding_kept_refl user_id))|].
    eapply Forall2_impl; [|exact Hrows]. intros a b. apply refreshed_kept.
  - destruct quotes as [|[symbol data] quotes];
      [apply same_store_market; split; reflexivity|].
    cbn [for_fold]. unfold bind. rewrite datetime_now_eq. cbn [record database].
    rewrite Ht. apply same_store_market; split; reflexivity.
Qed.

Lemma sync_stock_data_market env user_id :
  respects (market_pass user_id) (FinancialDataManager._sync_stock_data env user_id).
Proof.
  pose proof (market_pass_refl user_id) as Rf. pose proof (market_pass_trans user_id) as T.
  unfold FinancialDataManager._sync_stock_data.
  apply (respects_try_except _ T); [|intros e; apply quiet_market, quiet_print].
  apply (respects_bind _ T); [apply quiet_market, quiet_connect | intros conn].
  apply (respects_bind _ T); [apply (respects_lift _ Rf) | intros stocks].
  apply (respects_bind _ T); [apply (respects_lift _ Rf) | intros cryptos].
  apply (respects_bind _ T); [|intros _].
  - destruct (FinancialDataManager.select_symbols stocks user_id);
      [apply (respects_ret _ Rf)|].
    apply (respects_bind _ T);
      [apply quiet_market, quiet_get_stock_data
      |intros stock_data; apply update_stock_prices_market].
  - destruct (FinancialDataManager.select_symbols cryptos user_id);
      [apply (respects_ret _ Rf)|].
    apply (respects_bind _ T);
      [apply quiet_market, quiet_get_crypto_data
      |intros crypto_data; apply update_crypto_prices_market].
Qed.

Lemma select_symbols_none t user_id :
  (forall row, In row (rows t) -> Holdings.user_id row <> user_id) ->
  FinancialDataManager.select_symbols t user_id = [].
Proof.
  intros H. unfold FinancialDataManager.select_symbols.
  induction (rows t) as [|row l IH]; cbn [filter map]; [reflexivity|].
  destruct (Z.eqb_spec (Holdings.user_id row) user_id) as [E|_].
  - exfalso. apply (H row); [left; reflexivity | exact E].
  - apply IH. intros r Hr. apply H. right. exact Hr.
Qed.

(** X16: the market-data pass [_sync_stock_data] never raises; it leaves
    the connections, the accounts, the transactions and [sync_results] as
    they were; in the two tables of holdings no row is added, deleted or
    moved, every row keeps its id, owner, symbol, quantity and purchase
    price, and the rows of other users are exactly as before; and when both
    tables exist and the user holds nothing, nothing happens at all: no
    quote is fetched and the state is the one before. *)
Theorem sync_stock_data_frame (env : Env) (user_id : Z) (s : State) :
  exists s',
    FinancialDataManager._sync_stock_data env user_id s = Returned tt s'
    /\ market_pass user_id s s'
    /\ forall stocks cryptos,
         stock_holdings (database s) = Some stocks ->
         crypto_holdings (database s) = Some cryptos ->
         (forall row, In row (rows stocks ++ rows cryptos) ->
                      Holdings.user_id row <> user_id) ->
         s' = s.
Proof.
  destruct (proj2 (sync_stock_data_results env user_id) s) as ([] & s' & Hrun).
  exists s'. split; [exact Hrun|]. split.
  - pose proof (sync_stock_data_market env user_id s) as H.
    rewrite Hrun in H. exact H.
  - intros stocks cryptos Hstocks Hcryptos Hnone.
    revert Hrun. unfold FinancialDataManager._sync_stock_data, try_except.
    rewrite (bind_returned sqlite3_connect _ s (database s) s eq_refl).
    unfold bind at 1. rewrite Hstocks. cbn [from_table lift ret].
    unfold bind at 1. rewrite Hcryptos. cbn [from_table lift ret].
    rewrite (select_symbols_none stocks), (select_symbols_none cryptos).
    + intros [= <-]. reflexivity.
    + intros row Hrow. apply Hnone, in_or_app. right. exact Hrow.
    + intros row Hrow. apply Hnone, in_or_app. left. exact Hrow.
Qed.

Lemma insert_transactions_extend env account_id transactions : forall conn s conn' s',
  for_fold transactions (FinancialDataManager.insert_transaction env account_id) conn s
  = Returned conn' s' ->
  rows_grown eq (transactions_ conn) (transactions_ conn').
Proof.
  induction transactions as [|transaction l IH]; cbn [for_fold]; intros conn s conn' s' H.
  - injection H as <- _. apply (rows_grown_refl _ (@eq_refl _)).
  - apply bind_inv in H as (conn1 & s1 & H1 & H).
    apply insert_transaction_returned in H1
      as [_ (t & t' & notes & now & Ht & Ht' & Hrows)].
    eapply (rows_grown_trans _ (@eq_trans _)); [|eapply IH; exact H].
    rewrite Ht, Ht'. cbn [rows_grown]. eexists (rows t), _.
    split; [exact Hrows | apply Forall2_same; reflexivity].
Qed.

Lemma update_account_preserved env user_id a :
  respects (preserved user_id) (FinancialDataManager._update_account_from_api env user_id a).
Proof.
  intros s. unfold FinancialDataManager._update_account_from_api.
  rewrite (bind_returned sqlite3_connect _ s (database s) s eq_refl).
  unfold bind at 1.
  destruct (accounts (database s)) as [t|] eqn:Haccounts; cbn [from_table lift ret raise];
    [|apply preserved_refl].
  cbv zeta.
  assert (Hloop : forall account_id conn s0,
             database s0 = database s ->
             api_connections conn = api_connections (database s) ->
             transactions_ conn = transactions_ (database s) ->
             stock_holdings conn = stock_holdings (database s) ->
             crypto_holdings conn = crypto_holdings (database s) ->
             rows_grown account_kept (Some t) (accounts conn) ->
             preserved user_id s
               (final (uncommitted env
                         (conn <- for_fold (get_default (transactions a) [])
                                    (FinancialDataManager.insert_transaction env account_id)
                                    conn ;;
                          commit conn) s0))).
  { intros account_id conn s0 Hdb C1 C2 C3 C4 Hgrown. unfold uncommitted, bind.
    destruct (for_fold _ _ conn s0) as [conn' s'|e s'] eqn:Hrun.
    - pose proof (insert_transactions_returned _ _ _ _ _ _ _ Hrun) as (B1 & B2 & B3 & B4).
      pose proof (insert_transactions_extend _ _ _ _ _ _ _ Hrun) as Hext.
      unfold preserved. cbn [commit final database].
      rewrite B1, B2, B3, B4, C1, C3, C4, Haccounts. rewrite C2 in Hext.
      split; [apply (rows_kept_refl _ connection_kept_refl)|].
      split; [exact Hgrown|]. split; [exact Hext|].
      split; apply (rows_kept_refl _ (holding_kept_refl user_id)).
    - pose proof (respects_for_fold same_store same_store_refl same_store_trans
                    (get_default (transactions a) []) _
                    (quiet_insert_transaction env account_id) conn s0) as Hq.
      rewrite Hrun in Hq. cbn [final] in *. destruct Hq as [Hq _].
      apply preserved_same. cbn [record database]. congruence. }
  destruct (find _ (rows t)) as [existing|].
  - unfold bind at 1. unfold bind at 1.
    destruct (encrypt_data_cases env
                (json_dumps_info env
                   {| info_balance := balance a; info_currency := currency a;
                      info_institution := institution a;
                      last_api_update := last_updated a |}) s)
      as [(payload & ->)|(e & ->)]; [|apply preserved_same; reflexivity].
    unfold bind at 1. rewrite datetime_now_eq.
    unfold bind at 1.
    destruct (begin_write_cases (record ClockRead (record TokenSealed s))) as [->| ->];
      [|apply preserved_same; reflexivity].
    cbn [ret].
    apply Hloop; try reflexivity.
    cbn [set_accounts accounts rows_grown update_where rows].
    eexists _, []. rewrite app_nil_r. split; [reflexivity|].
    apply (Forall2_update_where _ account_kept_refl). intros r. repeat split.
  - unfold bind at 1. unfold bind at 1.
    destruct (encrypt_data_cases env
                (json_dumps_info env
                   {| info_balance := balance a; info_currency := currency a;
                      info_institution := institution a;
                      last_api_update := last_updated a |}) s)
      as [(payload & ->)|(e & ->)]; [|apply preserved_same; reflexivity].
    unfold bind at 1.
    destruct (begin_write_cases (record TokenSealed s)) as [->| ->];
      [|apply preserved_same; reflexivity].
    unfold bind at 1. unfold CURRENT_TIMESTAMP. rewrite datetime_now_eq. cbn [ret].
    apply Hloop; try reflexivity.
    cbn [set_accounts accounts rows_grown insert_into rows].
    eexists _, _. split; [reflexivity|].
    apply Forall2_same. exact account_kept_refl.
Qed.

Lemma stamp_preserved env user_id connection_id :
  respects (preserved user_id)
    (conn <- sqlite3_connect ;;
     now <- datetime_now env ;;
     t <- lift (from_table "api_connections" (api_connections conn)) ;;
     begin_write ;;
     commit (set_api_connections
               (update_where t (fun row => ApiConnections.id row =? connection_id)
                  (ApiConnections.set_last_sync now))
               conn)).
Proof.
  intros s. rewrite (bind_returned sqlite3_connect _ s (database s) s eq_refl).
  unfold bind at 1. rewrite datetime_now_eq. unfold bind at 1.
  destruct (api_connections (database s)) as [t|] eqn:Ht; cbn [from_table lift ret raise];
    [|apply preserved_same; reflexivity].
  unfold bind at 1.
  destruct (begin_write_cases (record ClockRead s)) as [->| ->];
    [|apply preserved_same; reflexivity].
  cbn [commit final]. unfold preserved.
  cbn [database set_api_connections api_connections accounts transactions_
       stock_holdings crypto_holdings].
  rewrite Ht.
  split; [cbn [rows_kept update_where rows];
          apply (Forall2_update_where _ connection_kept_refl); intros r; repeat split|].
  split; [apply (rows_grown_refl _ account_kept_refl)|].
  split; [apply (rows_grown_refl _ (@eq_refl _))|].
  split; apply (rows_kept_refl _ (holding_kept_refl user_id)).
Qed.

Lemma sync_connection_preserved env user_id connection :
  respects (preserved user_id) (FinancialDataManager.sync_connection env user_id connection).
Proof.
  pose proof (preserved_refl user_id) as Rf. pose proof (preserved_trans user_id) as T.
  unfold FinancialDataManager.sync_connection.
  apply (respects_bind _ T); [apply quiet_preserved, quiet_connect | intros conn].
  apply (respects_bind _ T); [apply (respects_lift _ Rf) | intros t].
  apply (respects_bind _ T); [apply (respects_lift _ Rf) | intros encrypted_creds].
  apply (respects_bind _ T); [|intros _; apply stamp_preserved].
  destruct (String.eqb _ _); [|apply (respects_ret _ Rf)].
  apply (respects_bind _ T); [apply quiet_preserved, quiet_init | intros api].
  apply (respects_bind _ T); [apply quiet_preserved, quiet_get_account_data | intros accounts].
  apply (respects_for_each _ Rf T). intros account.
  apply (respects_bind _ T); [apply update_account_preserved | intros _].
  intros s. apply preserved_same. reflexivity.
Qed.

Lemma sync_one_preserved env user_id connection :
  respects (preserved user_id) (FinancialDataManager.sync_one env user_id connection).
Proof.
  pose proof (preserved_refl user_id) as Rf. pose proof (preserved_trans user_id) as T.
  unfold FinancialDataManager.sync_one.
  destruct (negb (conn_is_active connection)); [apply (respects_ret _ Rf)|].
  apply (respects_try_except _ T); [apply sync_connection_preserved | intros e].
  apply (respects_bind _ T); [|intros _; apply quiet_preserved, quiet_print].
  intros s. apply preserved_same. reflexivity.
Qed.

(** X17: a synchronisation loses nothing that was stored.  However
    [sync_account_data] ends, no connection is added, deleted or moved and
    each differs from before at most in its last-sync time; every account
    record is still in place with its id, owner, name, type and creation
    time, new records coming after the old ones; every stored transaction
    is still there, unchanged, new ones coming after them; and in the two
    tables of holdings no row is added, deleted or moved, each keeps its
    id, owner, symbol, quantity and purchase price, and the holdings of
    other users are exactly as before. *)
Theorem sync_keeps_stored_data (env : Env) (user_id : Z) (s : State) :
  preserved user_id s (final (FinancialDataManager.sync_account_data env user_id s)).
Proof.
  pose proof (preserved_refl user_id) as Rf. pose proof (preserved_trans user_id) as T.
  revert s. change (respects (preserved user_id)
                      (FinancialDataManager.sync_account_data env user_id)).
  unfold FinancialDataManager.sync_account_data.
  apply (respects_bind _ T); [apply quiet_preserved, quiet_datetime_now | intros now].
  apply (respects_bind _ T); [intros s; apply preserved_same; reflexivity | intros _].
  apply (respects_bind _ T);
    [|intros _; apply quiet_preserved, quiet_get_sync_results].
  apply (respects_try_except _ T);
    [|intros e s; apply preserved_same; reflexivity].
  apply (respects_bind _ T); [|intros connections].
  - unfold FinancialDataManager.get_api_connections.
    apply (respects_bind _ T); [apply quiet_preserved, quiet_connect | intros conn].
    apply (respects_bind _ T); [apply (respects_lift _ Rf) | intros t].
    apply (respects_ret _ Rf).
  - apply (respects_bind _ T); [|intros _].
    + apply (respects_for_each _ Rf T). intros connection. apply sync_one_preserved.
    + eapply respects_weaken; [apply market_pass_preserved | apply sync_stock_data_market].
Qed.

(** ** The report of a synchronisation *)

Lemma tally_refl s : tally s s.
Proof. unfold tally. repeat split; reflexivity || lia. Qed.

Lemma tally_trans s1 s2 s3 : tally s1 s2 -> tally s2 s3 -> tally s1 s3.
Proof.
  intros (A1 & A2 & A3 & A4) (B1 & B2 & B3 & B4). unfold tally.
  split; [congruence|]. split; [congruence|]. split; [congruence | lia].
Qed.

Lemma same_results_tally s s' : same_results s s' -> tally s s'.
Proof. unfold same_results. intros H. unfold tally. rewrite H. apply tally_refl. Qed.

Lemma quiet_tally {A} (c : M A) : quiet c -> respects tally c.
Proof. intros H. eapply respects_weaken; [apply same_results_tally | apply quiet_same_results, H]. Qed.

Lemma update_account_same_results env user_id a :
  respects same_results (FinancialDataManager._update_account_from_api env user_id a).
Proof.
  pose proof same_results_refl as Rf. pose proof same_results_trans as T.
  unfold FinancialDataManager._update_account_from_api. cbv zeta.
  apply (respects_bind _ T); [apply quiet_same_results, quiet_connect | intros conn].
  apply (respects_bind _ T); [apply (respects_lift _ Rf) | intros t].
  apply (respects_bind _ T); [|intros [conn1 account_id]].
  - apply quiet_same_results. destruct (find _ (rows t)); unfold CURRENT_TIMESTAMP; quiet_tac.
  - apply respects_uncommitted; [intros s s' ev H; exact H|].
    apply (respects_bind _ T); [|intros conn2 s; reflexivity].
    apply quiet_same_results.
    apply (respects_for_fold same_store same_store_refl same_store_trans).
    intros v x. apply quiet_insert_transaction.
Qed.

Lemma sync_connection_tally env user_id connection :
  respects tally (FinancialDataManager.sync_connection env user_id connection).
Proof.
  pose proof tally_refl as Rf. pose proof tally_trans as T.
  unfold FinancialDataManager.sync_connection.
  apply (respects_bind _ T); [apply quiet_tally, quiet_connect | intros conn].
  apply (respects_bind _ T); [apply (respects_lift _ Rf) | intros t].
  apply (respects_bind _ T); [apply (respects_lift _ Rf) | intros encrypted_creds].
  apply (respects_bind _ T); [|intros _].
  - destruct (String.eqb _ _); [|apply (respects_ret _ Rf)].
    apply (respects_bind _ T); [apply quiet_tally, quiet_init | intros api].
    apply (respects_bind _ T); [apply quiet_tally, quiet_get_account_data | intros accounts].
    apply (respects_for_each _ Rf T). intros account.
    apply (respects_bind _ T); [|intros _].
    + eapply respects_weaken; [apply same_results_tally | apply update_account_same_results].
    + intros s. unfold tally. cbn. repeat split. lia.
  - apply (respects_bind _ T); [apply quiet_tally, quiet_connect | intros conn1].
    apply (respects_bind _ T); [apply quiet_tally, quiet_datetime_now | intros now].
    apply (respects_bind _ T); [apply (respects_lift _ Rf) | intros t1].
    apply (respects_bind _ T); [apply quiet_tally, quiet_begin_write | intros _].
    intros s. apply same_results_tally. reflexivity.
Qed.

Lemma sync_errors_app l1 l2 : sync_errors (l1 ++ l2) = sync_errors l1 ++ sync_errors l2.
Proof.
  induction l1 as [|[connection [e|]] l1 IH]; cbn [app sync_errors]; [reflexivity| |exact IH].
  rewrite IH. reflexivity.
Qed.

(** One turn of the loop: it returns, and it appends one message when the
    connection is active and its processing raised, and none otherwise. *)
Lemma sync_one_report env user_id connection s :
  exists s' outcome,
    FinancialDataManager.sync_one env user_id connection s = Returned tt s'
    /\ success (sync_results s') = success (sync_results s)
    /\ last_sync (sync_results s') = last_sync (sync_results s)
    /\ accounts_updated (sync_results s) <= accounts_updated (sync_results s')
    /\ errors (sync_results s')
       = errors (sync_results s)
         ++ sync_errors (if conn_is_active connection then [(connection, outcome)] else []).
Proof.
  unfold FinancialDataManager.sync_one.
  destruct (conn_is_active connection); cbn [negb].
  - unfold try_except.
    pose proof (sync_connection_tally env user_id connection s) as H.
    destruct (FinancialDataManager.sync_connection env user_id connection s) as [[] s1|e s1];
      cbn [final] in H; destruct H as (H1 & H2 & H3 & H4).
    + exists s1, None. cbn [sync_errors]. rewrite app_nil_r. auto.
    + eexists _, (Some e). split; [reflexivity|].
      cbn [sync_results success last_sync accounts_updated errors sync_errors record].
      rewrite H3. auto.
  - exists s, None. cbn [ret sync_errors]. rewrite app_nil_r.
    repeat split; reflexivity || lia.
Qed.

Lemma sync_loop_report env user_id connections : forall s,
  exists s' outcomes,
    for_each connections (FinancialDataManager.sync_one env user_id) s = Returned tt s'
    /\ map fst outcomes = filter conn_is_active connections
    /\ success (sync_results s') = success (sync_results s)
    /\ last_sync (sync_results s') = last_sync (sync_results s)
    /\ accounts_updated (sync_results s) <= accounts_updated (sync_results s')
    /\ errors (sync_results s') = errors (sync_results s) ++ sync_errors outcomes.
Proof.
  induction connections as [|connection l IH]; intros s; cbn [for_each filter].
  - exists s, []. cbn [ret map sync_errors]. rewrite app_nil_r.
    repeat split; reflexivity || lia.
  - destruct (sync_one_report env user_id connection s)
      as (s1 & outcome & Hrun & A1 & A2 & A3 & A4).
    destruct (IH s1) as (s' & outcomes & Hloop & Hmap & B1 & B2 & B3 & B4).
    rewrite (bind_returned _ _ _ _ _ Hrun).
    exists s', ((if conn_is_active connection then [(connection, outcome)] else [])
                ++ outcomes).
    split; [exact Hloop|]. split.
    + rewrite map_app, Hmap. destruct (conn_is_active connection); reflexivity.
    + split; [congruence|]. split; [congruence|]. split; [lia|].
      rewrite B4, A4, sync_errors_app, app_assoc. reflexivity.
Qed.

(** X18: when the table of connections exists, [sync_account_data] returns
    a report whose success flag is true, whose last-sync time is the
    reading of the clock at the start, whose count of accounts is not
    negative, and whose errors are, in the order of the listing, at most
    one message per active connection of the user, each naming the
    institution of its connection and an exception, and nothing else: no
    message names an inactive connection or a connection of another
    user. *)
Theorem sync_errors_attributed (env : Env) (user_id : Z) (s : State)
    (t : table ApiConnections.row)
    (Htable : api_connections (database s) = Some t) :
  exists r s' outcomes,
    FinancialDataManager.sync_account_data env user_id s = Returned r s'
    /\ map fst outcomes = filter conn_is_active (listing user_id (database s))
    /\ errors r = sync_errors outcomes
    /\ success r = true
    /\ last_sync r = clock env (List.length (trace s))
    /\ 0 <= accounts_updated r.
Proof.
  unfold FinancialDataManager.sync_account_data.
  rewrite (bind_returned _ _ _ _ _ (datetime_now_eq env s)).
  unfold bind at 1. cbn [put_sync_results record database trace].
  change {| database := database s; trace := trace s ++ [ClockRead];
            sync_results := {| success := true; accounts_updated := 0; errors := [];
                               last_sync := clock env (List.length (trace s)) |} |}
    with (started env s).
  pose proof (get_api_connections_listing user_id (started env s) t Htable) as Henum.
  destruct (sync_loop_report env user_id (listing user_id (database (started env s)))
              (started env s)) as (s2 & outcomes & Hloop & Hmap & A1 & A2 & A3 & A4).
  destruct (proj2 (sync_stock_data_results env user_id) s2) as ([] & s3 & Hmarket).
  pose proof (proj1 (sync_stock_data_results env user_id) s2) as Hres.
  rewrite Hmarket in Hres. cbn [final] in Hres. unfold same_results in Hres.
  assert (Hbody : (connections <- FinancialDataManager.get_api_connections user_id ;;
                   for_each connections (FinancialDataManager.sync_one env user_id) ;;
                   FinancialDataManager._sync_stock_data env user_id) (started env s)
                  = Returned tt s3).
  { rewrite (bind_returned _ _ _ _ _ Henum).
    rewrite (bind_returned _ _ _ _ _ Hloop). exact Hmarket. }
  rewrite (bind_returned _ _ _ _ _ (try_except_returned _ _ _ _ _ Hbody)).
  exists (sync_results s3), s3, outcomes. split; [reflexivity|].
  split; [exact Hmap|]. rewrite Hres.
  split; [rewrite A4; reflexivity|]. split; [rewrite A1; reflexivity|].
  split; [rewrite A2; reflexivity|]. exact A3.
Qed.

Lemma sync_errors_attributed_witness :
  exists r s' outcomes,
    FinancialDataManager.sync_account_data Sample.env 1 Sample.without_accounts
    = Returned r s'
    /\ map fst outcomes
       = filter conn_is_active (listing 1 (database Sample.without_accounts))
    /\ errors r = sync_errors outcomes
    /\ success r = true
    /\ last_sync r = clock Sample.env (List.length (trace Sample.without_accounts))
    /\ 0 <= accounts_updated r.
Proof.
  exact (sync_errors_attributed Sample.env 1 Sample.without_accounts _ eq_refl).
Defined.
